(** * The plugin-master generator, embedded from [generate_pluginmaster.py]

    The development follows the Python source function by function.  Python
    dictionaries read from JSON ("manifests", release assets) are finite maps
    from strings to JSON values; the exceptions the source lets escape are an
    explicit [result]; the file system, the network and the clock are an
    explicit environment.  Strings are sequences of code points below 256. *)

From Stdlib Require Import ZArith String Ascii DecimalString Bool.
From stdpp Require Import gmap strings list fin_maps.

(** ** Exceptions *)

Inductive exn := KeyError | AttributeError | TypeError | ValueError.

Inductive result (A : Type) : Type :=
  | Ok (a : A)
  | Raise (e : exn).
Arguments Ok {A} a.
Arguments Raise {A} e.

Definition bind {A B : Type} (r : result A) (f : A -> result B) : result B :=
  match r with
  | Ok a => f a
  | Raise e => Raise e
  end.

Notation "x <- r ;; k" := (bind r (fun x => k))
  (at level 100, r at next level, right associativity).

(** ** Python string built-ins *)

Module PyStr.

Definition startswith (s pre : string) : bool := String.prefix pre s.

(** [s.endswith(suf)] *)
Fixpoint endswith (s suf : string) : bool :=
  String.eqb s suf ||
  match s with
  | EmptyString => false
  | String _ s' => endswith s' suf
  end.

(** [sub in s] *)
Fixpoint contains (s sub : string) : bool :=
  String.prefix sub s ||
  match s with
  | EmptyString => false
  | String _ s' => contains s' sub
  end.

(** [s.replace(old, new)] for a non-empty [old]: occurrences are replaced
    from the left and do not overlap; [skip] counts the characters of the
    occurrence just replaced that are still to be dropped. *)
Fixpoint replace_go (old new : string) (skip : nat) (s : string) : string :=
  match s with
  | EmptyString => EmptyString
  | String c s' =>
      match skip with
      | S k => replace_go old new k s'
      | O =>
          if String.prefix old s
          then new +:+ replace_go old new (String.length old - 1) s'
          else String c (replace_go old new 0 s')
      end
  end.
Definition replace (s old new : string) : string := replace_go old new 0 s.

(** [s.rstrip(c)] for a one-character set *)
Fixpoint rstrip (s : string) (c : ascii) : string :=
  match s with
  | EmptyString => EmptyString
  | String a s' =>
      match rstrip s' c with
      | EmptyString => if Ascii.eqb a c then EmptyString else String a EmptyString
      | r => String a r
      end
  end.

(** [s.split(c)]: never empty, [''.split('.') = ['']] *)
Fixpoint split (s : string) (c : ascii) : list string :=
  match s with
  | EmptyString => [EmptyString]
  | String a s' =>
      if Ascii.eqb a c then EmptyString :: split s' c
      else match split s' c with
           | h :: t => String a h :: t
           | [] => [String a EmptyString]
           end
  end.

(** [s.split(c, 1)] when [c in s]: the text before and after the first [c] *)
Fixpoint split1 (s : string) (c : ascii) : option (string * string) :=
  match s with
  | EmptyString => None
  | String a s' =>
      if Ascii.eqb a c then Some (EmptyString, s')
      else match split1 s' c with
           | Some (h, t) => Some (String a h, t)
           | None => None
           end
  end.

(** [str(n)] of an integer *)
Definition of_Z (n : Z) : string := NilZero.string_of_int (Z.to_int n).

(** *** [int(s)]

    White space is stripped on both sides, one sign is accepted, and the
    digits may be separated by single underscores.  Since 3.11 a decimal
    literal of more than [sys.get_int_max_str_digits()] digits is a
    [ValueError]; a limit of 0 disables the check. *)

Definition is_space (c : ascii) : bool :=
  match c with
  | "009" | "010" | "011" | "012" | "013" | " " | "133" | "160" => true
  | _ => false
  end%char.

Definition digit (c : ascii) : option Z :=
  let n := Z.of_nat (nat_of_ascii c) in
  if Z.leb 48 n && Z.leb n 57 then Some (n - 48)%Z else None.

Fixpoint lstrip_space (s : string) : string :=
  match s with
  | EmptyString => EmptyString
  | String c s' => if is_space c then lstrip_space s' else s
  end.

Fixpoint rstrip_space (s : string) : string :=
  match s with
  | EmptyString => EmptyString
  | String c s' =>
      match rstrip_space s' with
      | EmptyString => if is_space c then EmptyString else String c EmptyString
      | r => String c r
      end
  end.

(** The digits of the literal: value so far, number of digits read, and
    whether the previous character was a digit (an underscore must sit
    between two digits). *)
Fixpoint digits_go (acc : Z) (n : nat) (after_digit : bool) (s : string)
  : option (Z * nat) :=
  match s with
  | EmptyString => if after_digit then Some (acc, n) else None
  | String c s' =>
      match digit c with
      | Some d => digits_go (10 * acc + d) (S n) true s'
      | None =>
          if Ascii.eqb c "_" && after_digit then digits_go acc n false s'
          else None
      end
  end.

Definition int (max_str_digits : nat) (s : string) : option Z :=
  let t := rstrip_space (lstrip_space s) in
  let '(neg, body) :=
    match t with
    | String "+" b => (false, b)
    | String "-" b => (true, b)
    | _ => (false, t)
    end in
  match digits_go 0 0 false body with
  | Some (v, n) =>
      if Nat.ltb 0 max_str_digits && Nat.ltb max_str_digits n then None
      else Some (if neg then - v else v)%Z
  | None => None
  end.

End PyStr.

(** ** JSON values and manifests

    [json.loads] yields [None], booleans, integers, strings, lists and
    dictionaries (floats do not occur in plugin manifests and are left out).
    A nested dictionary is kept as its list of items, keys unique. *)

#[warnings="-register-all"]
Inductive value :=
  | VNone
  | VBool (b : bool)
  | VInt (n : Z)
  | VStr (s : string)
  | VList (l : list value)
  | VDict (d : list (string * value)).

Abbreviation manifest := (gmap string value).

Fixpoint assoc_get {A : Type} (k : string) (d : list (string * A)) : option A :=
  match d with
  | [] => None
  | (k', v) :: d' => if String.eqb k' k then Some v else assoc_get k d'
  end.

(** Python's [==] on JSON values: [True == 1], lists compare element-wise,
    dictionaries compare as mappings. *)
Fixpoint py_eq (a b : value) : bool :=
  match a, b with
  | VNone, VNone => true
  | VBool x, VBool y => Bool.eqb x y
  | VBool x, VInt y => Z.eqb (if x then 1 else 0) y
  | VInt x, VBool y => Z.eqb x (if y then 1 else 0)
  | VInt x, VInt y => Z.eqb x y
  | VStr x, VStr y => String.eqb x y
  | VList xs, VList ys =>
      (fix all2 (l1 l2 : list value) : bool :=
         match l1, l2 with
         | [], [] => true
         | x :: l1', y :: l2' => py_eq x y && all2 l1' l2'
         | _, _ => false
         end) xs ys
  | VDict xs, VDict ys =>
      Nat.eqb (length xs) (length ys) &&
      (fix all (l : list (string * value)) : bool :=
         match l with
         | [] => true
         | (k, v) :: l' =>
             match assoc_get k ys with
             | Some v' => py_eq v v'
             | None => false
             end && all l'
         end) xs
  | _, _ => false
  end.

(** Truth value of a JSON value ([if v:], [not v], [a or b]). *)
Definition truthy (v : value) : bool :=
  match v with
  | VNone => false
  | VBool b => b
  | VInt n => negb (Z.eqb n 0)
  | VStr s => negb (String.eqb s "")
  | VList l => match l with [] => false | _ => true end
  | VDict d => match d with [] => false | _ => true end
  end.

(** Lists and dictionaries cannot be dictionary keys or set members. *)
Definition hashable (v : value) : bool :=
  match v with
  | VList _ | VDict _ => false
  | _ => true
  end.

(** [d.get(k, dflt)] *)
Definition get_or (m : manifest) (k : string) (dflt : value) : value :=
  default dflt (m !! k).

(** [d.get(k)] *)
Definition get (m : manifest) (k : string) : value := get_or m k VNone.

(** [k in d] *)
Definition has_key (m : manifest) (k : string) : bool := bool_decide (is_Some (m !! k)).

(** ** VersionResolver: [PluginMasterGenerator._choose_better_manifest] *)

(** Comparison [a >= b] of two Python lists of integers. *)
Fixpoint py_list_ge (a b : list Z) : bool :=
  match a, b with
  | x :: a', y :: b' => if Z.eqb x y then py_list_ge a' b' else Z.ltb y x
  | [], _ :: _ => false
  | _, [] => true
  end.

(** [[int(x) for x in xs]]; [None] stands for the [ValueError] of [int]. *)
Fixpoint ints (max_str_digits : nat) (xs : list string) : option (list Z) :=
  match xs with
  | [] => Some []
  | x :: xs' =>
      match PyStr.int max_str_digits x with
      | None => None
      | Some n =>
          match ints max_str_digits xs' with
          | None => None
          | Some ns => Some (n :: ns)
          end
      end
  end.

(** [[int(x) for x in version.split('.')]]: a value without [split] raises
    [AttributeError]. *)
Definition version_parts (max_str_digits : nat) (version : value)
  : result (list Z) :=
  match version with
  | VStr s =>
      match ints max_str_digits (PyStr.split s ".") with
      | Some ns => Ok ns
      | None => Raise ValueError
      end
  | _ => Raise AttributeError
  end.

(** [parts.extend([0] * (max_len - len(parts)))] *)
Definition extend_zeros (parts : list Z) (max_len : nat) : list Z :=
  parts ++ replicate (max_len - length parts) 0%Z.

Definition _choose_better_manifest (max_str_digits : nat)
    (repo_manifest local_manifest : manifest) : result manifest :=
  let repo_version := get_or repo_manifest "AssemblyVersion" (VStr "0.0") in
  let local_version := get_or local_manifest "AssemblyVersion" (VStr "0.0") in
  if py_eq repo_version local_version then Ok repo_manifest
  else
    match version_parts max_str_digits repo_version with
    | Raise ValueError => Ok repo_manifest
    | Raise e => Raise e
    | Ok repo_parts =>
        match version_parts max_str_digits local_version with
        | Raise ValueError => Ok repo_manifest
        | Raise e => Raise e
        | Ok local_parts =>
            let max_len := Nat.max (length repo_parts) (length local_parts) in
            let repo_parts := extend_zeros repo_parts max_len in
            let local_parts := extend_zeros local_parts max_len in
            if py_list_ge repo_parts local_parts then Ok repo_manifest
            else Ok local_manifest
        end
    end.

(** *** The comparison in the words of the specification

    Split on [.], read every component as an integer, pad the shorter tuple
    with zeros, compare the tuples lexicographically. *)

Definition spec_tuple (max_str_digits : nat) (version : string) : option (list Z) :=
  ints max_str_digits (PyStr.split version ".").

Definition spec_pad (n : nat) (t : list Z) : list Z :=
  t ++ replicate (n - length t) 0%Z.

(** Strict lexicographic order on tuples of one length. *)
Inductive lex_lt : list Z -> list Z -> Prop :=
  | lex_lt_here x y a b : (x < y)%Z -> length a = length b -> lex_lt (x :: a) (y :: b)
  | lex_lt_next x a b : lex_lt a b -> lex_lt (x :: a) (x :: b).

Definition lex_le (a b : list Z) : Prop := a = b \/ lex_lt a b.

(** The repository version is greater than or equal to the local one, or one
    of the two does not parse. *)
Definition repo_not_older (max_str_digits : nat) (repo_v local_v : string) : Prop :=
  match spec_tuple max_str_digits repo_v, spec_tuple max_str_digits local_v with
  | Some r, Some l =>
      let n := Nat.max (length r) (length l) in
      lex_le (spec_pad n l) (spec_pad n r)
  | _, _ => True
  end.

(** Both versions parse and the local one is strictly greater. *)
Definition local_newer (max_str_digits : nat) (repo_v local_v : string) : Prop :=
  match spec_tuple max_str_digits repo_v, spec_tuple max_str_digits local_v with
  | Some r, Some l =>
      let n := Nat.max (length r) (length l) in
      lex_lt (spec_pad n r) (spec_pad n l)
  | _, _ => False
  end.


(** ** Configuration and environment *)

(** The fields of the [Config] dataclass that the modelled functions read.
    Dictionaries whose iteration order matters are lists of items. *)
Record Config := {
  branch : string;
  output_files : list (string * string);
  plugin_outputs : gmap string string;
  download_urls : gmap string string;
  required_manifest_keys : list string;
  field_duplicates : list (string * list string);
  repo : string;
  global_api_level : Z;
}.

(** What the functions obtain from outside the program: built-ins that are
    not modelled, the network, the file system and the clock. *)
Record World := {
  (** [sys.get_int_max_str_digits()] *)
  int_max_str_digits : nat;
  (** [str(v)] of a list or a dictionary *)
  container_str : value -> string;
  (** [template.format(branch=b, plugin_name=p)] *)
  str_format : string -> string -> value -> result string;
  (** [(Path("icons") / name).exists()] *)
  icon_exists : string -> bool;
  (** the asset lookup of [add_download_links], for an asset URL and a token
      name: [Some v] when the request answers 200 with a JSON object whose
      [.get("name")] is [v], [None] for any other answer or an exception *)
  asset_info_name : value -> string -> option value;
  (** [GET /repos/{owner}/{repo}/releases/latest] without credentials:
      [Some assets] when it answers 200 with a list of asset objects (empty
      when the key is absent), [None] otherwise *)
  latest_release_assets : string -> string -> option (list manifest);
  (** [int(zip_path.stat().st_mtime)] of the main or global archive of a
      plugin directory, when the archive exists *)
  zip_mtime : string -> bool -> option Z;
  (** [int(time.time())] while the n-th manifest is stamped *)
  clock : nat -> Z;
  (** [Path(p).resolve()] *)
  resolve : string -> string;
  (** the resolved path is an entry of the working directory that
      [Path(".").glob("*.json")] yields *)
  is_cwd_json : string -> bool;
}.

(** [str(v)], as used by f-strings. *)
Definition str_of (W : World) (v : value) : string :=
  match v with
  | VStr s => s
  | VInt n => PyStr.of_Z n
  | VBool true => "True"
  | VBool false => "False"
  | VNone => "None"
  | _ => container_str W v
  end.

(** A [str] method called on a JSON value. *)
Definition str_method {A : Type} (v : value) (f : string -> A) : result A :=
  match v with
  | VStr s => Ok (f s)
  | _ => Raise AttributeError
  end.

(** [d[k]] *)
Definition item (m : manifest) (k : string) : result value :=
  match m !! k with
  | Some v => Ok v
  | None => Raise KeyError
  end.

(** [d.get(k)] on a dictionary with string keys, for a key that is any JSON
    value: an unhashable key raises. *)
Definition str_dict_get {A : Type} (d : gmap string A) (k : value) : result (option A) :=
  match k with
  | VStr s => Ok (d !! s)
  | VList _ | VDict _ => Raise TypeError
  | _ => Ok None
  end.

(** Dictionaries and sets keyed by JSON values ([processed_plugins],
    [existing_download_counts], [output_routing]). *)
Fixpoint vdict_get (d : list (value * value)) (k : value) : option value :=
  match d with
  | [] => None
  | (k', v) :: d' => if py_eq k' k then Some v else vdict_get d' k
  end.

Fixpoint vdict_set (d : list (value * value)) (k v : value) : list (value * value) :=
  match d with
  | [] => [(k, v)]
  | (k', v') :: d' => if py_eq k' k then (k', v) :: d' else (k', v') :: vdict_set d' k v
  end.

Definition vset_mem (s : list value) (k : value) : bool := existsb (fun k' => py_eq k' k) s.

(** ** AssetSelector *)

(** A [for]-loop that stops at the first asset satisfying the test. *)
Fixpoint first_match (p : manifest -> result bool) (assets : list manifest)
  : result (option manifest) :=
  match assets with
  | [] => Ok None
  | a :: rest =>
      b <- p a;;
      if b then Ok (Some a) else first_match p rest
  end.

(** Lines 244-273 of [PluginProcessor._get_repo_download_url]: the name of
    the preferred asset. *)
Definition preferred_asset_name (plugin_name : string) (assets : list manifest)
  : result (option value) :=
  let name a := get_or a "name" (VStr "") in
  r1 <- first_match (fun a => Ok (py_eq (name a) (VStr "latest.zip"))) assets;;
  match r1 with
  | Some a => Ok (Some (name a))
  | None =>
      r2 <- first_match (fun a =>
              e <- str_method (name a) (fun n => PyStr.endswith n ".zip");;
              if e then
                str_method (name a) (fun n =>
                  PyStr.startswith n (plugin_name +:+ "-") &&
                  negb (PyStr.endswith n "-latest.zip"))
              else Ok false) assets;;
      match r2 with
      | Some a => Ok (Some (name a))
      | None =>
          r3 <- first_match (fun a =>
                  Ok (py_eq (name a) (VStr (plugin_name +:+ ".zip")))) assets;;
          match r3 with
          | Some a => Ok (Some (name a))
          | None =>
              r4 <- first_match (fun a =>
                      str_method (name a) (fun n => PyStr.endswith n ".zip")) assets;;
              match r4 with
              | Some a => Ok (Some (name a))
              | None => Ok None
              end
          end
      end
  end.

(** [PluginProcessor._get_repo_download_url]; every exception is caught and
    turned into [None]. *)
Definition _get_repo_download_url (W : World) (m : manifest) : option string :=
  match get_or m "RepoUrl" (VStr "") with
  | VStr repo_url =>
      if negb (truthy (VStr repo_url)) || negb (PyStr.contains repo_url "github.com")
      then None
      else
        let repo_path :=
          PyStr.rstrip (PyStr.replace repo_url "https://github.com/" "") "/" in
        match PyStr.split1 repo_path "/" with
        | None => None
        | Some (owner, rep) =>
            match latest_release_assets W owner rep with
            | None => None
            | Some assets =>
                match m !! "InternalName" with
                | None => None
                | Some plugin_name =>
                    match preferred_asset_name (str_of W plugin_name) assets with
                    | Ok (Some preferred) =>
                        Some ("https://github.com/" +:+ owner +:+ "/" +:+ rep +:+
                              "/releases/latest/download/" +:+ str_of W preferred)
                    | _ => None
                    end
                end
            end
        end
  | _ => None
  end.

(** [RepositoryPluginProcessor._find_plugin_asset], on the asset list of the
    release; the result is [asset.get("url")] of the chosen asset, [None]
    when there is none. *)
Definition _find_plugin_asset (assets : list manifest) (plugin_name : string)
  : result value :=
  let url_of (r : option manifest) (otherwise : result value) : result value :=
    match r with
    | Some a => Ok (get a "url")
    | None => otherwise
    end in
  let named (s : string) : manifest -> result bool :=
    fun a => Ok (py_eq (get a "name") (VStr s)) in
  r1 <- first_match (named "latest.zip") assets;;
  url_of r1 (
  r2 <- first_match (named (plugin_name +:+ ".zip")) assets;;
  url_of r2 (
  let plugin_name_no_spaces := PyStr.replace plugin_name " " "" in
  r3 <- first_match (named (plugin_name_no_spaces +:+ ".zip")) assets;;
  url_of r3 (
  let plugin_name_dashes := PyStr.replace plugin_name " " "-" in
  r4 <- first_match (named (plugin_name_dashes +:+ ".zip")) assets;;
  url_of r4 (
  r5 <- first_match (fun a =>
          e <- str_method (get_or a "name" (VStr "")) (fun n => PyStr.endswith n ".zip");;
          if e then
            str_method (get_or a "name" (VStr "")) (fun n =>
              PyStr.startswith n (plugin_name +:+ "-"))
          else Ok false) assets;;
  url_of r5 (
  r6 <- first_match (fun a =>
          str_method (get_or a "name" (VStr "")) (fun n => PyStr.endswith n ".zip"))
        assets;;
  url_of r6 (Ok VNone)))))).

(** ** ManifestEnricher *)

(** [manifest["Name"].endswith(f"(API{self.config.global_api_level})")] *)
Definition is_global_build (cfg : Config) (m : manifest) : result bool :=
  name <- item m "Name";;
  str_method name (fun n =>
    PyStr.endswith n ("(API" +:+ PyStr.of_Z (global_api_level cfg) +:+ ")")).

(** [self.config.download_urls[key].format(branch=..., plugin_name=...)] *)
Definition format_url (cfg : Config) (W : World) (key : string) (plugin_name : value)
  : result string :=
  match download_urls cfg !! key with
  | Some template => str_format W template (branch cfg) plugin_name
  | None => Raise KeyError
  end.

(** The [try] block of the stored-asset case: the link is set when the token
    name is truthy, the lookup answers and the asset name is truthy; each
    failure inside the block is caught and leaves the manifest as it is. *)
Definition resolve_asset_link (W : World) (owner_repo : string) (m : manifest)
  : manifest :=
  let asset_api_url := get m "_repository_asset_url" in
  let token_name := get m "_repository_token_name" in
  if truthy token_name then
    match token_name with
    | VStr tn =>
        match asset_info_name W asset_api_url tn with
        | Some asset_name =>
            if truthy asset_name then
              <["DownloadLinkInstall" :=
                  VStr ("https://github.com/" +:+ owner_repo +:+
                        "/releases/latest/download/" +:+ str_of W asset_name)]> m
            else m
        | None => m
        end
    | _ => m
    end
  else m.

(** Step 1 of [add_download_links]: the install link. *)
Definition install_link (cfg : Config) (W : World) (is_global : bool)
    (plugin_name : value) (m : manifest) : result manifest :=
  let is_from_repository := truthy (get_or m "_repository_source" (VBool false)) in
  if has_key m "_repository_asset_url" then
    owner_repo <- str_method (get_or m "RepoUrl" (VStr "")) (fun repo_url =>
                    PyStr.rstrip (PyStr.replace repo_url "https://github.com/" "") "/");;
    Ok (resolve_asset_link W owner_repo m)
  else if is_from_repository then
    match _get_repo_download_url W m with
    | Some repo_download_url =>
        Ok (<["DownloadLinkInstall" := VStr repo_download_url]> m)
    | None => Ok m
    end
  else
    let url_key := if is_global then "global" else "main" in
    url <- format_url cfg W url_key plugin_name;;
    Ok (<["DownloadLinkInstall" := VStr url]> m).

(** Step 2: the testing link; [manifest.pop("_testing_download_url")] removes
    the key. *)
Definition testing_link (cfg : Config) (W : World) (is_global : bool)
    (plugin_name : value) (m : manifest) : result manifest :=
  if has_key m "TestingAssemblyVersion" && negb is_global then
    match m !! "_testing_download_url" with
    | Some url =>
        Ok (<["DownloadLinkTesting" := url]> (delete "_testing_download_url" m))
    | None =>
        url <- format_url cfg W "testing" plugin_name;;
        Ok (<["DownloadLinkTesting" := VStr url]> m)
    end
  else Ok m.

(** Step 3: [if src in manifest and target not in manifest:
    manifest[target] = manifest[src]], for one pair. *)
Definition duplicate_field (src : string) (m : manifest) (target : string) : manifest :=
  match m !! src, m !! target with
  | Some v, None => <[target := v]> m
  | _, _ => m
  end.

Definition duplicate_fields (rules : list (string * list string)) (m : manifest)
  : manifest :=
  foldl (fun m '(src, targets) => foldl (duplicate_field src) m targets) m rules.

(** Step 4: the icon fallback. *)
Definition icon_fallback (cfg : Config) (W : World) (plugin_name : value)
    (m : manifest) : manifest :=
  if negb (has_key m "IconUrl") || negb (truthy (get m "IconUrl")) then
    if icon_exists W (str_of W plugin_name +:+ ".png") then
      <["IconUrl" := VStr ("https://raw.githubusercontent.com/" +:+ repo cfg +:+
                           "/main/icons/" +:+ str_of W plugin_name +:+ ".png")]> m
    else m
  else m.

(** [PluginProcessor.add_download_links]; the dictionary is updated in place,
    the model returns the updated dictionary. *)
Definition add_download_links (cfg : Config) (W : World) (m : manifest)
  : result manifest :=
  is_global <- is_global_build cfg m;;
  plugin_name <- item m "InternalName";;
  m1 <- install_link cfg W is_global plugin_name m;;
  m2 <- testing_link cfg W is_global plugin_name m1;;
  let m3 := duplicate_fields (field_duplicates cfg) m2 in
  let m4 := icon_fallback cfg W plugin_name m3 in
  Ok (<["DownloadCount" := VInt 0]> m4).

(** [PluginProcessor.trim_manifest]:
    [{k: manifest[k] for k in required_manifest_keys if k in manifest}] *)
Definition trim_manifest (cfg : Config) (m : manifest) : manifest :=
  foldl (fun acc k =>
           match m !! k with
           | Some v => <[k := v]> acc
           | None => acc
           end) ∅ (required_manifest_keys cfg).

(** ** SourceAggregator *)

(** An archive of a plugin directory, as [extract_manifest_from_zip] sees it:
    absent, present but without a readable manifest (the function returns
    [None]), or holding a manifest object. *)
Inductive archive :=
  | NoArchive
  | Unreadable
  | Archive (m : manifest).

(** A plugin directory: [latest.zip], [testing/latest.zip] and
    [global/latest.zip]. *)
Record plugin_dir := {
  dir_name : string;
  main_zip : archive;
  testing_zip : archive;
  global_zip : archive;
}.

(** [zip.exists()] followed by [extract_manifest_from_zip] and the truth test
    of its result: an empty dictionary counts as no manifest. *)
Definition usable_manifest (a : archive) : option manifest :=
  match a with
  | Archive m => if bool_decide (m = ∅) then None else Some m
  | _ => None
  end.

(** [PluginProcessor.process_plugin_directory] *)
Definition process_plugin_directory (cfg : Config) (W : World) (d : plugin_dir)
  : result (list manifest) :=
  match usable_manifest (main_zip d) with
  | None => Ok []
  | Some base_manifest =>
      let base_manifest :=
        match usable_manifest (testing_zip d) with
        | Some testing_manifest =>
            <["TestingDalamudApiLevel" := get testing_manifest "DalamudApiLevel"]>
              (<["TestingAssemblyVersion" := get testing_manifest "AssemblyVersion"]>
                 base_manifest)
        | None => base_manifest
        end in
      match usable_manifest (global_zip d) with
      | Some global_manifest =>
          name <- item global_manifest "Name";;
          let global_manifest :=
            <["Name" := VStr (str_of W name +:+ " (API" +:+
                              PyStr.of_Z (global_api_level cfg) +:+ ")")]>
              global_manifest in
          Ok [base_manifest; global_manifest]
      | None => Ok [base_manifest]
      end
  end.

(** [PluginMasterGenerator._get_local_manifest]; [plugins] are the
    directories under [plugins_dir], joining the path with a value that is not
    a string raises. *)
Definition _get_local_manifest (cfg : Config) (W : World) (plugins : list plugin_dir)
    (plugin_name : value) : result (option manifest) :=
  match plugin_name with
  | VStr n =>
      match List.find (fun d => String.eqb (dir_name d) n) plugins with
      | Some d =>
          local_manifests <- process_plugin_directory cfg W d;;
          Ok (head local_manifests)
      | None => Ok None
      end
  | _ => Raise TypeError
  end.

(** [PluginMasterGenerator._collect_local_manifests] *)
Fixpoint _collect_local_manifests (cfg : Config) (W : World) (plugins : list plugin_dir)
  : result (list manifest) :=
  match plugins with
  | [] => Ok []
  | d :: rest =>
      plugin_manifests <- process_plugin_directory cfg W d;;
      others <- _collect_local_manifests cfg W rest;;
      Ok (plugin_manifests ++ others)
  end.

(** The first loop of [_collect_manifests_with_priority], over the manifests
    of the configured repositories; the state is the list collected so far
    and the set [processed_plugins]. *)
Fixpoint collect_repo (cfg : Config) (W : World) (plugins : list plugin_dir)
    (repo_manifests : list manifest) (manifests : list manifest)
    (processed : list value) : result (list manifest * list value) :=
  match repo_manifests with
  | [] => Ok (manifests, processed)
  | m :: rest =>
      let plugin_name := get m "InternalName" in
      if truthy plugin_name then
        local_manifest <- _get_local_manifest cfg W plugins plugin_name;;
        chosen <- match local_manifest with
                  | Some l => _choose_better_manifest (int_max_str_digits W) m l
                  | None => Ok m
                  end;;
        collect_repo cfg W plugins rest (manifests ++ [chosen])
          (if vset_mem processed plugin_name then processed
           else processed ++ [plugin_name])
      else collect_repo cfg W plugins rest manifests processed
  end.

(** The second loop, over the local manifests. *)
Fixpoint collect_local (local_manifests : list manifest) (manifests : list manifest)
    (processed : list value) : result (list manifest * list value) :=
  match local_manifests with
  | [] => Ok (manifests, processed)
  | m :: rest =>
      let plugin_name := get m "InternalName" in
      if truthy plugin_name then
        if hashable plugin_name then
          if negb (vset_mem processed plugin_name) then
            collect_local rest (manifests ++ [m]) (processed ++ [plugin_name])
          else collect_local rest manifests processed
        else Raise TypeError
      else collect_local rest manifests processed
  end.

(** The third loop: the destination tag of a manifest that has none. *)
Definition tag_output (cfg : Config) (m : manifest) : result manifest :=
  if has_key m "_output_name" then Ok m
  else
    let plugin_name := get_or m "Name" (VStr "") in
    let internal_name := get_or m "InternalName" (VStr "") in
    by_name <- str_dict_get (plugin_outputs cfg) plugin_name;;
    match by_name with
    | Some o =>
        if truthy (VStr o) then Ok (<["_output_name" := VStr o]> m)
        else
          by_id <- str_dict_get (plugin_outputs cfg) internal_name;;
          Ok (<["_output_name" := VStr (default "default" by_id)]> m)
    | None =>
        by_id <- str_dict_get (plugin_outputs cfg) internal_name;;
        Ok (<["_output_name" := VStr (default "default" by_id)]> m)
    end.

Fixpoint tag_outputs (cfg : Config) (manifests : list manifest) : result (list manifest) :=
  match manifests with
  | [] => Ok []
  | m :: rest =>
      m' <- tag_output cfg m;;
      rest' <- tag_outputs cfg rest;;
      Ok (m' :: rest')
  end.

(** [PluginMasterGenerator._collect_manifests_with_priority];
    [repo_manifests] is what [get_repository_plugins()] returned. *)
Definition _collect_manifests_with_priority (cfg : Config) (W : World)
    (plugins : list plugin_dir) (repo_manifests : list manifest)
  : result (list manifest) :=
  from_repos <- collect_repo cfg W plugins repo_manifests [] [];;
  local_manifests <- _collect_local_manifests cfg W plugins;;
  all <- collect_local local_manifests (fst from_repos) (snd from_repos);;
  tag_outputs cfg (fst all).

(** ** OutputRouter *)

(** A file: a catalog written by [json.dump] (a list of records), or anything
    else.  The file system maps resolved paths to files. *)
Inductive file :=
  | Catalog (records : list manifest)
  | OtherFile (text : string).

(** The destination a manifest is grouped under in [_write_plugin_master]:
    [m.get("_output_name", "default")], replaced by ["default"] when it is
    not a key of [grouped]; the membership test hashes the value. *)
Definition route (cfg : Config) (m : manifest) : result string :=
  match get_or m "_output_name" (VStr "default") with
  | VStr output_name =>
      Ok (if bool_decide (output_name ∈ (output_files cfg).*1) then output_name
          else "default")
  | VList _ | VDict _ => Raise TypeError
  | _ => Ok "default"
  end.

(** The first loop: every manifest with its destination; on the final write
    the record is the manifest without [_output_name], otherwise a copy. *)
Fixpoint group_manifests (cfg : Config) (final : bool) (manifests : list manifest)
  : result (list (string * manifest)) :=
  match manifests with
  | [] => Ok []
  | m :: rest =>
      output_name <- route cfg m;;
      let clean := if final then delete "_output_name" m else m in
      others <- group_manifests cfg final rest;;
      Ok ((output_name, clean) :: others)
  end.

(** [grouped.get(output_name, [])] *)
Definition group_of (output_name : string) (grouped : list (string * manifest))
  : list manifest :=
  (List.filter (fun g => String.eqb (fst g) output_name) grouped).*2.

(** One round of the second loop; the state is the file system and
    [current_output_paths]. *)
Definition write_output (W : World) (grouped : list (string * manifest))
    (st : gmap string file * gset string) (out : string * string)
  : gmap string file * gset string :=
  let output_name := fst out in
  let output_path := snd out in
  let output_manifests := group_of output_name grouped in
  if bool_decide (output_manifests = []) && negb (String.eqb output_name "default")
  then (delete (resolve W output_path) (fst st), snd st)
  else (<[resolve W output_path := Catalog output_manifests]> (fst st),
        {[resolve W output_path]} ∪ snd st).

Definition write_outputs (cfg : Config) (W : World) (grouped : list (string * manifest))
    (fs : gmap string file) : gmap string file * gset string :=
  foldl (write_output W grouped) (fs, ∅) (output_files cfg).

(** The test of [_cleanup_stale_outputs] on one resolved path of the glob. *)
Definition stale (W : World) (current_output_paths : gset string) (p : string) : bool :=
  is_cwd_json W p &&
  negb (bool_decide (p ∈ current_output_paths)) &&
  negb (String.eqb p (resolve W "./plugin-sources.json")).

(** [PluginMasterGenerator._cleanup_stale_outputs] *)
Definition _cleanup_stale_outputs (W : World) (current_output_paths : gset string)
    (fs : gmap string file) : gmap string file :=
  filter (fun entry => stale W current_output_paths (fst entry) = false) fs.

(** [PluginMasterGenerator._write_plugin_master] *)
Definition _write_plugin_master (cfg : Config) (W : World) (manifests : list manifest)
    (final : bool) (fs : gmap string file) : result (gmap string file) :=
  grouped <- group_manifests cfg final manifests;;
  let written := write_outputs cfg W grouped fs in
  Ok (if final then _cleanup_stale_outputs W (snd written) (fst written)
      else fst written).

(** Lines 737-741 of [generate], for one manifest; [cache] is
    [existing_download_counts]. *)
Definition apply_cached_count (cache : list (value * value)) (m : manifest)
  : result manifest :=
  let plugin_name := get m "InternalName" in
  if py_eq (get_or m "DownloadCount" (VInt 0)) (VInt 0) then
    if hashable plugin_name then
      match vdict_get cache plugin_name with
      | Some cached => Ok (<["DownloadCount" := cached]> m)
      | None => Ok m
      end
    else Raise TypeError
  else Ok m.

(** [PluginMasterGenerator._set_local_timestamp] for the [i]-th manifest. *)
Definition _set_local_timestamp (cfg : Config) (W : World) (i : nat) (m : manifest)
    (plugin_name : value) : result manifest :=
  is_global <- is_global_build cfg m;;
  match plugin_name with
  | VStr n =>
      let stamp :=
        match zip_mtime W n is_global with
        | Some modified_time => modified_time
        | None => clock W i
        end in
      Ok (<["LastUpdate" := VStr (PyStr.of_Z stamp)]> m)
  | _ => Raise TypeError
  end.

(** The body of the loop of [_update_last_modified]; an exception leaves the
    manifest as it is at that point. *)
Definition update_last_modified_one (cfg : Config) (W : World) (i : nat) (m : manifest)
  : manifest :=
  let stamped (m : manifest) : manifest :=
    match m !! "InternalName" with
    | Some plugin_name =>
        match _set_local_timestamp cfg W i m plugin_name with
        | Ok m' => m'
        | Raise _ => m
        end
    | None => m
    end in
  if truthy (get m "_repository_source") then
    if has_key m "LastUpdate" then
      if has_key m "InternalName" then delete "_repository_source" m else m
    else stamped (delete "_repository_source" m)
  else stamped m.

(** [PluginMasterGenerator._update_last_modified] *)
Definition _update_last_modified (cfg : Config) (W : World) (manifests : list manifest)
    (fs : gmap string file) : result (list manifest * gmap string file) :=
  let manifests := imap (update_last_modified_one cfg W) manifests in
  fs' <- _write_plugin_master cfg W manifests false fs;;
  Ok (manifests, fs').

(** [output_routing[m.get("InternalName")] = m.get("_output_name", "default")] *)
Fixpoint output_routing (manifests : list manifest) (routing : list (value * value))
  : result (list (value * value)) :=
  match manifests with
  | [] => Ok routing
  | m :: rest =>
      let k := get m "InternalName" in
      if hashable k
      then output_routing rest
             (vdict_set routing k (get_or m "_output_name" (VStr "default")))
      else Raise TypeError
  end.

(** [m["_output_name"] = output_routing.get(m.get("InternalName"), "default")] *)
Definition reattach_output (routing : list (value * value)) (m : manifest)
  : result manifest :=
  let k := get m "InternalName" in
  if hashable k
  then Ok (<["_output_name" := default (VStr "default") (vdict_get routing k)]> m)
  else Raise TypeError.

Fixpoint result_map {A B : Type} (f : A -> result B) (l : list A) : result (list B) :=
  match l with
  | [] => Ok []
  | a :: rest =>
      b <- f a;;
      bs <- result_map f rest;;
      Ok (b :: bs)
  end.

(** Lines 737-757 of [PluginMasterGenerator.generate]: from the manifests
    with their live download counts to the final write.  The result is the
    list [manifests] and the file system after the final write. *)
Definition generate_tail (cfg : Config) (W : World) (cache : list (value * value))
    (manifests : list manifest) (fs : gmap string file)
  : result (list manifest * gmap string file) :=
  manifests <- result_map (apply_cached_count cache) manifests;;
  stamped <- _update_last_modified cfg W manifests fs;;
  let manifests := fst stamped in
  routing <- output_routing manifests [];;
  let manifests := trim_manifest cfg <$> manifests in
  manifests <- result_map (reattach_output routing) manifests;;
  fs' <- _write_plugin_master cfg W manifests true (snd stamped);;
  Ok (manifests, fs').

(** ** [Config.load_default]

    The configuration the program builds, given the branch and what
    [_load_plugin_sources] read from [plugin-sources.json]. *)

Definition base_url : string :=
  "https://github.com/WigglyMuffin/DalamudPlugins/raw/{branch}/plugins/{plugin_name}".

Definition default_required_manifest_keys : list string :=
  ["Author"; "Name"; "Punchline"; "Description"; "Tags";
   "InternalName"; "RepoUrl"; "Changelog"; "AssemblyVersion";
   "ApplicableVersion"; "DalamudApiLevel"; "TestingAssemblyVersion";
   "TestingDalamudApiLevel"; "IconUrl"; "ImageUrls"; "LastUpdate";
   "DownloadCount"; "DownloadLinkInstall"; "DownloadLinkUpdate";
   "DownloadLinkTesting"].

Definition load_default (branch : string) (output_files : list (string * string))
    (plugin_outputs : gmap string string) : Config :=
  {| branch := branch;
     output_files := output_files;
     plugin_outputs := plugin_outputs;
     download_urls :=
       {[ "main" := base_url +:+ "/latest.zip";
          "testing" := base_url +:+ "/testing/latest.zip";
          "global" := base_url +:+ "/global/latest.zip" ]};
     required_manifest_keys := default_required_manifest_keys;
     field_duplicates := [("DownloadLinkInstall", ["DownloadLinkUpdate"])];
     repo := "WigglyMuffin/DalamudPlugins";
     global_api_level := 13 |}.

(** The routing and provenance fields that are internal to a run. *)
Definition internal_fields : list string :=
  ["_output_name"; "_repository_source"; "_repository_asset_url";
   "_repository_token_name"; "_testing_download_url"].

(** ** Conditions used by the statements *)

(** The fields [add_download_links] reads or writes by itself. *)
Definition enrichment_fields : list string :=
  ["Name"; "InternalName"; "RepoUrl"; "IconUrl"; "TestingAssemblyVersion";
   "_repository_source"; "_repository_asset_url"; "_repository_token_name";
   "_testing_download_url"; "DownloadLinkInstall"; "DownloadLinkTesting";
   "DownloadCount"].

Definition mem (k : string) (l : list string) : bool := existsb (String.eqb k) l.

(** The duplication rules only fill fields that enrichment does not touch
    itself, and only copy from fields that are no such target and are not set
    after the duplication step. *)
Definition independent_rules (rules : list (string * list string)) : bool :=
  forallb (fun rule =>
      negb (mem (fst rule) (concat rules.*2)) &&
      negb (mem (fst rule) ["IconUrl"; "DownloadCount"]) &&
      forallb (fun target => negb (mem target enrichment_fields)) (snd rule))
    rules.

(** The first application of [add_download_links] pops
    [_testing_download_url]. *)
Definition consumes_testing_url (cfg : Config) (m : manifest) : Prop :=
  is_Some (m !! "TestingAssemblyVersion") /\
  is_Some (m !! "_testing_download_url") /\
  is_global_build cfg m = Ok false.

(** Occurrence of a character, to tell names apart. *)
Fixpoint has_char (c : ascii) (s : string) : bool :=
  match s with
  | EmptyString => false
  | String d s' => Ascii.eqb d c || has_char c s'
  end.

(** The rule-4 test of [_get_repo_download_url] on an asset name. *)
Definition versioned_name (plugin_name : string) (n : string) : bool :=
  PyStr.endswith n ".zip" &&
  PyStr.startswith n (plugin_name +:+ "-") &&
  negb (PyStr.endswith n "-latest.zip").

(** The names of the assets, as [asset.get("name", "")] reads them. *)
Definition asset_name (a : manifest) : value := get_or a "name" (VStr "").

(** The tests of the four loops of the download-URL path, on assets whose
    names are strings. *)
Definition is_latest (a : manifest) : bool := py_eq (asset_name a) (VStr "latest.zip").

Definition is_versioned (id : string) (a : manifest) : bool :=
  match asset_name a with
  | VStr n => versioned_name id n
  | _ => false
  end.

Definition is_exact (id : string) (a : manifest) : bool :=
  py_eq (asset_name a) (VStr (id +:+ ".zip")).

Definition is_zip (a : manifest) : bool :=
  match asset_name a with
  | VStr n => PyStr.endswith n ".zip"
  | _ => false
  end.

(** This round of the second loop of [_write_plugin_master] writes a file. *)
Definition writes_output (grouped : list (string * manifest)) (output_name : string)
  : bool :=
  negb (bool_decide (group_of output_name grouped = []) &&
        negb (String.eqb output_name "default")).

(** The values a manifest is keyed and routed by can be hashed; in a run the
    identifiers went through [processed_plugins] and the destination tags
    come from [plugin_outputs]. *)
Definition well_keyed (m : manifest) : bool :=
  hashable (get m "InternalName") &&
  hashable (get_or m "_output_name" (VStr "default")).

(** ** JSON values received from GitHub *)

(** [for x in v]: the items that iterating a JSON value yields; a dictionary
    yields its keys, a string its characters.  Every loop below asks the
    items for [get], which a character does not have, so that only the first
    character of a string matters. *)
Definition iterate (v : value) : result (list value) :=
  match v with
  | VList l => Ok l
  | VDict d => Ok (VStr <$> d.*1)
  | VStr s => Ok ((fun c => VStr (String c EmptyString)) <$> list_ascii_of_string s)
  | _ => Raise TypeError
  end.

(** [len(v)] *)
Definition len (v : value) : result nat :=
  match v with
  | VList l => Ok (length l)
  | VDict d => Ok (length d)
  | VStr s => Ok (String.length s)
  | _ => Raise TypeError
  end.

(** [v.get(k, dflt)] on a JSON value: only an object has [get]. *)
Definition value_get (v : value) (k : string) (dflt : value) : result value :=
  match v with
  | VDict d => Ok (default dflt (assoc_get k d))
  | _ => Raise AttributeError
  end.

(** [v[k]] on a JSON value that is an object. *)
Definition value_item (v : value) (k : string) : result value :=
  match v with
  | VDict d =>
      match assoc_get k d with
      | Some x => Ok x
      | None => Raise KeyError
      end
  | _ => Raise TypeError
  end.

(** A [for]-loop over JSON values that stops at the first one satisfying the
    test. *)
Fixpoint first_value (p : value -> result bool) (l : list value) : result (option value) :=
  match l with
  | [] => Ok None
  | a :: rest =>
      b <- p a;;
      if b then Ok (Some a) else first_value p rest
  end.

(** The answers of GitHub to the requests that list releases. *)
Record GitHub := {
  (** [GET /repos/{owner}/{repo}/releases] with [per_page=100] and the page
      number, with the headers of the updater: [Some body] when the request
      returns with a status that is none of 404, 403 and 401, passes
      [raise_for_status] and holds JSON; [None] otherwise *)
  releases_page : string -> string -> nat -> option value;
  (** the same request with [per_page=30] and the token of the plugin:
      [Some body] when it answers 200 with JSON, [None] for another status or
      an exception *)
  recent_releases : string -> string -> option string -> option value;
}.

(** ** DownloadCountUpdater *)

(** [total_downloads += count] *)
Definition add_count (total : Z) (count : value) : result Z :=
  match count with
  | VInt n => Ok (total + n)%Z
  | VBool b => Ok (total + (if b then 1 else 0))%Z
  | _ => Raise TypeError
  end.

(** The two nested loops of [_fetch_download_count] over one page. *)
Fixpoint sum_assets (total : Z) (assets : list value) : result Z :=
  match assets with
  | [] => Ok total
  | a :: rest =>
      count <- value_get a "download_count" (VInt 0);;
      total <- add_count total count;;
      sum_assets total rest
  end.

Fixpoint sum_releases (total : Z) (releases : list value) : result Z :=
  match releases with
  | [] => Ok total
  | r :: rest =>
      assets <- value_get r "assets" (VList []);;
      assets <- iterate assets;;
      total <- sum_assets total assets;;
      sum_releases total rest
  end.

(** The [while True] loop of [_fetch_download_count], from page [page] with
    [total] downloads counted so far.  Every exception and every refused
    request returns 0.  [None] stands for a loop that asks for more than
    [fuel] pages. *)
Fixpoint fetch_pages (page_of : nat -> option value) (fuel : nat) (page : nat)
    (total : Z) : option Z :=
  match fuel with
  | O => None
  | S fuel =>
      match page_of page with
      | None => Some 0%Z
      | Some releases =>
          if negb (truthy releases) then Some total
          else
            match (items <- iterate releases;;
                   total <- sum_releases total items;;
                   n <- len releases;;
                   Ok (total, n)) with
            | Raise _ => Some 0%Z
            | Ok (total, n) =>
                if n <? 100 then Some total
                else fetch_pages page_of fuel (S page) total
            end
      end
  end.

(** [DownloadCountUpdater._fetch_download_count] *)
Definition _fetch_download_count (G : GitHub) (fuel : nat) (owner rep : string)
  : option Z :=
  fetch_pages (releases_page G owner rep) fuel 1 0.

(** [DownloadCountUpdater._parse_github_url]; [None] stands for the pair
    [(None, None)]. *)
Definition _parse_github_url (url : value) : option (string * string) :=
  match url with
  | VStr url =>
      PyStr.split1 (PyStr.rstrip (PyStr.replace url "https://github.com/" "") "/") "/"
  | _ => None
  end.

(** The body of the loop of [update_download_counts] for one manifest; the
    state is [repo_cache].  A [RepoUrl] that is no string leaves the manifest
    as it is: the test of the URL raises, or finds no ["github.com"], or
    [_parse_github_url] catches the failure of [replace]. *)
Definition update_download_count (G : GitHub) (fuel : nat)
    (st : gmap string Z) (m : manifest) : option (manifest * gmap string Z) :=
  match get_or m "RepoUrl" (VStr "") with
  | VStr repo_url =>
      if negb (truthy (VStr repo_url)) || negb (PyStr.contains repo_url "github.com")
      then Some (m, st)
      else
        match _parse_github_url (VStr repo_url) with
        | None => Some (m, st)
        | Some (owner, rep) =>
            if negb (truthy (VStr owner)) || negb (truthy (VStr rep)) then Some (m, st)
            else
              let repo_key := owner +:+ "/" +:+ rep in
              match st !! repo_key with
              | Some count => Some (<["DownloadCount" := VInt count]> m, st)
              | None =>
                  match _fetch_download_count G fuel owner rep with
                  | Some count =>
                      Some (<["DownloadCount" := VInt count]> m, <[repo_key := count]> st)
                  | None => None
                  end
              end
        end
  | _ => Some (m, st)
  end.

(** [DownloadCountUpdater.update_download_counts] *)
Fixpoint update_download_counts (G : GitHub) (fuel : nat) (st : gmap string Z)
    (manifests : list manifest) : option (list manifest * gmap string Z) :=
  match manifests with
  | [] => Some ([], st)
  | m :: rest =>
      match update_download_count G fuel st m with
      | None => None
      | Some (m', st') =>
          match update_download_counts G fuel st' rest with
          | None => None
          | Some (rest', st'') => Some (m' :: rest', st'')
          end
      end
  end.

(** ** RepositoryPluginProcessor: testing releases *)

(** [s[n:]] *)
Fixpoint slice_from (n : nat) (s : string) : string :=
  match n, s with
  | O, _ => s
  | S n', String _ s' => slice_from n' s'
  | S _, EmptyString => EmptyString
  end.

(** The version that a tag of a pre-release stands for, in the two tag
    formats. *)
Definition testing_version (tag_name : string) : option string :=
  if PyStr.startswith tag_name "testing-v"
  then Some (slice_from (String.length "testing-v") tag_name)
  else if PyStr.startswith tag_name "v"
  then Some (slice_from (String.length "v") tag_name)
  else None.

(** The body of the loop over the releases in [_get_testing_release_info]:
    [Ok None] when the loop goes on to the next release, [Ok (Some info)]
    when it returns the version and the download URL. *)
Definition testing_release (owner rep : string) (release : value)
  : result (option (string * string)) :=
  prerelease <- value_get release "prerelease" VNone;;
  if negb (truthy prerelease) then Ok None
  else
    tag_name <- value_get release "tag_name" (VStr "");;
    version <- str_method tag_name testing_version;;
    match tag_name, version with
    | VStr tag, Some testing_version =>
        let download (name : string) : string :=
          "https://github.com/" +:+ owner +:+ "/" +:+ rep +:+
          "/releases/download/" +:+ tag +:+ "/" +:+ name in
        assets <- value_get release "assets" (VList []);;
        assets <- iterate assets;;
        latest <- first_value (fun asset =>
                    name <- value_get asset "name" VNone;;
                    Ok (py_eq name (VStr "latest.zip"))) assets;;
        match latest with
        | Some _ => Ok (Some (testing_version, download "latest.zip"))
        | None =>
            zip <- first_value (fun asset =>
                     name <- value_get asset "name" (VStr "");;
                     str_method name (fun n => PyStr.endswith n ".zip")) assets;;
            match zip with
            | Some asset =>
                (* [asset['name']] is the string that the loop tested *)
                name <- value_item asset "name";;
                str_method name (fun n => Some (testing_version, download n))
            | None => Ok None
            end
        end
    | _, _ => Ok None
    end.

Fixpoint find_testing_release (owner rep : string) (releases : list value)
  : result (option (string * string)) :=
  match releases with
  | [] => Ok None
  | release :: rest =>
      info <- testing_release owner rep release;;
      match info with
      | Some i => Ok (Some i)
      | None => find_testing_release owner rep rest
      end
  end.

(** [RepositoryPluginProcessor._get_testing_release_info]: the pair of
    ["version"] and ["download_url"]; every exception gives [None]. *)
Definition _get_testing_release_info (G : GitHub) (owner rep plugin_name : string)
    (token : option string) : option (string * string) :=
  match recent_releases G owner rep token with
  | None => None
  | Some releases =>
      match (releases <- iterate releases;; find_testing_release owner rep releases) with
      | Ok info => info
      | Raise _ => None
      end
  end.

(** ** RepositoryPluginProcessor: the manifest file of a downloaded archive

    Lines 489-512 of [_extract_manifest_from_url], for the name that the
    aliases gave and the file names of the archive. *)

Definition manifest_candidates (actual_plugin_name : string) : list string :=
  [actual_plugin_name +:+ ".json";
   PyStr.replace actual_plugin_name " " "" +:+ ".json";
   PyStr.replace actual_plugin_name " " "-" +:+ ".json"].

Definition json_files (all_files : list string) : list string :=
  List.filter (fun f => PyStr.endswith f ".json" && negb (PyStr.contains f "/") &&
                        negb (PyStr.endswith f ".deps.json")) all_files.

Definition manifest_file (actual_plugin_name : string) (all_files : list string)
  : option string :=
  match List.find (fun candidate => existsb (String.eqb candidate) all_files)
          (manifest_candidates actual_plugin_name) with
  | Some candidate => Some candidate
  | None => head (json_files all_files)
  end.

(** ** [Config._load_plugin_sources] *)

(** What the function finds at [./plugin-sources.json]: no file, a file
    that cannot be opened or holds no JSON, or JSON. *)
Inductive sources_file :=
  | SourcesMissing
  | SourcesBroken
  | SourcesJson (sources : value).

(** The three dictionaries that the function returns, as the lists of their
    items; an entry of [repository_list] holds the values of ["url"] and
    ["token"]. *)
Record plugin_sources := {
  sources_output_files : list (string * string);
  sources_repository_list : list (string * (value * value));
  sources_plugin_outputs : list (string * value);
}.

Definition default_output_files : list (string * string) :=
  [("default", "./pluginmaster.json")].

Definition no_sources : plugin_sources :=
  {| sources_output_files := default_output_files;
     sources_repository_list := [];
     sources_plugin_outputs := [] |}.

(** [d[k] = v] on the items of a dictionary. *)
Fixpoint dict_set {A : Type} (d : list (string * A)) (k : string) (v : A)
  : list (string * A) :=
  match d with
  | [] => [(k, v)]
  | (k', v') :: d' =>
      if String.eqb k' k then (k', v) :: d' else (k', v') :: dict_set d' k v
  end.

(** [v.items()] *)
Definition value_items (v : value) : result (list (string * value)) :=
  match v with
  | VDict d => Ok d
  | _ => Raise AttributeError
  end.

(** The loop over [sources.get("plugins", {}).items()]. *)
Fixpoint load_plugins (plugins : list (string * value))
    (repository_list : list (string * (value * value)))
    (plugin_outputs : list (string * value))
  : result (list (string * (value * value)) * list (string * value)) :=
  match plugins with
  | [] => Ok (repository_list, plugin_outputs)
  | (plugin_name, plugin_config) :: rest =>
      enabled <- value_get plugin_config "enabled" (VBool true);;
      if negb (truthy enabled) then load_plugins rest repository_list plugin_outputs
      else
        url <- value_item plugin_config "url";;
        token <- value_get plugin_config "token" (VStr "GITHUB_TOKEN");;
        output <- value_get plugin_config "output" (VStr "default");;
        load_plugins rest
          (dict_set repository_list plugin_name (url, token))
          (dict_set plugin_outputs plugin_name output)
  end.

(** The [try] block. *)
Definition load_sources (W : World) (sources : value) : result plugin_sources :=
  outputs <- value_get sources "outputs" (VDict []);;
  outputs <- value_items outputs;;
  let output_files :=
    foldl (fun acc out => dict_set acc (fst out) ("./" +:+ str_of W (snd out)))
          [] outputs in
  let output_files :=
    match output_files with
    | [] => default_output_files
    | _ => output_files
    end in
  plugins <- value_get sources "plugins" (VDict []);;
  plugins <- value_items plugins;;
  loaded <- load_plugins plugins [] [];;
  Ok {| sources_output_files := output_files;
        sources_repository_list := fst loaded;
        sources_plugin_outputs := snd loaded |}.

Definition _load_plugin_sources (W : World) (file : sources_file) : plugin_sources :=
  match file with
  | SourcesMissing | SourcesBroken => no_sources
  | SourcesJson sources =>
      match load_sources W sources with
      | Ok loaded => loaded
      | Raise _ => no_sources
      end
  end.

(** ** [PluginMasterGenerator._load_existing_download_counts] *)

(** The loop over the entries of one file; [get_field] is the [get] of an
    entry.  An exception ends the loop and leaves in the cache what the
    earlier entries stored. *)
Fixpoint load_counts {A : Type} (get_field : A -> string -> value -> result value)
    (entries : list A) (cache : list (value * value)) : list (value * value) :=
  match entries with
  | [] => cache
  | plugin :: rest =>
      match (plugin_name <- get_field plugin "InternalName" VNone;;
             download_count <- get_field plugin "DownloadCount" (VInt 0);;
             if truthy plugin_name then
               if hashable plugin_name
               then Ok (vdict_set cache plugin_name download_count)
               else Raise TypeError
             else Ok cache) with
      | Ok cache => load_counts get_field rest cache
      | Raise _ => cache
      end
  end.

(** The counts of one existing file.  A catalog that the program wrote loads
    as its records; [parse] is [json.load] on any other file, [None] when it
    raises. *)
Definition load_file_counts (parse : string -> option value) (f : file)
    (cache : list (value * value)) : list (value * value) :=
  match f with
  | Catalog records => load_counts (fun m k dflt => Ok (get_or m k dflt)) records cache
  | OtherFile text =>
      match parse text with
      | Some existing_data =>
          match iterate existing_data with
          | Ok entries => load_counts value_get entries cache
          | Raise _ => cache
          end
      | None => cache
      end
  end.

Definition _load_existing_download_counts (cfg : Config) (W : World)
    (parse : string -> option value) (fs : gmap string file)
    (cache : list (value * value)) : list (value * value) :=
  foldl (fun cache out =>
           match fs !! resolve W (snd out) with
           | Some f => load_file_counts parse f cache
           | None => cache
           end) cache (output_files cfg).

(** ** RepositoryPluginProcessor: manifests from releases *)

(** A downloaded archive: [z.namelist()] and, for a file name, the JSON that
    [z.read] and [json.loads] give, [None] when one of them raises. *)
Record zip_archive := {
  namelist : list string;
  read_json : string -> option value;
}.

(** What the processor obtains from outside for one plugin. *)
Record Releases := {
  (** [self.tokens.get(name)]: the environment variable named by a token
      name of the configuration *)
  token_of : string -> option string;
  (** [GET /repos/{owner}/{repo}/releases/latest] with the token:
      [Some release_data] when it answers 200 with JSON, [None] for another
      status or an exception *)
  latest_release : string -> string -> option string -> option value;
  (** [str(int(datetime.fromisoformat(s.replace('Z', '+00:00')).timestamp()))],
      [None] when it raises *)
  published_timestamp : string -> option string;
  (** the archive behind an asset URL, requested with the token; [None] when
      the request, the temporary file or [ZipFile] raises *)
  download : value -> option string -> option zip_archive;
}.

(** [self.tokens.get(token_name)]: the keys of [tokens] are the token names
    of the configuration, which are strings. *)
Definition str_dict_get_token (R : Releases) (token_name : value) : result (option string) :=
  match token_name with
  | VStr name => Ok (token_of R name)
  | VList _ | VDict _ => Raise TypeError
  | _ => Ok None
  end.

(** [RepositoryPluginProcessor._extract_manifest_from_url]; the
    configuration of [load_default] has no aliases, so that the manifest is
    looked up under the plugin name. *)
Definition _extract_manifest_from_url (R : Releases) (zip_url : value)
    (plugin_name : string) (token : option string) : option value :=
  match download R zip_url token with
  | Some z =>
      match manifest_file plugin_name (namelist z) with
      | Some f => read_json z f
      | None => None
      end
  | None => None
  end.

(** [release_data.get("assets", [])] as [_find_plugin_asset] reads it: every
    asset is asked for its name before the first loop, so that each must be
    an object. *)
Definition release_assets (release_data : value) : result (list manifest) :=
  assets <- value_get release_data "assets" (VList []);;
  assets <- iterate assets;;
  result_map (fun asset =>
                match asset with
                | VDict d => Ok (list_to_map d : manifest)
                | _ => Raise AttributeError
                end) assets.

(** The release time stamp of [_get_manifest_from_repository]. *)
Definition release_timestamp (R : Releases) (release_date : value) : option string :=
  if truthy release_date then
    match release_date with
    | VStr s => published_timestamp R s
    | _ => None
    end
  else None.

(** The fields that [_get_manifest_from_repository] sets on the manifest of
    the archive. *)
Definition repository_fields (repo_url plugin_zip_url token_name : value)
    (timestamp : option string) (testing_info : option (string * string))
    (m : manifest) : manifest :=
  let m := <["RepoUrl" := repo_url]> m in
  let m := <["_repository_source" := VBool true]> m in
  let m := <["_repository_asset_url" := plugin_zip_url]> m in
  let m := <["_repository_token_name" := token_name]> m in
  let m := match timestamp with
           | Some t => if truthy (VStr t) then <["LastUpdate" := VStr t]> m else m
           | None => m
           end in
  match testing_info with
  | Some (version, download_url) =>
      <["_testing_download_url" := VStr download_url]>
        (<["TestingAssemblyVersion" := VStr version]> m)
  | None => m
  end.

(** [RepositoryPluginProcessor._get_manifest_from_repository]; every
    exception gives [None]. *)
Definition _get_manifest_from_repository (R : Releases) (G : GitHub)
    (plugin_name : string) (repo_url token_name : value) : option manifest :=
  match repo_url with
  | VStr url =>
      match PyStr.split1
              (PyStr.rstrip (PyStr.replace url "https://github.com/" "") "/") "/" with
      | None => None
      | Some (owner, rep) =>
          match str_dict_get_token R token_name with
          | Raise _ => None
          | Ok token =>
              match latest_release R owner rep token with
              | None => None
              | Some release_data =>
                  match (release_date <- value_get release_data "published_at" VNone;;
                         assets <- release_assets release_data;;
                         plugin_zip_url <- _find_plugin_asset assets plugin_name;;
                         Ok (release_date, plugin_zip_url)) with
                  | Raise _ => None
                  | Ok (release_date, plugin_zip_url) =>
                      if negb (truthy plugin_zip_url) then None
                      else
                        match _extract_manifest_from_url R plugin_zip_url
                                plugin_name token with
                        | Some (VDict (item :: items)) =>
                            Some (repository_fields repo_url plugin_zip_url token_name
                                    (release_timestamp R release_date)
                                    (_get_testing_release_info G owner rep
                                       plugin_name token)
                                    (list_to_map (item :: items)))
                        | _ => None
                        end
                  end
              end
          end
      end
  | _ => None
  end.

(** [RepositoryPluginProcessor.get_repository_plugins] over the items of
    [repository_list]. *)
Fixpoint get_repository_plugins (cfg : Config) (R : Releases) (G : GitHub)
    (repository_list : list (string * (value * value))) : list manifest :=
  match repository_list with
  | [] => []
  | (plugin_name, (repo_url, token_name)) :: rest =>
      match _get_manifest_from_repository R G plugin_name repo_url token_name with
      | Some repo_manifest =>
          <["_output_name" := VStr (default "default" (plugin_outputs cfg !! plugin_name))]>
            repo_manifest
          :: get_repository_plugins cfg R G rest
      | None => get_repository_plugins cfg R G rest
      end
  end.

(** ** Further conditions used by the statements *)

(** The manifest is grouped under this destination by [_write_plugin_master]. *)
Definition routed_to (cfg : Config) (output_name : string) (m : manifest) : bool :=
  match route cfg m with
  | Ok o => String.eqb o output_name
  | Raise _ => false
  end.

(** An asset object with [c] downloads; a missing count is 0. *)
Definition asset_with (c : Z) (a : value) : Prop :=
  exists d, a = VDict d /\ default (VInt 0) (assoc_get "download_count" d) = VInt c.

(** A release object whose assets have the counts [cs]; a missing list of
    assets is empty. *)
Definition release_with (cs : list Z) (r : value) : Prop :=
  exists d assets, r = VDict d /\
    default (VList []) (assoc_get "assets" d) = VList assets /\
    Forall2 (fun a c => asset_with c a) assets cs.

(** A page that lists releases with the counts [css]. *)
Definition page_with (css : list (list Z)) (v : value) : Prop :=
  exists releases, v = VList releases /\
    Forall2 (fun r cs => release_with cs r) releases css.

Definition downloads (css : list (list Z)) : Z := foldr Z.add 0%Z (concat css).

(** A pre-release that [_get_testing_release_info] can use: its tag has one
    of the two formats and one of its assets has a name ending in [.zip]. *)
Definition eligible_prerelease (release : value) : Prop :=
  exists d tag assets da name,
    release = VDict d /\
    truthy (default VNone (assoc_get "prerelease" d)) = true /\
    default (VStr "") (assoc_get "tag_name" d) = VStr tag /\
    (PyStr.startswith tag "testing-v" = true \/ PyStr.startswith tag "v" = true) /\
    default (VList []) (assoc_get "assets" d) = VList assets /\
    VDict da ∈ assets /\ assoc_get "name" da = Some (VStr name) /\
    PyStr.endswith name ".zip" = true.

(** An entry of ["plugins"] on which the loop of [_load_plugin_sources]
    raises: it is no object, or it is enabled and has no ["url"]. *)
Definition broken_plugin_entry (plugin_config : value) : Prop :=
  (forall d, plugin_config <> VDict d) \/
  exists d, plugin_config = VDict d /\
    truthy (default (VBool true) (assoc_get "enabled" d)) = true /\
    assoc_get "url" d = None.

(** * Sample data *)

Definition repo_1_10_0 : manifest :=
  {[ "InternalName" := VStr "Sample"; "AssemblyVersion" := VStr "1.10.0";
     "_repository_source" := VBool true ]}.

Definition local_1_9_9 : manifest :=
  {[ "InternalName" := VStr "Sample"; "AssemblyVersion" := VStr "1.9.9" ]}.

(** A template with the two fields of the default URLs and no other brace. *)
Definition sample_format (template b : string) (plugin_name : value) : result string :=
  match plugin_name with
  | VStr p =>
      Ok (PyStr.replace (PyStr.replace template "{branch}" b) "{plugin_name}" p)
  | _ => Raise TypeError
  end.

(** A working directory [/work] with no icons and no archives; every stored
    asset is named [latest.zip]. *)
Definition sample_world (release : option (list manifest)) : World :=
  {| int_max_str_digits := 4300;
     container_str := fun _ => "";
     str_format := sample_format;
     icon_exists := fun _ => false;
     asset_info_name := fun _ _ => Some (VStr "latest.zip");
     latest_release_assets := fun _ _ => release;
     zip_mtime := fun _ _ => None;
     clock := fun _ => 1700000000%Z;
     resolve := fun p => "/work/" +:+ PyStr.replace p "./" "";
     is_cwd_json := fun p =>
       PyStr.startswith p "/work/" &&
       negb (PyStr.contains (PyStr.replace p "/work/" "") "/") &&
       PyStr.endswith p ".json" |}.

Definition asset (name url : string) : manifest :=
  {[ "name" := VStr name; "url" := VStr url ]}.

Definition main_cfg : Config :=
  load_default "main" [("default", "./pluginmaster.json")] ∅.

(** A release with an asset named after the plugin and a versioned one. *)
Definition assets_exact_and_versioned : list manifest :=
  [asset "P.zip" "https://api.github.com/repos/o/r/releases/assets/1";
   asset "P-1.0.zip" "https://api.github.com/repos/o/r/releases/assets/2"].

(** A release with an unrelated archive and a [-latest.zip] build. *)
Definition assets_other_and_latest : list manifest :=
  [asset "other.zip" "https://api.github.com/repos/o/r/releases/assets/1";
   asset "P-1.2.3-latest.zip" "https://api.github.com/repos/o/r/releases/assets/2"].

(** A repository manifest without a stored asset URL. *)
Definition repository_manifest : manifest :=
  {[ "Name" := VStr "P"; "InternalName" := VStr "P";
     "RepoUrl" := VStr "https://github.com/o/r";
     "_repository_source" := VBool true ]}.

(** A repository manifest with a testing pre-release, as
    [_get_manifest_from_repository] builds it. *)
Definition repository_testing_manifest : manifest :=
  {[ "Name" := VStr "P"; "InternalName" := VStr "P";
     "AssemblyVersion" := VStr "1.0.0";
     "RepoUrl" := VStr "https://github.com/o/r";
     "_repository_source" := VBool true;
     "_repository_asset_url" :=
       VStr "https://api.github.com/repos/o/r/releases/assets/1";
     "_repository_token_name" := VStr "GITHUB_TOKEN";
     "TestingAssemblyVersion" := VStr "1.1.0";
     "_testing_download_url" :=
       VStr "https://github.com/o/r/releases/download/v1.1.0/latest.zip" ]}.

Definition enriched_once : manifest :=
  <["DownloadCount" := VInt 0]>
    (<["DownloadLinkUpdate" :=
         VStr "https://github.com/o/r/releases/latest/download/latest.zip"]>
      (<["DownloadLinkTesting" :=
           VStr "https://github.com/o/r/releases/download/v1.1.0/latest.zip"]>
        (<["DownloadLinkInstall" :=
             VStr "https://github.com/o/r/releases/latest/download/latest.zip"]>
          (delete "_testing_download_url" repository_testing_manifest)))).

Definition enriched_twice : manifest :=
  <["DownloadLinkTesting" :=
      VStr "https://github.com/WigglyMuffin/DalamudPlugins/raw/main/plugins/P/testing/latest.zip"]>
    enriched_once.

(** A local manifest with the fields of its testing archive merged in. *)
Definition local_testing_manifest : manifest :=
  {[ "Name" := VStr "P"; "InternalName" := VStr "P";
     "AssemblyVersion" := VStr "1.0.0";
     "TestingAssemblyVersion" := VStr "1.1.0";
     "TestingDalamudApiLevel" := VInt 13 ]}.

Definition enriched_local : manifest :=
  <["DownloadCount" := VInt 0]>
    (<["DownloadLinkUpdate" :=
         VStr "https://github.com/WigglyMuffin/DalamudPlugins/raw/main/plugins/P/latest.zip"]>
      (<["DownloadLinkTesting" :=
           VStr "https://github.com/WigglyMuffin/DalamudPlugins/raw/main/plugins/P/testing/latest.zip"]>
        (<["DownloadLinkInstall" :=
             VStr "https://github.com/WigglyMuffin/DalamudPlugins/raw/main/plugins/P/latest.zip"]>
          local_testing_manifest))).

(** Rules in which a target is the source of an earlier rule. *)
Definition chained_rules_cfg : Config :=
  {| branch := "main";
     output_files := [("default", "./pluginmaster.json")];
     plugin_outputs := ∅;
     download_urls := download_urls main_cfg;
     required_manifest_keys := default_required_manifest_keys;
     field_duplicates := [("Mirror", ["MirrorCopy"]); ("DownloadLinkInstall", ["Mirror"])];
     repo := "WigglyMuffin/DalamudPlugins";
     global_api_level := 13 |}.

(** A plugin directory with a primary and a global archive of one plugin. *)
Definition foo_primary : manifest :=
  {[ "Name" := VStr "Foo"; "InternalName" := VStr "Foo";
     "AssemblyVersion" := VStr "1.0.0"; "DalamudApiLevel" := VInt 14 ]}.

Definition foo_global_archive : manifest :=
  {[ "Name" := VStr "Foo"; "InternalName" := VStr "Foo";
     "AssemblyVersion" := VStr "1.0.0"; "DalamudApiLevel" := VInt 13 ]}.

Definition foo_global : manifest := <["Name" := VStr "Foo (API13)"]> foo_global_archive.

Definition foo_dir : plugin_dir :=
  {| dir_name := "Foo";
     main_zip := Archive foo_primary;
     testing_zip := NoArchive;
     global_zip := Archive foo_global_archive |}.

(** Two destinations and manifests routed to them. *)
Definition two_outputs_cfg : Config :=
  load_default "main" [("A", "./a.json"); ("B", "./b.json")] ∅.

Definition routed_to_a : manifest :=
  {[ "Name" := VStr "First"; "InternalName" := VStr "First";
     "DownloadCount" := VInt 5; "_output_name" := VStr "A" ]}.

Definition routed_to_b : manifest :=
  {[ "Name" := VStr "Second"; "InternalName" := VStr "Second";
     "DownloadCount" := VInt 0; "_output_name" := VStr "B" ]}.

(** A working directory left by an earlier run with a third destination. *)
Definition fs_with_stale : gmap string file :=
  {[ "/work/a.json" := Catalog [routed_to_a];
     "/work/c.json" := Catalog [routed_to_b];
     "/work/notes.json" := OtherFile "{}";
     "/work/plugin-sources.json" := OtherFile "{}" ]}.

(** A download-counter cache left by an earlier run. *)
Definition sample_cache : list (value * value) :=
  [(VStr "First", VInt 7); (VStr "Second", VInt 42)].

(** A world as [sample_world] whose [format] accepts every plugin name. *)
Definition plain_format (template b : string) (plugin_name : value) : result string :=
  Ok (PyStr.replace (PyStr.replace template "{branch}" b) "{plugin_name}"
        match plugin_name with
        | VStr p => p
        | VInt n => PyStr.of_Z n
        | _ => "None"
        end).

Definition plain_world : World :=
  {| int_max_str_digits := 4300;
     container_str := fun _ => "";
     str_format := plain_format;
     icon_exists := fun _ => false;
     asset_info_name := fun _ _ => None;
     latest_release_assets := fun _ _ => None;
     zip_mtime := fun _ _ => None;
     clock := fun _ => 1700000000%Z;
     resolve := fun p => "/work/" +:+ PyStr.replace p "./" "";
     is_cwd_json := fun p =>
       PyStr.startswith p "/work/" &&
       negb (PyStr.contains (PyStr.replace p "/work/" "") "/") &&
       PyStr.endswith p ".json" |}.

(** A global build as [process_plugin_directory] names it. *)
Definition global_testing_manifest : manifest :=
  {[ "Name" := VStr "P (API13)"; "InternalName" := VStr "P";
     "TestingAssemblyVersion" := VStr "1.1.0" ]}.

Definition enriched_global : manifest :=
  <["DownloadCount" := VInt 0]>
    (<["DownloadLinkUpdate" :=
         VStr "https://github.com/WigglyMuffin/DalamudPlugins/raw/main/plugins/P/global/latest.zip"]>
      (<["DownloadLinkInstall" :=
           VStr "https://github.com/WigglyMuffin/DalamudPlugins/raw/main/plugins/P/global/latest.zip"]>
        global_testing_manifest)).

(** A directory whose primary archive holds no manifest. *)
Definition broken_dir : plugin_dir :=
  {| dir_name := "Foo";
     main_zip := Unreadable;
     testing_zip := Archive foo_primary;
     global_zip := Archive foo_global_archive |}.

(** Manifests whose versions are numbers. *)
Definition repo_version_2 : manifest :=
  {[ "InternalName" := VStr "Sample"; "AssemblyVersion" := VInt 2 ]}.

Definition local_version_1 : manifest :=
  {[ "InternalName" := VStr "Sample"; "AssemblyVersion" := VInt 1 ]}.

(** Destinations without a default one. *)
Definition untagged : manifest :=
  {[ "Name" := VStr "Third"; "InternalName" := VStr "Third" ]}.

(** A manifest of a release published at a known time. *)
Definition released_manifest : manifest :=
  {[ "Name" := VStr "P"; "InternalName" := VStr "P";
     "_repository_source" := VBool true; "LastUpdate" := VStr "1690000000" ]}.

(** A repository with a full first page of releases without assets and one
    more release with 7 downloads. *)
Definition two_pages : GitHub :=
  {| releases_page := fun _ _ page =>
       match page with
       | 1 => Some (VList (replicate 100 (VDict [])))
       | 2 => Some (VList [VDict [("assets",
                              VList [VDict [("name", VStr "latest.zip");
                                            ("download_count", VInt 7)]])]])
       | _ => None
       end;
     recent_releases := fun _ _ _ => None |}.

(** The same repository when the second request is refused. *)
Definition second_page_refused : GitHub :=
  {| releases_page := fun _ _ page =>
       match page with
       | 1 => Some (VList (replicate 100
                             (VDict [("assets",
                                      VList [VDict [("download_count", VInt 3)]])])))
       | _ => None
       end;
     recent_releases := fun _ _ _ => None |}.

Definition github_manifest : manifest :=
  {[ "InternalName" := VStr "P"; "RepoUrl" := VStr "https://github.com/o/r/";
     "DownloadCount" := VInt 0 ]}.

Definition gitlab_manifest : manifest :=
  {[ "InternalName" := VStr "Q"; "RepoUrl" := VStr "https://gitlab.com/o/r";
     "DownloadCount" := VInt 0 ]}.

(** A stable release followed by a pre-release with two archives. *)
Definition with_prerelease : GitHub :=
  {| releases_page := fun _ _ _ => None;
     recent_releases := fun _ _ _ =>
       Some (VList
         [VDict [("tag_name", VStr "v1.0.0"); ("prerelease", VBool false);
                 ("assets", VList [VDict [("name", VStr "latest.zip")]])];
          VDict [("tag_name", VStr "testing-v1.1.0"); ("prerelease", VBool true);
                 ("assets", VList [VDict [("name", VStr "P-1.1.0.zip")];
                                   VDict [("name", VStr "latest.zip")]])]]) |}.

(** Sources with two destinations, an enabled plugin without ["url"] and a
    disabled one. *)
Definition sources_without_url : value :=
  VDict [("outputs", VDict [("A", VStr "a.json"); ("B", VStr "b.json")]);
         ("plugins", VDict [("First", VDict [("output", VStr "A")]);
                            ("Second", VDict [("enabled", VBool false)])])].

Definition sources_with_disabled : value :=
  VDict [("outputs", VDict [("A", VStr "a.json"); ("B", VStr "b.json")]);
         ("plugins",
          VDict [("First", VDict [("url", VStr "https://github.com/o/first");
                                  ("output", VStr "A")]);
                 ("Second", VDict [("url", VStr "https://github.com/o/second");
                                   ("enabled", VBool false)])])].

(** Two configured destinations, one of them the default. *)
Definition default_and_b_cfg : Config :=
  load_default "main" [("default", "./pluginmaster.json"); ("B", "./b.json")] ∅.

(** A catalog whose second record has a list as identifier. *)
Definition catalog_with_bad_record : file :=
  Catalog [routed_to_a;
           {[ "InternalName" := VList [VStr "x"]; "DownloadCount" := VInt 9 ]};
           routed_to_b].

(** A repository whose latest release holds the plugin archive, which holds
    the manifest under the name of the plugin. *)
Definition plugin_release : Releases :=
  {| token_of := fun _ => None;
     latest_release := fun _ _ _ =>
       Some (VDict [("published_at", VStr "2023-07-22T04:26:40Z");
                    ("assets",
                     VList [VDict [("name", VStr "latest.zip");
                                   ("url",
                                    VStr "https://api.github.com/repos/o/r/releases/assets/1")]])]);
     published_timestamp := fun _ => Some "1690000000";
     download := fun _ _ =>
       Some {| namelist := ["P.deps.json"; "P.json"; "P.dll"];
               read_json := fun f =>
                 if String.eqb f "P.json"
                 then Some (VDict [("Name", VStr "P"); ("InternalName", VStr "P");
                                   ("AssemblyVersion", VStr "1.0.0")])
                 else None |} |}.

Definition released_with_testing : manifest :=
  {[ "Name" := VStr "P"; "InternalName" := VStr "P";
     "AssemblyVersion" := VStr "1.0.0";
     "RepoUrl" := VStr "https://github.com/o/r";
     "_repository_source" := VBool true;
     "_repository_asset_url" :=
       VStr "https://api.github.com/repos/o/r/releases/assets/1";
     "_repository_token_name" := VStr "GITHUB_TOKEN";
     "LastUpdate" := VStr "1690000000";
     "TestingAssemblyVersion" := VStr "1.1.0";
     "_testing_download_url" :=
       VStr "https://github.com/o/r/releases/download/testing-v1.1.0/latest.zip" ]}.

Definition enriched_release : manifest :=
  <["DownloadCount" := VInt 0]>
    (<["DownloadLinkUpdate" :=
         VStr "https://github.com/o/r/releases/latest/download/latest.zip"]>
      (<["DownloadLinkTesting" :=
           VStr "https://github.com/o/r/releases/download/testing-v1.1.0/latest.zip"]>
        (<["DownloadLinkInstall" :=
             VStr "https://github.com/o/r/releases/latest/download/latest.zip"]>
          (delete "_testing_download_url" released_with_testing)))).

(** A directory whose global archive holds a manifest without [Name]. *)
Definition nameless_global_dir : plugin_dir :=
  {| dir_name := "Bar";
     main_zip := Archive foo_primary;
     testing_zip := NoArchive;
     global_zip := Archive {[ "InternalName" := VStr "Bar" ]} |}.
(** * Properties *)

(** ** VersionResolver *)

Lemma py_eq_str (a b : string) : py_eq (VStr a) (VStr b) = String.eqb a b.
Proof. reflexivity. Qed.

Lemma lex_lt_length a b : lex_lt a b -> length a = length b.
Proof. induction 1; simpl; congruence. Qed.

Lemma lex_lt_irrefl a : ~ lex_lt a a.
Proof.
  intros H. remember a as b eqn:E in H at 2. revert E.
  induction H as [x y a b Hxy _|x a b H IH]; intros E.
  - injection E as -> _. lia.
  - injection E as ->. by apply IH.
Qed.

Lemma lex_lt_asym a b : lex_lt a b -> ~ lex_lt b a.
Proof.
  induction 1 as [x y a b Hxy _|x a b H IH]; intros H'; inversion H'; subst.
  - lia.
  - lia.
  - lia.
  - by apply IH.
Qed.

(** Python's list comparison on tuples of one length is the lexicographic
    order. *)
Lemma py_list_ge_true a b :
  length a = length b -> py_list_ge a b = true -> lex_le b a.
Proof.
  revert b. induction a as [|x a IH]; intros [|y b] Hlen; simpl in *; try done.
  - intros _. by left.
  - destruct (Z.eqb_spec x y) as [->|Hne].
    + intros H. destruct (IH b) as [->|Hlt]; [lia|done|by left|].
      right. by apply lex_lt_next.
    + intros H%Z.ltb_lt. right. apply lex_lt_here; [done|lia].
Qed.

Lemma py_list_ge_false a b :
  length a = length b -> py_list_ge a b = false -> lex_lt a b.
Proof.
  revert b. induction a as [|x a IH]; intros [|y b] Hlen; simpl in *; try done.
  destruct (Z.eqb_spec x y) as [->|Hne].
  - intros H. apply lex_lt_next, IH; [lia|done].
  - intros H%Z.ltb_ge. apply lex_lt_here; lia.
Qed.

Lemma extend_zeros_length parts n :
  length parts <= n -> length (extend_zeros parts n) = n.
Proof. intros. unfold extend_zeros. rewrite length_app, length_replicate. lia. Qed.

Lemma repo_not_older_local_newer lim rv lv :
  ~ (repo_not_older lim rv lv /\ local_newer lim rv lv).
Proof.
  unfold repo_not_older, local_newer.
  destruct (spec_tuple lim rv) as [r|], (spec_tuple lim lv) as [l|]; try tauto.
  simpl. intros [[E|H1] H2].
  - rewrite E in H2. by apply lex_lt_irrefl in H2.
  - by apply lex_lt_asym in H1.
Qed.

(** The result of the function on two version strings, case by case. *)
Lemma choose_better_manifest_cases lim repo loc rv lv :
  get_or repo "AssemblyVersion" (VStr "0.0") = VStr rv ->
  get_or loc "AssemblyVersion" (VStr "0.0") = VStr lv ->
  (repo_not_older lim rv lv /\ _choose_better_manifest lim repo loc = Ok repo) \/
  (local_newer lim rv lv /\ _choose_better_manifest lim repo loc = Ok loc).
Proof.
  intros Hr Hl. unfold _choose_better_manifest, repo_not_older, local_newer.
  rewrite Hr, Hl, py_eq_str. unfold version_parts, spec_tuple.
  destruct (String.eqb_spec rv lv) as [->|Hne].
  { left. split; [|done].
    destruct (ints lim (PyStr.split lv ".")); [by left|done]. }
  destruct (ints lim (PyStr.split rv ".")) as [r|]; [|by left].
  destruct (ints lim (PyStr.split lv ".")) as [l|]; [|by left].
  cbv zeta. fold (spec_pad (length r `max` length l) r).
  unfold extend_zeros. fold (spec_pad (length r `max` length l) r).
  fold (spec_pad (length r `max` length l) l).
  assert (length (spec_pad (length r `max` length l) r)
          = length (spec_pad (length r `max` length l) l)) as Hlen.
  { unfold spec_pad. rewrite !length_app, !length_replicate. lia. }
  destruct (py_list_ge _ _) eqn:Hge.
  - left. split; [|done]. by apply py_list_ge_true.
  - right. split; [|done]. by apply py_list_ge_false.
Qed.

Lemma spec_tuple_100 lim : spec_tuple lim "1.0.0" = Some [1; 0; 0]%Z.
Proof. by destruct lim as [|[|lim]]. Qed.

Lemma spec_tuple_101 lim : spec_tuple lim "1.0.1" = Some [1; 0; 1]%Z.
Proof. by destruct lim as [|[|lim]]. Qed.

Lemma spec_tuple_120 lim : spec_tuple lim "1.2.0" = Some [1; 2; 0]%Z.
Proof. by destruct lim as [|[|lim]]. Qed.

Lemma spec_tuple_12 lim : spec_tuple lim "1.2" = Some [1; 2]%Z.
Proof. by destruct lim as [|[|lim]]. Qed.

(** C1.  For two manifests whose [AssemblyVersion] (default ["0.0"]) is a
    string, [_choose_better_manifest] returns one of the two manifests: the
    repository manifest when the repository version is greater than or equal
    to the local one under the padded dotted-integer comparison or when one
    of the versions does not parse, the local manifest when both parse and the
    local version is strictly greater; the two cases exclude each other, so
    each manifest is returned exactly in its case.  Repository 1.0.1 against
    local 1.0.0 gives the repository manifest, 1.0.0 against 1.0.1 the local
    one, and 1.2.0 against 1.2 the repository manifest. *)
Theorem choose_better_manifest_by_version lim (repo loc : manifest) rv lv :
  get_or repo "AssemblyVersion" (VStr "0.0") = VStr rv ->
  get_or loc "AssemblyVersion" (VStr "0.0") = VStr lv ->
  (repo_not_older lim rv lv -> _choose_better_manifest lim repo loc = Ok repo) /\
  (local_newer lim rv lv -> _choose_better_manifest lim repo loc = Ok loc) /\
  (repo_not_older lim rv lv \/ local_newer lim rv lv) /\
  (_choose_better_manifest lim repo loc = Ok repo -> repo <> loc ->
   repo_not_older lim rv lv) /\
  (_choose_better_manifest lim repo loc = Ok loc -> repo <> loc ->
   local_newer lim rv lv) /\
  (rv = "1.0.1" -> lv = "1.0.0" -> _choose_better_manifest lim repo loc = Ok repo) /\
  (rv = "1.0.0" -> lv = "1.0.1" -> _choose_better_manifest lim repo loc = Ok loc) /\
  (rv = "1.2.0" -> lv = "1.2" -> _choose_better_manifest lim repo loc = Ok repo).
Proof.
  intros Hr Hl.
  pose proof (choose_better_manifest_cases lim repo loc rv lv Hr Hl) as Hc.
  pose proof (repo_not_older_local_newer lim rv lv) as Hx.
  assert (repo_not_older lim rv lv -> _choose_better_manifest lim repo loc = Ok repo)
    as Hrepo by (intros ?; destruct Hc as [[_ ?]|[? _]]; tauto).
  assert (local_newer lim rv lv -> _choose_better_manifest lim repo loc = Ok loc)
    as Hloc by (intros ?; destruct Hc as [[? _]|[_ ?]]; tauto).
  split_and!; try done.
  - destruct Hc as [[? _]|[? _]]; auto.
  - intros E Hne. destruct Hc as [[? _]|[_ E']]; [done|]. congruence.
  - intros E Hne. destruct Hc as [[_ E']|[? _]]; [|done]. congruence.
  - intros -> ->. apply Hrepo. unfold repo_not_older.
    rewrite spec_tuple_101, spec_tuple_100. right.
    apply lex_lt_next, lex_lt_next, lex_lt_here; [lia|done].
  - intros -> ->. apply Hloc. unfold local_newer.
    rewrite spec_tuple_101, spec_tuple_100.
    apply lex_lt_next, lex_lt_next, lex_lt_here; [lia|done].
  - intros -> ->. apply Hrepo. unfold repo_not_older.
    rewrite spec_tuple_120, spec_tuple_12. by left.
Qed.

Lemma choose_better_manifest_by_version_witness :
  _choose_better_manifest 4300 repo_1_10_0 local_1_9_9 = Ok repo_1_10_0.
Proof.
  refine (proj1 (choose_better_manifest_by_version 4300 repo_1_10_0 local_1_9_9
                   "1.10.0" "1.9.9" _ _) _); [reflexivity|reflexivity|].
  vm_compute. right. apply lex_lt_next, lex_lt_here; [lia|reflexivity].
Defined.

(** ** Strings *)

Lemma app_cons_string (c : ascii) (a b : string) :
  String c a +:+ b = String c (a +:+ b).
Proof. reflexivity. Qed.

Lemma app_nil_string (b : string) : "" +:+ b = b.
Proof. reflexivity. Qed.

Lemma length_app_string (a b : string) :
  String.length (a +:+ b) = String.length a + String.length b.
Proof.
  induction a as [|c a IH]; [done|].
  rewrite app_cons_string. simpl. by rewrite IH.
Qed.

Lemma app_assoc_string (a b c : string) : (a +:+ b) +:+ c = a +:+ (b +:+ c).
Proof.
  induction a as [|x a IH]; [done|].
  rewrite !app_cons_string. by rewrite IH.
Qed.

Lemma prefix_app (p s : string) : String.prefix p (p +:+ s) = true.
Proof.
  induction p as [|c p IH]; [by destruct s|].
  rewrite app_cons_string. simpl.
  destruct (ascii_dec c c); [done|congruence].
Qed.

Lemma prefix_inv (p s : string) :
  String.prefix p s = true -> exists r, s = p +:+ r.
Proof.
  revert s. induction p as [|c p IH]; intros s.
  - intros _. by exists s.
  - destruct s as [|d s]; simpl; [done|].
    destruct (ascii_dec c d) as [->|]; [|done].
    intros [r ->]%IH. by exists r.
Qed.

Lemma endswith_app (a b suf : string) :
  PyStr.endswith b suf = true -> PyStr.endswith (a +:+ b) suf = true.
Proof.
  intros H. induction a as [|c a IH]; [done|].
  rewrite app_cons_string. simpl. rewrite IH. apply orb_true_r.
Qed.

Lemma endswith_refl (s : string) : PyStr.endswith s s = true.
Proof. destruct s; simpl; [done|]. by rewrite Ascii.eqb_refl, String.eqb_refl. Qed.

Lemma endswith_length (s suf : string) :
  PyStr.endswith s suf = true -> String.length suf <= String.length s.
Proof.
  induction s as [|c s IH]; cbn [PyStr.endswith].
  - rewrite orb_false_r. by intros <-%String.eqb_eq.
  - intros [E|H]%orb_true_iff.
    + apply String.eqb_eq in E. by subst suf.
    + apply IH in H. simpl. lia.
Qed.

Lemma has_char_app (c : ascii) (a b : string) :
  has_char c (a +:+ String c b) = true.
Proof.
  induction a as [|d a IH].
  - simpl. by rewrite Ascii.eqb_refl.
  - rewrite app_cons_string. simpl. rewrite IH. apply orb_true_r.
Qed.

Lemma startswith_needs_char (s p : string) (c : ascii) :
  has_char c s = false -> PyStr.startswith s (p +:+ String c "") = false.
Proof.
  intros Hc. unfold PyStr.startswith.
  destruct (String.prefix _ s) eqn:E; [|done].
  apply prefix_inv in E as [r ->].
  rewrite app_assoc_string, app_cons_string, app_nil_string in Hc.
  by rewrite has_char_app in Hc.
Qed.

Lemma replace_space_length (s new : string) :
  String.length new <= 1 ->
  String.length (PyStr.replace s " " new) <= String.length s.
Proof.
  intros Hn. unfold PyStr.replace.
  induction s as [|c s IH]; [done|].
  cbn [PyStr.replace_go]. destruct (String.prefix " " (String c s)).
  - cbn [String.length Nat.sub]. rewrite length_app_string. cbn [String.length]. lia.
  - cbn [String.length]. lia.
Qed.

(** ** AssetSelector *)

Lemma py_eq_str_iff (v : value) (s : string) :
  py_eq v (VStr s) = true <-> v = VStr s.
Proof.
  destruct v; simpl; try (split; [done|intros ?; discriminate]).
  rewrite String.eqb_eq. split; congruence.
Qed.

Lemma py_eq_str_neq (v : value) (s : string) :
  v <> VStr s -> py_eq v (VStr s) = false.
Proof.
  intros H. destruct (py_eq v (VStr s)) eqn:E; [|done].
  by apply py_eq_str_iff in E.
Qed.

(** A loop whose test never raises is [find]. *)
Lemma first_match_find (p : manifest -> result bool) (q : manifest -> bool)
    (assets : list manifest) :
  (forall a, a ∈ assets -> p a = Ok (q a)) ->
  first_match p assets = Ok (List.find q assets).
Proof.
  induction assets as [|a rest IH]; intros Hp; simpl; [done|].
  rewrite (Hp a) by left. simpl. destruct (q a); [done|].
  apply IH. intros b Hb. apply Hp. by right.
Qed.

Lemma get_name_asset_name (a : manifest) (s : string) :
  a !! "name" = Some (VStr s) -> get a "name" = VStr s /\ asset_name a = VStr s.
Proof. intros H. unfold get, asset_name, get_or. by rewrite H. Qed.

Lemma find_named_none (assets : list manifest) (s : string) :
  (forall a, a ∈ assets -> a !! "name" <> Some (VStr s)) ->
  s <> "" ->
  List.find (fun a => py_eq (get a "name") (VStr s)) assets = None /\
  List.find (fun a => py_eq (asset_name a) (VStr s)) assets = None.
Proof.
  intros H Hs. induction assets as [|a rest IH]; [done|].
  assert (a !! "name" <> Some (VStr s)) as Ha by (apply H; left).
  destruct IH as [IH1 IH2]; [intros b Hb; apply H; by right|].
  simpl. rewrite IH1, IH2.
  unfold get, asset_name, get_or.
  destruct (a !! "name") as [v|] eqn:E; simpl.
  - rewrite py_eq_str_neq by congruence. done.
  - destruct s; [congruence|done].
Qed.

Lemma find_named_some (assets : list manifest) (s : string) :
  (exists a, a ∈ assets /\ a !! "name" = Some (VStr s)) ->
  s <> "" ->
  (exists a, a ∈ assets /\ a !! "name" = Some (VStr s) /\
     List.find (fun a => py_eq (get a "name") (VStr s)) assets = Some a) /\
  (exists a, a ∈ assets /\ a !! "name" = Some (VStr s) /\
     List.find (fun a => py_eq (asset_name a) (VStr s)) assets = Some a).
Proof.
  intros (a0 & Hin & Hn) Hs.
  assert (forall f : manifest -> value,
            (forall a, f a = VStr s <-> a !! "name" = Some (VStr s)) ->
            exists a, a ∈ assets /\ a !! "name" = Some (VStr s) /\
              List.find (fun a => py_eq (f a) (VStr s)) assets = Some a) as Hf.
  { intros f Hfs. destruct (List.find _ assets) as [a|] eqn:E.
    - apply find_some in E as [Ha Hp]. exists a.
      apply list_elem_of_In in Ha. apply py_eq_str_iff, Hfs in Hp. done.
    - eapply find_none in E; [|apply list_elem_of_In, Hin]. simpl in E.
      apply Hfs in Hn. rewrite Hn in E. simpl in E.
      by rewrite String.eqb_refl in E. }
  split; apply Hf; intros a; unfold get, asset_name, get_or;
    destruct (a !! "name") as [v|]; simpl; split; congruence.
Qed.

Lemma zip_name_nonempty (id : string) : id +:+ ".zip" <> "".
Proof. by destruct id. Qed.

(** The rule-4 test of the download-URL path never raises on a string name. *)
Lemma versioned_test (id : string) (a : manifest) (n : string) :
  asset_name a = VStr n ->
  (e <- str_method (get_or a "name" (VStr "")) (fun n => PyStr.endswith n ".zip");;
   if e then
     str_method (get_or a "name" (VStr "")) (fun n =>
       PyStr.startswith n (id +:+ "-") && negb (PyStr.endswith n "-latest.zip"))
   else Ok false)
  = Ok (is_versioned id a).
Proof.
  unfold is_versioned, asset_name. intros ->. unfold versioned_name. simpl.
  destruct (PyStr.endswith n ".zip"); simpl; [|done].
  by destruct (PyStr.startswith n (id +:+ "-")).
Qed.

(** The four loops of the download-URL path as four searches. *)
Lemma preferred_asset_name_finds (id : string) (assets : list manifest) :
  (forall a, a ∈ assets -> exists n, asset_name a = VStr n) ->
  preferred_asset_name id assets =
    Ok (asset_name <$>
          match List.find is_latest assets with
          | Some a => Some a
          | None =>
              match List.find (is_versioned id) assets with
              | Some a => Some a
              | None =>
                  match List.find (is_exact id) assets with
                  | Some a => Some a
                  | None => List.find is_zip assets
                  end
              end
          end).
Proof.
  intros Hstr. unfold preferred_asset_name.
  rewrite (first_match_find _ is_latest) by done.
  destruct (List.find is_latest assets) as [a|]; cbn [bind]; [done|].
  rewrite (first_match_find _ (is_versioned id)); cycle 1.
  { intros a Ha. destruct (Hstr a Ha) as [n Hn]. by apply (versioned_test id a n). }
  destruct (List.find (is_versioned id) assets) as [a|]; cbn [bind]; [done|].
  rewrite (first_match_find _ (is_exact id)) by done.
  destruct (List.find (is_exact id) assets) as [a|]; cbn [bind]; [done|].
  rewrite (first_match_find _ is_zip); cycle 1.
  { intros a Ha. destruct (Hstr a Ha) as [n Hn]. unfold is_zip.
    fold (asset_name a). by rewrite Hn. }
  by destruct (List.find is_zip assets).
Qed.

(** C3 (amended).  Let the assets hold none named [latest.zip] and one named
    [{id}.zip].  Repository asset selection ([_find_plugin_asset]) returns
    the url of an asset named [{id}.zip], whatever the order of the list.
    Download-URL selection (lines 244-273 of [_get_repo_download_url]), on
    assets whose names are strings, tries the versioned-prefix rule before the
    exact name: it returns the first asset whose name starts with [{id}-],
    ends with [.zip] and not with [-latest.zip] when there is one, and
    [{id}.zip] only when there is none. *)
Theorem exact_name_rule_per_path (id : string) (assets : list manifest) :
  (forall a, a ∈ assets -> a !! "name" <> Some (VStr "latest.zip")) ->
  (exists a, a ∈ assets /\ a !! "name" = Some (VStr (id +:+ ".zip"))) ->
  (exists a, a ∈ assets /\ a !! "name" = Some (VStr (id +:+ ".zip")) /\
     _find_plugin_asset assets id = Ok (get a "url")) /\
  ((forall a, a ∈ assets -> exists n, asset_name a = VStr n) ->
   (forall a, List.find (is_versioned id) assets = Some a ->
      preferred_asset_name id assets = Ok (Some (asset_name a))) /\
   (List.find (is_versioned id) assets = None ->
      preferred_asset_name id assets = Ok (Some (VStr (id +:+ ".zip"))))).
Proof.
  intros Hno Hex.
  destruct (find_named_none assets "latest.zip" Hno) as [Hl1 Hl2]; [done|].
  destruct (find_named_some assets (id +:+ ".zip") Hex (zip_name_nonempty id))
    as [(a1 & Hin1 & Hn1 & Hf1) (a2 & Hin2 & Hn2 & Hf2)].
  split.
  - exists a1. split_and!; [done..|].
    unfold _find_plugin_asset.
    rewrite (first_match_find _ (fun a => py_eq (get a "name") (VStr "latest.zip")))
      by done.
    rewrite Hl1. cbn [bind].
    rewrite (first_match_find _ (fun a => py_eq (get a "name") (VStr (id +:+ ".zip"))))
      by done.
    by rewrite Hf1.
  - intros Hstr. rewrite (preferred_asset_name_finds id assets Hstr).
    fold is_latest in Hl2. rewrite Hl2. split.
    + by intros a ->.
    + intros ->. fold (is_exact id) in Hf2. rewrite Hf2.
      cbn [fmap option_fmap option_map]. unfold asset_name, get_or. by rewrite Hn2.
Qed.

(** A closed equation settled by evaluating its two sides. *)
Ltac evaluated :=
  lazymatch goal with
  | |- @eq ?T _ ?r => vm_cast_no_check (@eq_refl T r)
  end.

(** Case analysis on the members of a literal list. *)
Ltac members H :=
  repeat (apply elem_of_cons in H as [->|H]); [..|by apply elem_of_nil in H].

Lemma exact_name_rule_per_path_witness :
  exists a, a ∈ assets_exact_and_versioned /\
    a !! "name" = Some (VStr "P.zip") /\
    _find_plugin_asset assets_exact_and_versioned "P" = Ok (get a "url").
Proof.
  refine (proj1 (exact_name_rule_per_path "P" assets_exact_and_versioned _ _)).
  - intros a Ha. members Ha; vm_compute; congruence.
  - exists (asset "P.zip" "https://api.github.com/repos/o/r/releases/assets/1").
    split; [left|reflexivity].
Defined.

(** C3 (counterexample).  The release has no [latest.zip], an asset [P.zip]
    and an asset [P-1.0.zip]; the download-URL path returns [P-1.0.zip], not
    [P.zip]. *)
Lemma download_url_skips_exact_name :
  (forall a, a ∈ assets_exact_and_versioned ->
     a !! "name" <> Some (VStr "latest.zip")) /\
  (exists a, a ∈ assets_exact_and_versioned /\ a !! "name" = Some (VStr "P.zip")) /\
  (exists a n, a ∈ assets_exact_and_versioned /\ a !! "name" = Some (VStr n) /\
     PyStr.startswith n "P-" = true /\ PyStr.endswith n ".zip" = true) /\
  preferred_asset_name "P" assets_exact_and_versioned = Ok (Some (VStr "P-1.0.zip")) /\
  preferred_asset_name "P" assets_exact_and_versioned <> Ok (Some (VStr "P.zip")) /\
  _get_repo_download_url (sample_world (Some assets_exact_and_versioned))
    repository_manifest
  = Some "https://github.com/o/r/releases/latest/download/P-1.0.zip".
Proof.
  split_and!.
  - intros a Ha. members Ha; vm_compute; congruence.
  - exists (asset "P.zip" "https://api.github.com/repos/o/r/releases/assets/1").
    split; [left|reflexivity].
  - exists (asset "P-1.0.zip" "https://api.github.com/repos/o/r/releases/assets/2"),
      "P-1.0.zip".
    split_and!; [right; left|reflexivity..].
  - reflexivity.
  - vm_compute. congruence.
  - reflexivity.
Qed.

Lemma prefix_app_cancel (p a b : string) :
  String.prefix (p +:+ a) (p +:+ b) = String.prefix a b.
Proof.
  induction p as [|c p IH]; [done|].
  rewrite !app_cons_string. simpl.
  destruct (ascii_dec c c); [done|congruence].
Qed.


Lemma asset_name_asset (n u : string) : asset_name (asset n u) = VStr n.
Proof. unfold asset_name, get_or, asset. by rewrite lookup_insert_eq. Qed.

Lemma get_name_asset (n u : string) : get (asset n u) "name" = VStr n.
Proof. unfold get, get_or, asset. by rewrite lookup_insert_eq. Qed.

Lemma get_url_asset (n u : string) : get (asset n u) "url" = VStr u.
Proof.
  unfold get, get_or, asset.
  rewrite lookup_insert_ne by done. by rewrite lookup_singleton_eq.
Qed.

Lemma string_eqb_neq (a b : string) : a <> b -> String.eqb a b = false.
Proof. by destruct (String.eqb_spec a b). Qed.

Lemma longer_name_neq (id rest other : string) :
  String.length other < String.length rest ->
  id +:+ rest <> other.
Proof.
  intros Hlen E. apply (f_equal String.length) in E.
  rewrite length_app_string in E. lia.
Qed.

(** The [-latest.zip] build of a plugin is none of the names of rules 1-3. *)
Lemma latest_build_names (id : string) :
  let n := id +:+ "-1.2.3-latest.zip" in
  n <> "latest.zip" /\ n <> id +:+ ".zip" /\
  n <> PyStr.replace id " " "" +:+ ".zip" /\
  n <> PyStr.replace id " " "-" +:+ ".zip" /\
  PyStr.endswith n ".zip" = true /\ PyStr.endswith n "-latest.zip" = true /\
  PyStr.startswith n (id +:+ "-") = true.
Proof.
  intros n. unfold n. split_and!.
  - apply longer_name_neq. simpl. lia.
  - intros E. by apply String.app_inj in E.
  - intros E. apply (f_equal String.length) in E.
    rewrite !length_app_string in E.
    pose proof (replace_space_length id "" ltac:(simpl; lia)). simpl in E. lia.
  - intros E. apply (f_equal String.length) in E.
    rewrite !length_app_string in E.
    pose proof (replace_space_length id "-" ltac:(simpl; lia)). simpl in E. lia.
  - by apply endswith_app.
  - by apply endswith_app.
  - unfold PyStr.startswith.
    change "-1.2.3-latest.zip" with ("-" +:+ "1.2.3-latest.zip").
    rewrite <- app_assoc_string. apply prefix_app.
Qed.

(** C4 (amended).  In the download-URL path (lines 244-273 of
    [_get_repo_download_url]), on assets whose names are strings, an asset
    whose name starts with [{id}-] and ends with [-latest.zip] is never
    chosen by the prefix rule: when it is returned, the rules for
    [latest.zip], for the versioned prefix and for [{id}.zip] found nothing
    and it is the first asset ending in [.zip]; so the list [other.zip],
    [{id}-1.2.3-latest.zip] gives [other.zip].  The repository path
    ([_find_plugin_asset]) has no such exclusion: on the same list its prefix
    rule chooses the [{id}-1.2.3-latest.zip] asset. *)
Theorem latest_suffix_rule_per_path (id u1 u2 : string) :
  "other.zip" <> id +:+ ".zip" ->
  (forall assets n,
     (forall a, a ∈ assets -> exists s, asset_name a = VStr s) ->
     preferred_asset_name id assets = Ok (Some (VStr n)) ->
     PyStr.startswith n (id +:+ "-") = true ->
     PyStr.endswith n "-latest.zip" = true ->
     List.find is_latest assets = None /\
     List.find (is_versioned id) assets = None /\
     List.find (is_exact id) assets = None /\
     exists a, List.find is_zip assets = Some a /\ asset_name a = VStr n) /\
  preferred_asset_name id
    [asset "other.zip" u1; asset (id +:+ "-1.2.3-latest.zip") u2]
  = Ok (Some (VStr "other.zip")) /\
  ("other.zip" <> PyStr.replace id " " "" +:+ ".zip" ->
   "other.zip" <> PyStr.replace id " " "-" +:+ ".zip" ->
   _find_plugin_asset
     [asset "other.zip" u1; asset (id +:+ "-1.2.3-latest.zip") u2] id
   = Ok (VStr u2)).
Proof.
  intros Hother.
  destruct (latest_build_names id) as (L1 & L2 & L3 & L4 & L5 & L6 & L7).
  assert (PyStr.startswith "other.zip" (id +:+ "-") = false) as Hpre
    by (by apply startswith_needs_char).
  split_and!.
  - intros assets n Hstr Hres Hstart Hend.
    rewrite (preferred_asset_name_finds id assets Hstr) in Hres.
    destruct (List.find is_latest assets) as [a|] eqn:E1.
    { exfalso. apply find_some in E1 as [_ E1]. apply py_eq_str_iff in E1.
      simplify_eq/=. rewrite E1 in Hres. by simplify_eq. }
    destruct (List.find (is_versioned id) assets) as [a|] eqn:E2.
    { exfalso. apply find_some in E2 as [_ E2]. unfold is_versioned in E2.
      simplify_eq/=. rewrite Hres in E2. unfold versioned_name in E2.
      rewrite Hend in E2. by rewrite andb_false_r in E2. }
    destruct (List.find (is_exact id) assets) as [a|] eqn:E3.
    { exfalso. apply find_some in E3 as [_ E3]. apply py_eq_str_iff in E3.
      simplify_eq/=. rewrite E3 in Hres. simplify_eq.
      unfold PyStr.startswith in Hstart. by rewrite prefix_app_cancel in Hstart. }
    split_and!; [done..|].
    destruct (List.find is_zip assets) as [a|]; simplify_eq/=. by exists a.
  - rewrite preferred_asset_name_finds; cycle 1.
    { intros a Ha. members Ha; rewrite asset_name_asset; eauto. }
    cbn [List.find]. unfold is_latest, is_versioned, is_exact, is_zip, versioned_name.
    rewrite !asset_name_asset. cbn [py_eq].
    rewrite L5, L6, L7, Hpre, (string_eqb_neq _ _ L1).
    rewrite (string_eqb_neq _ _ Hother), (string_eqb_neq _ _ L2).
    cbn. by rewrite asset_name_asset.
  - intros Hns Hds. unfold _find_plugin_asset.
    repeat match goal with
           | |- context [first_match (fun a => Ok (@?q a)) ?l] =>
               rewrite (first_match_find (fun a => Ok (q a)) q l) by done
           end.
    cbn [List.find]. rewrite !get_name_asset. cbn [py_eq].
    rewrite (string_eqb_neq _ _ L1), (string_eqb_neq _ _ L2),
      (string_eqb_neq _ _ L3), (string_eqb_neq _ _ L4).
    rewrite (string_eqb_neq _ _ Hother), (string_eqb_neq _ _ Hns),
      (string_eqb_neq _ _ Hds).
    cbn [String.eqb Ascii.eqb Bool.eqb bind first_match].
    fold (asset_name (asset "other.zip" u1)).
    fold (asset_name (asset (id +:+ "-1.2.3-latest.zip") u2)).
    rewrite !asset_name_asset. cbn [str_method bind].
    rewrite L5, L7, Hpre. cbn. by rewrite get_url_asset.
Qed.

Lemma latest_suffix_rule_per_path_witness :
  preferred_asset_name "P" assets_other_and_latest = Ok (Some (VStr "other.zip")).
Proof.
  refine (proj1 (proj2 (latest_suffix_rule_per_path "P"
    "https://api.github.com/repos/o/r/releases/assets/1"
    "https://api.github.com/repos/o/r/releases/assets/2" _))).
  vm_compute. congruence.
Defined.

(** C4 (counterexample).  No asset of the release is [latest.zip], [P.zip] or
    a spelling of it; the repository path returns the [P-1.2.3-latest.zip]
    asset through its prefix rule, not [other.zip]. *)
Lemma repository_path_takes_latest_build :
  (forall a, a ∈ assets_other_and_latest ->
     a !! "name" <> Some (VStr "latest.zip") /\
     a !! "name" <> Some (VStr "P.zip")) /\
  PyStr.replace "P" " " "" = "P" /\ PyStr.replace "P" " " "-" = "P" /\
  _find_plugin_asset assets_other_and_latest "P"
  = Ok (VStr "https://api.github.com/repos/o/r/releases/assets/2") /\
  _find_plugin_asset assets_other_and_latest "P"
  <> Ok (VStr "https://api.github.com/repos/o/r/releases/assets/1").
Proof.
  split_and!.
  - intros a Ha. members Ha; vm_compute; split; congruence.
  - reflexivity.
  - reflexivity.
  - reflexivity.
  - vm_compute. congruence.
Qed.

(** ** ManifestEnricher *)

Lemma mem_true (k : string) (l : list string) : mem k l = true <-> k ∈ l.
Proof.
  unfold mem. rewrite existsb_exists. split.
  - intros (x & Hx & ->%String.eqb_eq). by apply list_elem_of_In.
  - intros H. exists k. split; [by apply list_elem_of_In|apply String.eqb_refl].
Qed.

Lemma mem_false (k : string) (l : list string) : mem k l = false <-> k ∉ l.
Proof.
  rewrite <- mem_true. destruct (mem k l); intuition congruence.
Qed.

(** What [independent_rules] says of one rule and one of its targets. *)
Lemma independent_rules_spec (rules : list (string * list string)) s ts t :
  independent_rules rules = true ->
  (s, ts) ∈ rules -> t ∈ ts ->
  (t ∉ enrichment_fields) /\ s <> "IconUrl" /\ s <> "DownloadCount" /\
  (forall s' ts', (s', ts') ∈ rules -> s' <> t).
Proof.
  unfold independent_rules. rewrite forallb_forall. intros H Hs Ht.
  pose proof (H _ (proj1 (list_elem_of_In _ _) Hs)) as H1. cbn [fst snd] in H1.
  apply andb_true_iff in H1 as [[H1 H2]%andb_true_iff H3].
  rewrite forallb_forall in H3.
  pose proof (H3 _ (proj1 (list_elem_of_In _ _) Ht)) as H4.
  apply negb_true_iff, mem_false in H4.
  apply negb_true_iff, mem_false in H2.
  split_and!; [done|set_solver..|].
  intros s' ts' Hs' ->.
  pose proof (H _ (proj1 (list_elem_of_In _ _) Hs')) as H5. cbn [fst snd] in H5.
  apply andb_true_iff in H5 as [[H5 _]%andb_true_iff _].
  apply negb_true_iff, mem_false in H5. apply H5.
  apply list_elem_of_In, in_concat. exists ts. split; [|by apply list_elem_of_In].
  apply list_elem_of_In, list_elem_of_fmap. by exists (s, ts).
Qed.

Lemma duplicate_field_lookup (s t k : string) (m : manifest) :
  duplicate_field s m t !! k =
    match m !! k with
    | Some v => Some v
    | None => if decide (k = t) then m !! s else None
    end.
Proof.
  unfold duplicate_field.
  destruct (m !! s) as [v|] eqn:Es; [destruct (m !! t) as [w|] eqn:Et|].
  - destruct (m !! k) eqn:Ek; [done|]. case_decide; [congruence|done].
  - destruct (decide (k = t)) as [->|].
    + by rewrite lookup_insert_eq, Et.
    + rewrite lookup_insert_ne by done. by destruct (m !! k).
  - destruct (m !! k); [done|]. by case_decide.
Qed.

Lemma duplicate_targets_keep (s : string) (ts : list string) (m : manifest) k v :
  m !! k = Some v -> foldl (duplicate_field s) m ts !! k = Some v.
Proof.
  revert m. induction ts as [|t ts IH]; intros m H; [done|].
  simpl. apply IH. by rewrite duplicate_field_lookup, H.
Qed.

Lemma duplicate_targets_fresh (s : string) (ts : list string) (m : manifest) k :
  k ∉ ts -> foldl (duplicate_field s) m ts !! k = m !! k.
Proof.
  revert m. induction ts as [|t ts IH]; intros m H; [done|].
  simpl. rewrite IH by set_solver. rewrite duplicate_field_lookup.
  destruct (m !! k); [done|]. case_decide; [set_solver|done].
Qed.

Lemma duplicate_targets_fill (s : string) (ts : list string) (m : manifest) t :
  is_Some (m !! s) -> t ∈ ts -> is_Some (foldl (duplicate_field s) m ts !! t).
Proof.
  revert m. induction ts as [|t0 ts IH]; intros m [v Hs] Ht; [by apply elem_of_nil in Ht|].
  simpl. destruct (decide (t = t0)) as [->|Hne].
  - assert (is_Some (duplicate_field s m t0 !! t0)) as [w Hw].
    { rewrite duplicate_field_lookup. destruct (m !! t0); [done|].
      rewrite decide_True by done. by rewrite Hs. }
    rewrite (duplicate_targets_keep _ _ _ _ _ Hw). done.
  - apply IH; [|by apply elem_of_cons in Ht as [?|?]].
    exists v. by rewrite duplicate_field_lookup, Hs.
Qed.

Lemma duplicate_fields_keep (rules : list (string * list string)) (m : manifest) k v :
  m !! k = Some v -> duplicate_fields rules m !! k = Some v.
Proof.
  unfold duplicate_fields. revert m.
  induction rules as [|[s ts] rules IH]; intros m H; [done|].
  simpl. apply IH. by apply duplicate_targets_keep.
Qed.

Lemma duplicate_fields_fresh (rules : list (string * list string)) (m : manifest) k :
  (forall s ts, (s, ts) ∈ rules -> k ∉ ts) ->
  duplicate_fields rules m !! k = m !! k.
Proof.
  unfold duplicate_fields. revert m.
  induction rules as [|[s ts] rules IH]; intros m H; [done|].
  simpl. rewrite IH by (intros; eapply H; by right).
  apply duplicate_targets_fresh. eapply H. by left.
Qed.

Lemma duplicate_fields_fill (rules : list (string * list string)) (m : manifest) s ts t :
  (s, ts) ∈ rules -> t ∈ ts -> is_Some (m !! s) ->
  is_Some (duplicate_fields rules m !! t).
Proof.
  unfold duplicate_fields. revert m.
  induction rules as [|[s0 ts0] rules IH]; intros m Hin Ht Hs;
    [by apply elem_of_nil in Hin|].
  simpl. apply elem_of_cons in Hin as [[= <- <-]|Hin].
  - destruct (duplicate_targets_fill s ts m t Hs Ht) as [w Hw].
    exists w. by apply (duplicate_fields_keep rules).
  - apply IH; [done..|]. destruct Hs as [v Hv].
    exists v. by apply duplicate_targets_keep.
Qed.

Lemma duplicate_targets_noop (s : string) (ts : list string) (m : manifest) :
  (forall t, t ∈ ts -> is_Some (m !! s) -> is_Some (m !! t)) ->
  foldl (duplicate_field s) m ts = m.
Proof.
  induction ts as [|t ts IH]; intros H; [done|].
  simpl. assert (duplicate_field s m t = m) as ->.
  { unfold duplicate_field. destruct (m !! s) as [v|] eqn:Es; [|done].
    destruct (H t) as [w ->]; [by left|done|done]. }
  apply IH. intros t' Ht'. apply H. by right.
Qed.

(** Rules that find every target filled change nothing. *)
Lemma duplicate_fields_noop (rules : list (string * list string)) (m : manifest) :
  (forall s ts t, (s, ts) ∈ rules -> t ∈ ts -> is_Some (m !! s) -> is_Some (m !! t)) ->
  duplicate_fields rules m = m.
Proof.
  unfold duplicate_fields.
  induction rules as [|[s ts] rules IH]; intros H; [done|].
  simpl. rewrite duplicate_targets_noop.
  - apply IH. intros s' ts' t Hin. apply H. by right.
  - intros t. apply H. by left.
Qed.

Lemma get_repo_download_url_agree (W : World) (m m' : manifest) :
  m' !! "RepoUrl" = m !! "RepoUrl" ->
  m' !! "InternalName" = m !! "InternalName" ->
  _get_repo_download_url W m' = _get_repo_download_url W m.
Proof. intros H1 H2. unfold _get_repo_download_url, get_or. by rewrite H1, H2. Qed.

(** Step 1 either leaves the manifest as it is or sets [DownloadLinkInstall],
    and does the same on a manifest that agrees on the fields it reads. *)
Lemma install_link_agree (cfg : Config) (W : World) g pn (m m' r : manifest) :
  (forall k, k ∈ ["RepoUrl"; "InternalName"; "_repository_source";
                  "_repository_asset_url"; "_repository_token_name"] ->
             m' !! k = m !! k) ->
  install_link cfg W g pn m = Ok r ->
  (r = m /\ install_link cfg W g pn m' = Ok m') \/
  (exists v, r = <["DownloadLinkInstall" := v]> m /\
     install_link cfg W g pn m' = Ok (<["DownloadLinkInstall" := v]> m')).
Proof.
  intros H.
  assert (m' !! "RepoUrl" = m !! "RepoUrl") as H1 by (apply H; set_solver).
  assert (m' !! "InternalName" = m !! "InternalName") as H2 by (apply H; set_solver).
  assert (m' !! "_repository_source" = m !! "_repository_source") as H3
    by (apply H; set_solver).
  assert (m' !! "_repository_asset_url" = m !! "_repository_asset_url") as H4
    by (apply H; set_solver).
  assert (m' !! "_repository_token_name" = m !! "_repository_token_name") as H5
    by (apply H; set_solver).
  unfold install_link. rewrite (get_repo_download_url_agree W m m' H1 H2).
  unfold has_key, get_or, resolve_asset_link, get, get_or, bind, str_method.
  rewrite H1, H3, H4, H5.
  intros Hr. repeat case_match; simplify_eq/=; eauto.
Qed.

(** Step 2, when it does not pop [_testing_download_url]. *)
Lemma testing_link_agree (cfg : Config) (W : World) g pn (m m' r : manifest) :
  m' !! "TestingAssemblyVersion" = m !! "TestingAssemblyVersion" ->
  m' !! "_testing_download_url" = m !! "_testing_download_url" ->
  ~ (is_Some (m !! "TestingAssemblyVersion") /\
     is_Some (m !! "_testing_download_url") /\ g = false) ->
  testing_link cfg W g pn m = Ok r ->
  (r = m /\ testing_link cfg W g pn m' = Ok m') \/
  (exists v, r = <["DownloadLinkTesting" := v]> m /\
     testing_link cfg W g pn m' = Ok (<["DownloadLinkTesting" := v]> m')).
Proof.
  intros H1 H2 Hnc. unfold testing_link, has_key. rewrite H1, H2.
  destruct (m !! "TestingAssemblyVersion") as [tv|] eqn:E1; cycle 1.
  { rewrite bool_decide_eq_false_2 by (by intros [? ?]). simpl.
    intros [= <-]. by left. }
  rewrite bool_decide_eq_true_2 by done.
  destruct g; simpl; [intros [= <-]; by left|].
  destruct (m !! "_testing_download_url") as [u|] eqn:E2.
  { exfalso. apply Hnc. eauto. }
  destruct (format_url cfg W "testing" pn) as [url|]; simpl; [|done].
  intros [= <-]. right. eauto.
Qed.

Lemma icon_fallback_lookup (cfg : Config) (W : World) pn (m : manifest) k :
  k <> "IconUrl" -> icon_fallback cfg W pn m !! k = m !! k.
Proof.
  intros Hk. unfold icon_fallback.
  repeat case_match; try done. by rewrite lookup_insert_ne.
Qed.

Lemma icon_fallback_keeps (cfg : Config) (W : World) pn (m : manifest) k :
  is_Some (m !! k) -> is_Some (icon_fallback cfg W pn m !! k).
Proof.
  intros Hk. unfold icon_fallback.
  repeat case_match; try done. rewrite lookup_insert_is_Some.
  destruct (decide ("IconUrl" = k)); [by left|by right].
Qed.

(** The icon step finds its own result settled, also after the counter
    reset. *)
Lemma icon_fallback_settled (cfg : Config) (W : World) pn (m : manifest) :
  icon_fallback cfg W pn (<["DownloadCount" := VInt 0]> (icon_fallback cfg W pn m))
  = <["DownloadCount" := VInt 0]> (icon_fallback cfg W pn m).
Proof.
  unfold icon_fallback at 1 3. unfold has_key, get, get_or.
  rewrite lookup_insert_ne by done.
  unfold icon_fallback, has_key, get, get_or.
  destruct (icon_exists W (str_of W pn +:+ ".png")) eqn:Ei.
  - destruct (negb (bool_decide (is_Some (m !! "IconUrl"))) ||
              negb (truthy (default VNone (m !! "IconUrl")))) eqn:Ec.
    + rewrite lookup_insert_eq.
      rewrite bool_decide_eq_true_2 by done. done.
    + by rewrite Ec.
  - by repeat case_match.
Qed.

(** Membership of a literal in a literal list. *)
Ltac listed := repeat first [apply list_elem_of_here | apply list_elem_of_further].

Lemma enrichment_field_no_target (rules : list (string * list string)) k :
  independent_rules rules = true ->
  k ∈ enrichment_fields ->
  forall s ts, (s, ts) ∈ rules -> k ∉ ts.
Proof.
  intros Hr Hk s ts Hs Ht.
  by destruct (independent_rules_spec rules s ts k Hr Hs Ht) as [? _].
Qed.

(** C2 (amended).  Let the duplication rules be independent of enrichment
    (they only fill fields enrichment does not touch, from fields that are
    neither such targets nor [IconUrl] or [DownloadCount]; the default rule
    [DownloadLinkInstall -> DownloadLinkUpdate] is of this kind), and let the
    first application not pop an explicitly resolved testing URL (the
    manifest lacks [TestingAssemblyVersion] or [_testing_download_url], or is
    the global build).  Then a second application of [add_download_links]
    returns the manifest the first one returned. *)
Theorem add_download_links_idempotent (cfg : Config) (W : World) (m m1 : manifest) :
  independent_rules (field_duplicates cfg) = true ->
  ~ consumes_testing_url cfg m ->
  add_download_links cfg W m = Ok m1 ->
  add_download_links cfg W m1 = Ok m1.
Proof.
  intros Hrules Hnc Hadd. unfold add_download_links in Hadd.
  destruct (is_global_build cfg m) as [g|] eqn:Hg; [|done]. cbn [bind] in Hadd.
  destruct (item m "InternalName") as [pn|] eqn:Hpn; [|done]. cbn [bind] in Hadd.
  destruct (install_link cfg W g pn m) as [a|] eqn:Ha; [|done]. cbn [bind] in Hadd.
  destruct (testing_link cfg W g pn a) as [b|] eqn:Hb; [|done]. cbn [bind] in Hadd.
  injection Hadd as Hm1.
  set (rules := field_duplicates cfg) in *.
  set (c := duplicate_fields rules b) in *.
  set (d := icon_fallback cfg W pn c) in *.
  (* what each step leaves alone *)
  assert (forall k, k <> "DownloadLinkInstall" -> a !! k = m !! k) as Fa.
  { intros k Hk. destruct (install_link_agree cfg W g pn m m a) as [[-> _]|(v & -> & _)];
      [done|done|done|by rewrite lookup_insert_ne]. }
  assert (~ (is_Some (a !! "TestingAssemblyVersion") /\
             is_Some (a !! "_testing_download_url") /\ g = false)) as Hnc'.
  { rewrite !Fa by done. intros (? & ? & ->). apply Hnc. by split_and!. }
  assert (forall k, k <> "DownloadLinkTesting" -> b !! k = a !! k) as Fb.
  { intros k Hk.
    destruct (testing_link_agree cfg W g pn a a b) as [[-> _]|(v & -> & _)];
      [done|done|done|done|done|by rewrite lookup_insert_ne]. }
  assert (forall k, k <> "IconUrl" -> k <> "DownloadCount" -> m1 !! k = c !! k) as Fd.
  { intros k H1 H2. subst m1. rewrite lookup_insert_ne by done.
    by apply icon_fallback_lookup. }
  assert (forall k v, b !! k = Some v -> k <> "IconUrl" -> k <> "DownloadCount" ->
                      m1 !! k = Some v) as Fkeep.
  { intros k v Hk H1 H2. rewrite Fd by done. by apply duplicate_fields_keep. }
  assert (forall k, k ∈ enrichment_fields -> k <> "DownloadLinkInstall" ->
            k <> "DownloadLinkTesting" -> k <> "IconUrl" -> k <> "DownloadCount" ->
            m1 !! k = m !! k) as Fread.
  { intros k Hk H1 H2 H3 H4. rewrite Fd by done. unfold c.
    rewrite duplicate_fields_fresh by (by apply enrichment_field_no_target).
    rewrite Fb by done. by apply Fa. }
  (* the second application *)
  unfold add_download_links.
  assert (is_global_build cfg m1 = Ok g) as ->.
  { unfold is_global_build, item in *. rewrite Fread; [done|listed|done..]. }
  assert (item m1 "InternalName" = Ok pn) as ->.
  { unfold item in *. rewrite Fread; [done|listed|done..]. }
  cbn [bind].
  assert (install_link cfg W g pn m1 = Ok m1) as ->.
  { destruct (install_link_agree cfg W g pn m m1 a) as [[_ ->]|(v & Hv & ->)];
      [|done|done|].
    - intros k Hk. members Hk; (apply Fread; [listed|done..]).
    - f_equal. apply insert_id. apply Fkeep; [|done..].
      rewrite Fb by done. rewrite Hv. apply lookup_insert_eq. }
  cbn [bind].
  assert (testing_link cfg W g pn m1 = Ok m1) as ->.
  { destruct (testing_link_agree cfg W g pn a m1 b) as [[_ ->]|(v & Hv & ->)];
      [..|done|].
    - rewrite Fa by done. apply Fread; [listed|done..].
    - rewrite Fa by done. apply Fread; [listed|done..].
    - done.
    - done.
    - f_equal. apply insert_id. apply Fkeep; [|done..].
      rewrite Hv. apply lookup_insert_eq. }
  cbn [bind]. fold rules.
  assert (duplicate_fields rules m1 = m1) as ->.
  { apply duplicate_fields_noop. intros s ts t Hs Ht Hsome.
    destruct (independent_rules_spec rules s ts t Hrules Hs Ht)
      as (_ & Hi & Hdc & Hsrc).
    rewrite Fd in Hsome by done. unfold c in Hsome.
    rewrite duplicate_fields_fresh in Hsome; cycle 1.
    { intros s' ts' Hs' Hin.
      destruct (independent_rules_spec rules s' ts' s Hrules Hs' Hin)
        as (_ & _ & _ & Hno). exact (Hno s ts Hs eq_refl). }
    pose proof (duplicate_fields_fill rules b s ts t Hs Ht Hsome) as Hc.
    fold c in Hc. subst m1. rewrite lookup_insert_is_Some.
    destruct (decide ("DownloadCount" = t)); [by left|right].
    split; [done|]. by apply icon_fallback_keeps. }
  assert (icon_fallback cfg W pn m1 = m1) as ->.
  { subst m1. apply icon_fallback_settled. }
  f_equal. subst m1. apply insert_insert_eq.
Qed.

Lemma add_download_links_idempotent_witness :
  add_download_links main_cfg (sample_world None) enriched_local = Ok enriched_local.
Proof.
  apply (add_download_links_idempotent main_cfg (sample_world None)
           local_testing_manifest enriched_local).
  - reflexivity.
  - intros (_ & [v Hv] & _). vm_compute in Hv. discriminate Hv.
  - evaluated.
Defined.

(** C2 (counterexample).  A repository manifest with [TestingAssemblyVersion]
    and an explicitly resolved [_testing_download_url]: the first application
    moves that URL into [DownloadLinkTesting] and removes the key, the second
    one overwrites [DownloadLinkTesting] with the templated URL. *)
Lemma enrichment_twice_differs :
  add_download_links main_cfg (sample_world None) repository_testing_manifest
  = Ok enriched_once /\
  add_download_links main_cfg (sample_world None) enriched_once = Ok enriched_twice /\
  enriched_once <> enriched_twice.
Proof.
  split_and!.
  - evaluated.
  - evaluated.
  - intros E. apply (f_equal (fun m : manifest => m !! "DownloadLinkTesting")) in E.
    vm_compute in E. discriminate E.
Qed.

(** The condition on the rules is needed: with a rule that copies from the
    target of a later rule, the second application fills one more field. *)
Lemma chained_rules_not_idempotent :
  (m1 <- add_download_links chained_rules_cfg (sample_world None)
           local_testing_manifest;;
   Ok (m1 !! "MirrorCopy")) = Ok None /\
  (m1 <- add_download_links chained_rules_cfg (sample_world None)
           local_testing_manifest;;
   m2 <- add_download_links chained_rules_cfg (sample_world None) m1;;
   Ok (m2 !! "MirrorCopy"))
  = Ok (Some (VStr
      "https://github.com/WigglyMuffin/DalamudPlugins/raw/main/plugins/P/latest.zip")).
Proof. split; evaluated. Qed.

(** ** SourceAggregator *)

Lemma py_eq_refl_hashable (v : value) : hashable v = true -> py_eq v v = true.
Proof.
  destruct v as [|b|n|s|l|d]; simpl; try done; intros _.
  - by destruct b.
  - apply Z.eqb_refl.
  - apply String.eqb_refl.
Qed.

Lemma vset_mem_app (s : list value) (k k' : value) :
  vset_mem (s ++ [k']) k = vset_mem s k || py_eq k' k.
Proof. unfold vset_mem. rewrite existsb_app. simpl. by rewrite orb_false_r. Qed.

(** The second loop keeps the first of two local manifests with one
    identifier and skips the other. *)
Lemma collect_local_same_identifier (base glob : manifest)
    (manifests : list manifest) (processed : list value) (n : value) :
  get base "InternalName" = n -> get glob "InternalName" = n ->
  truthy n = true -> hashable n = true -> vset_mem processed n = false ->
  collect_local [base; glob] manifests processed
  = Ok (manifests ++ [base], processed ++ [n]).
Proof.
  intros Hb Hg Ht Hh Hm. simpl. rewrite Hb, Hg, Ht, Hh, Hm. simpl.
  by rewrite vset_mem_app, py_eq_refl_hashable, orb_true_r.
Qed.

(** C9 (the code at the failing input).  The directory [Foo] is claimed by no
    remote source and holds a readable primary and a readable global archive:
    [process_plugin_directory] yields both manifests, the second one named
    [Foo (API13)], but [_collect_manifests_with_priority] returns the primary
    manifest alone. *)
Theorem global_variant_dropped :
  process_plugin_directory main_cfg (sample_world None) foo_dir
  = Ok [foo_primary; foo_global] /\
  _collect_manifests_with_priority main_cfg (sample_world None) [foo_dir] []
  = Ok [<["_output_name" := VStr "default"]> foo_primary].
Proof. split; evaluated. Qed.

(** ** OutputRouter: the write pass *)

Section write_pass.
Context (W : World) (grouped : list (string * manifest)).

Lemma write_output_fs st name path p :
  fst (write_output W grouped st (name, path)) !! p =
    if decide (p = resolve W path)
    then if writes_output grouped name
         then Some (Catalog (group_of name grouped)) else None
    else fst st !! p.
Proof.
  unfold write_output, writes_output. cbn [fst snd].
  destruct (bool_decide (group_of name grouped = []) &&
            negb (String.eqb name "default")); cbn [fst snd negb];
    case_decide; subst.
  - apply lookup_delete_eq.
  - by apply lookup_delete_ne.
  - apply lookup_insert_eq.
  - by apply lookup_insert_ne.
Qed.

Lemma write_output_current st name path :
  snd (write_output W grouped st (name, path)) =
    if writes_output grouped name then {[resolve W path]} ∪ snd st else snd st.
Proof.
  unfold write_output, writes_output. cbn [fst snd].
  by destruct (bool_decide (group_of name grouped = []) &&
               negb (String.eqb name "default")).
Qed.

(** A path that is no destination keeps its file through the loop. *)
Lemma write_fold_untouched outs st p :
  (forall name path, (name, path) ∈ outs -> resolve W path <> p) ->
  fst (foldl (write_output W grouped) st outs) !! p = fst st !! p.
Proof.
  induction outs as [|[name path] outs IH] using rev_ind; intros H; [done|].
  rewrite foldl_snoc, write_output_fs.
  rewrite decide_False.
  - apply IH. intros n q Hin. apply (H n q). apply elem_of_app. by left.
  - intros E. apply (H name path); [|done]. apply elem_of_app. right. by left.
Qed.

(** [current_output_paths] after the loop. *)
Lemma write_fold_current outs st p :
  p ∈ snd (foldl (write_output W grouped) st outs) <->
  p ∈ snd st \/
  exists name path, (name, path) ∈ outs /\ resolve W path = p /\
    writes_output grouped name = true.
Proof.
  induction outs as [|[name path] outs IH] using rev_ind.
  { simpl. split; [by left|]. intros [?|(? & ? & []%elem_of_nil & _)]. done. }
  rewrite foldl_snoc, write_output_current.
  destruct (writes_output grouped name) eqn:Hw.
  - rewrite elem_of_union, elem_of_singleton, IH. split.
    + intros [->|[?|(n & q & Hin & Hq & Hn)]]; [right|by left|right].
      * exists name, path. split_and!; [|done..]. apply elem_of_app. right. by left.
      * exists n, q. split_and!; [|done..]. apply elem_of_app. by left.
    + intros [?|(n & q & Hin & Hq & Hn)]; [right; by left|].
      apply elem_of_app in Hin as [Hin|Hin].
      * right. right. by exists n, q.
      * apply list_elem_of_singleton in Hin. simplify_eq. by left.
  - rewrite IH. split.
    + intros [?|(n & q & Hin & Hq & Hn)]; [by left|right].
      exists n, q. split_and!; [|done..]. apply elem_of_app. by left.
    + intros [?|(n & q & Hin & Hq & Hn)]; [by left|].
      apply elem_of_app in Hin as [Hin|Hin].
      * right. by exists n, q.
      * apply list_elem_of_singleton in Hin. simplify_eq; congruence.
Qed.

(** A path whose destinations are all skipped holds no file afterwards. *)
Lemma write_fold_skipped outs st p :
  (forall name path, (name, path) ∈ outs -> resolve W path = p ->
     writes_output grouped name = false) ->
  fst st !! p = None \/ (exists name path, (name, path) ∈ outs /\ resolve W path = p) ->
  fst (foldl (write_output W grouped) st outs) !! p = None.
Proof.
  induction outs as [|[name path] outs IH] using rev_ind; intros Hs Hex.
  { destruct Hex as [?|(? & ? & []%elem_of_nil & _)]. done. }
  rewrite foldl_snoc, write_output_fs. case_decide as Hp.
  - rewrite (Hs name path); [done| |done]. apply elem_of_app. right. by left.
  - apply IH.
    + intros n q Hin. apply Hs. apply elem_of_app. by left.
    + destruct Hex as [?|(n & q & Hin & Hq)]; [by left|right].
      apply elem_of_app in Hin as [Hin|Hin]; [by exists n, q|].
      apply list_elem_of_singleton in Hin. simplify_eq.
Qed.

(** A file found at the path of a destination after the loop was written
    in the loop. *)
Lemma write_fold_configured outs st p f :
  fst (foldl (write_output W grouped) st outs) !! p = Some f ->
  (exists name path, (name, path) ∈ outs /\ resolve W path = p) ->
  exists name path, (name, path) ∈ outs /\ resolve W path = p /\
    writes_output grouped name = true /\ f = Catalog (group_of name grouped).
Proof.
  induction outs as [|[name path] outs IH] using rev_ind; intros Hf Hex.
  { destruct Hex as (? & ? & []%elem_of_nil & _). }
  rewrite foldl_snoc, write_output_fs in Hf. case_decide as Hp.
  - destruct (writes_output grouped name) eqn:Hw; [|done]. simplify_eq.
    exists name, path. split_and!; [|done..]. apply elem_of_app. right. by left.
  - destruct IH as (n & q & Hin & Hq & Hn & Hc); [done| |].
    + destruct Hex as (n & q & Hin & Hq).
      apply elem_of_app in Hin as [Hin|Hin]; [by exists n, q|].
      apply list_elem_of_singleton in Hin. simplify_eq.
    + exists n, q. split_and!; [|done..]. apply elem_of_app. by left.
Qed.

(** With pairwise distinct paths every written destination keeps its
    catalog. *)
Lemma write_fold_written outs st name path :
  NoDup ((fun out => resolve W (snd out)) <$> outs) ->
  (name, path) ∈ outs -> writes_output grouped name = true ->
  fst (foldl (write_output W grouped) st outs) !! resolve W path
  = Some (Catalog (group_of name grouped)).
Proof.
  induction outs as [|[n q] outs IH] using rev_ind; intros Hnd Hin Hw.
  { by apply elem_of_nil in Hin. }
  rewrite fmap_app in Hnd. apply NoDup_app in Hnd as (Hnd & Hne & _).
  rewrite foldl_snoc, write_output_fs.
  apply elem_of_app in Hin as [Hin|Hin].
  - rewrite decide_False; [by apply IH|].
    intros E. eapply Hne; [|left]. cbn [snd]. rewrite <- E.
    apply list_elem_of_fmap. by exists (name, path).
  - apply list_elem_of_singleton in Hin. simplify_eq.
    rewrite decide_True by done. by rewrite Hw.
Qed.
End write_pass.

Lemma cleanup_lookup (W : World) (current : gset string) (fs : gmap string file) p :
  _cleanup_stale_outputs W current fs !! p =
    if stale W current p then None else fs !! p.
Proof.
  unfold _cleanup_stale_outputs.
  destruct (stale W current p) eqn:Hs.
  - apply map_lookup_filter_None. right. intros f _. cbn [fst]. congruence.
  - destruct (fs !! p) as [f|] eqn:Hf.
    + apply map_lookup_filter_Some. by split.
    + apply map_lookup_filter_None. by left.
Qed.

(** Grouping succeeds when every [_output_name] can be hashed. *)
Lemma route_total (cfg : Config) (m : manifest) :
  hashable (get_or m "_output_name" (VStr "default")) = true ->
  exists o, route cfg m = Ok o.
Proof. unfold route. destruct (get_or m "_output_name" _); simpl; try done; eauto. Qed.

Lemma group_manifests_total (cfg : Config) (final : bool) (ms : list manifest) :
  Forall (fun m => hashable (get_or m "_output_name" (VStr "default")) = true) ms ->
  exists grouped, group_manifests cfg final ms = Ok grouped.
Proof.
  induction 1 as [|m ms Hm _ [g IH]]; simpl; [eauto|].
  destruct (route_total cfg m Hm) as [o ->]. simpl. rewrite IH. simpl. eauto.
Qed.

(** The records of the groups are the manifests, without [_output_name] on
    the final pass. *)
Lemma group_manifests_records (cfg : Config) (final : bool) (ms : list manifest) grouped :
  group_manifests cfg final ms = Ok grouped ->
  grouped.*2 = (fun m => if final then delete "_output_name" m else m) <$> ms.
Proof.
  revert grouped. induction ms as [|m ms IH]; intros grouped; simpl.
  { by intros [= <-]. }
  destruct (route cfg m) as [o|]; simpl; [|done].
  destruct (group_manifests cfg final ms) as [g|]; simpl; [|done].
  intros [= <-]. rewrite !fmap_cons. cbn [snd]. by rewrite (IH g eq_refl).
Qed.

Lemma group_of_records (name : string) (grouped : list (string * manifest)) r :
  r ∈ group_of name grouped -> r ∈ grouped.*2.
Proof.
  unfold group_of. intros ((n & r') & -> & Hin)%list_elem_of_fmap.
  apply list_elem_of_In, filter_In in Hin as [Hin _].
  apply list_elem_of_fmap. exists (n, r'). split; [done|]. by apply list_elem_of_In.
Qed.

(** The files that the final pass leaves and the paths that it wrote. *)
Lemma final_write_unwritten (cfg : Config) (W : World)
    (ms : list manifest) (fs : gmap string file) grouped :
  group_manifests cfg true ms = Ok grouped ->
  exists fs', _write_plugin_master cfg W ms true fs = Ok fs' /\
    (forall p, is_cwd_json W p = true -> p <> resolve W "./plugin-sources.json" ->
       p ∉ snd (write_outputs cfg W grouped fs) -> fs' !! p = None) /\
    (forall p, p ∈ snd (write_outputs cfg W grouped fs) <->
       exists name path, (name, path) ∈ output_files cfg /\ resolve W path = p /\
         writes_output grouped name = true) /\
    (forall p, is_cwd_json W p = true -> p <> resolve W "./plugin-sources.json" ->
       (forall name path, (name, path) ∈ output_files cfg -> resolve W path = p ->
          group_of name grouped = [] /\ name <> "default") ->
       fs' !! p = None).
Proof.
  intros Hg. unfold _write_plugin_master. rewrite Hg. cbn [bind].
  eexists. split; [done|].
  assert (forall p, is_cwd_json W p = true -> p <> resolve W "./plugin-sources.json" ->
            p ∉ snd (write_outputs cfg W grouped fs) ->
            _cleanup_stale_outputs W (snd (write_outputs cfg W grouped fs))
              (fst (write_outputs cfg W grouped fs)) !! p = None) as H1.
  { intros p Hj Hp Hn. rewrite cleanup_lookup. unfold stale.
    rewrite Hj, bool_decide_eq_false_2, string_eqb_neq by done. done. }
  assert (forall p, p ∈ snd (write_outputs cfg W grouped fs) <->
            exists name path, (name, path) ∈ output_files cfg /\ resolve W path = p /\
              writes_output grouped name = true) as H2.
  { intros p. unfold write_outputs. rewrite write_fold_current. cbn [snd].
    split; [intros [[]%elem_of_empty|?]; done|by right]. }
  split_and!; [done..|].
  intros p Hj Hp Hs. apply H1; [done..|]. rewrite H2.
  intros (name & path & Hin & Hq & Hw). destruct (Hs name path Hin Hq) as [He Hd].
  unfold writes_output in Hw.
  by rewrite bool_decide_eq_true_2, string_eqb_neq in Hw.
Qed.

(** C10.  On the final pass, if the grouping succeeds, [_write_plugin_master]
    returns, and afterwards no file exists at a path that the glob [*.json]
    of the working directory yields, that is not [plugin-sources.json] and
    that was not written in this pass, whatever the file held; the written
    paths are those of the destinations that were not skipped, so the file of
    a configured destination skipped for its empty group is removed as well. *)
Theorem cleanup_removes_unwritten_json (cfg : Config) (W : World)
    (ms : list manifest) (fs : gmap string file) grouped :
  group_manifests cfg true ms = Ok grouped ->
  exists fs', _write_plugin_master cfg W ms true fs = Ok fs' /\
    (forall p, is_cwd_json W p = true -> p <> resolve W "./plugin-sources.json" ->
       p ∉ snd (write_outputs cfg W grouped fs) -> fs' !! p = None) /\
    (forall p, p ∈ snd (write_outputs cfg W grouped fs) <->
       exists name path, (name, path) ∈ output_files cfg /\ resolve W path = p /\
         writes_output grouped name = true) /\
    (forall p, is_cwd_json W p = true -> p <> resolve W "./plugin-sources.json" ->
       (forall name path, (name, path) ∈ output_files cfg -> resolve W path = p ->
          group_of name grouped = [] /\ name <> "default") ->
       fs' !! p = None).
Proof. apply final_write_unwritten. Qed.

(** Case analysis on the entries of a literal list of pairs. *)
Ltac entries H :=
  repeat (apply elem_of_cons in H as [H|H]; [injection H as -> ->|]);
  try (apply elem_of_nil in H; destruct H).

(** A closed equation refuted by evaluating its two sides. *)
Ltac refuted H := vm_compute in H; discriminate H.

Lemma cleanup_removes_unwritten_json_witness :
  exists fs',
    _write_plugin_master two_outputs_cfg (sample_world None) [routed_to_b] true
      fs_with_stale = Ok fs' /\
    fs' !! "/work/notes.json" = None /\ fs' !! "/work/a.json" = None.
Proof.
  destruct (cleanup_removes_unwritten_json two_outputs_cfg (sample_world None)
              [routed_to_b] fs_with_stale
              [("B", delete "_output_name" routed_to_b)])
    as (fs' & Hw & _ & _ & Hs).
  - evaluated.
  - exists fs'. split; [exact Hw|]. split.
    + apply Hs.
      * evaluated.
      * intros E. refuted E.
      * intros name path Hin Hq.
        cbn [output_files two_outputs_cfg load_default] in Hin.
        entries Hin; refuted Hq.
    + apply Hs.
      * evaluated.
      * intros E. refuted E.
      * intros name path Hin Hq.
        cbn [output_files two_outputs_cfg load_default] in Hin.
        entries Hin; [|refuted Hq].
        split; [evaluated|congruence].
Defined.

(** C6 (amended).  Let the group of a configured destination be empty.  If
    the destination is not [default], its round of the write loop writes
    nothing and removes the file at its path; and when no destination that is
    written shares that path, [_write_plugin_master] returns and no file
    exists at the path afterwards, on the final and on the earlier pass.  If
    the destination is [default], its round writes the catalog, an empty
    list. *)
Theorem empty_destination_handling (cfg : Config) (W : World) (ms : list manifest)
    (final : bool) (fs : gmap string file) grouped name path :
  group_manifests cfg final ms = Ok grouped ->
  (name, path) ∈ output_files cfg ->
  group_of name grouped = [] ->
  (name <> "default" ->
     (forall st, write_output W grouped st (name, path)
                 = (delete (resolve W path) (fst st), snd st)) /\
     ((forall n q, (n, q) ∈ output_files cfg -> resolve W q = resolve W path ->
         writes_output grouped n = false) ->
      exists fs', _write_plugin_master cfg W ms final fs = Ok fs' /\
        fs' !! resolve W path = None /\
        resolve W path ∉ snd (write_outputs cfg W grouped fs))) /\
  (name = "default" ->
     forall st, write_output W grouped st (name, path)
                = (<[resolve W path := Catalog []]> (fst st),
                   {[resolve W path]} ∪ snd st)).
Proof.
  intros Hg Hin He. split.
  - intros Hd. split.
    + intros st. unfold write_output. cbn [fst snd].
      by rewrite He, bool_decide_eq_true_2, string_eqb_neq.
    + intros Hs. unfold _write_plugin_master. rewrite Hg. cbn [bind].
      eexists. split; [done|].
      assert (fst (write_outputs cfg W grouped fs) !! resolve W path = None) as Hn.
      { apply write_fold_skipped; [done|]. right. by exists name, path. }
      split.
      * destruct final; [|done]. rewrite cleanup_lookup, Hn. by case_match.
      * unfold write_outputs. rewrite write_fold_current. cbn [snd].
        intros [[]%elem_of_empty|(n & q & Hq & Hr & Hw)].
        by rewrite (Hs n q Hq Hr) in Hw.
  - intros -> st. unfold write_output. cbn [fst snd]. by rewrite He.
Qed.

Lemma empty_destination_handling_witness :
  exists fs',
    _write_plugin_master two_outputs_cfg (sample_world None) [routed_to_b] false
      fs_with_stale = Ok fs' /\
    fs' !! "/work/a.json" = None.
Proof.
  destruct (empty_destination_handling two_outputs_cfg (sample_world None)
              [routed_to_b] false fs_with_stale [("B", routed_to_b)] "A" "./a.json")
    as [Hskip _].
  - evaluated.
  - left.
  - reflexivity.
  - destruct Hskip as [_ Hpass]; [congruence|].
    destruct Hpass as (fs' & Hw & Hn & _).
    + intros n q Hin Hq. cbn [output_files two_outputs_cfg load_default] in Hin.
      entries Hin; [reflexivity|refuted Hq].
    + exists fs'. split; [exact Hw|exact Hn].
Defined.

(** C6 (counterexample).  The only destination is [default] and no manifest
    is routed to it: the final pass writes its file, holding an empty list. *)
Lemma empty_default_is_written :
  output_files main_cfg = [("default", "./pluginmaster.json")] /\
  group_manifests main_cfg true [] = Ok [] /\
  group_of "default" [] = [] /\
  (fs' <- _write_plugin_master main_cfg (sample_world None) [] true ∅;;
   Ok (fs' !! "/work/pluginmaster.json")) = Ok (Some (Catalog [])).
Proof. split_and!; [reflexivity..|evaluated]. Qed.

(** C7 (amended).  If the grouping succeeds, the final pass returns, and
    afterwards every file that the glob [*.json] of the working directory
    yields is [plugin-sources.json] or the file of a configured destination
    written in this pass; a file of that glob that is neither
    [plugin-sources.json] nor at the path of a configured destination is
    gone; and, the paths of the destinations being pairwise distinct, the
    file of every configured destination whose group is not empty or whose
    name is [default] exists and holds its group.  The earlier, non-final
    pass leaves every file that is at no destination's path as it was and
    writes the manifests as they are, [_output_name] included. *)
Theorem final_pass_keeps_configured_catalogs (cfg : Config) (W : World)
    (ms : list manifest) (fs : gmap string file) grouped grouped0 :
  group_manifests cfg true ms = Ok grouped ->
  group_manifests cfg false ms = Ok grouped0 ->
  (exists fs', _write_plugin_master cfg W ms true fs = Ok fs' /\
     (forall p, is_cwd_json W p = true -> is_Some (fs' !! p) ->
        p = resolve W "./plugin-sources.json" \/
        exists name path, (name, path) ∈ output_files cfg /\ resolve W path = p /\
          writes_output grouped name = true) /\
     (forall p, is_cwd_json W p = true -> p <> resolve W "./plugin-sources.json" ->
        (forall name path, (name, path) ∈ output_files cfg -> resolve W path <> p) ->
        fs' !! p = None) /\
     (NoDup ((fun out => resolve W (snd out)) <$> output_files cfg) ->
      forall name path, (name, path) ∈ output_files cfg ->
        group_of name grouped <> [] \/ name = "default" ->
        fs' !! resolve W path = Some (Catalog (group_of name grouped)))) /\
  (exists fs0, _write_plugin_master cfg W ms false fs = Ok fs0 /\
     (forall p, (forall name path, (name, path) ∈ output_files cfg ->
                   resolve W path <> p) ->
        fs0 !! p = fs !! p) /\
     grouped0.*2 = ms).
Proof.
  intros Hg Hg0. split.
  - destruct (final_write_unwritten cfg W ms fs grouped Hg)
      as (fs' & Hw & H1 & H2 & H3).
    exists fs'. split; [done|].
    unfold _write_plugin_master in Hw. rewrite Hg in Hw. cbn [bind] in Hw.
    injection Hw as Hfs'. split_and!.
    + intros p Hj [f Hf].
      destruct (decide (p = resolve W "./plugin-sources.json")) as [|Hp]; [by left|].
      right. apply H2.
      destruct (decide (p ∈ snd (write_outputs cfg W grouped fs))) as [|Hn]; [done|].
      rewrite (H1 p Hj Hp Hn) in Hf. done.
    + intros p Hj Hp Hno. apply H3; [done..|].
      intros name path Hin Hq. by destruct (Hno name path Hin).
    + intros Hnd name path Hin Hne.
      assert (writes_output grouped name = true) as Hwr.
      { unfold writes_output. destruct Hne as [Hne| ->].
        - by rewrite bool_decide_eq_false_2.
        - by rewrite andb_false_r. }
      subst fs'. rewrite cleanup_lookup.
      assert (stale W (snd (write_outputs cfg W grouped fs)) (resolve W path) = false)
        as ->.
      { unfold stale. rewrite (bool_decide_eq_true_2 (_ ∈ _)).
        - by rewrite andb_false_r.
        - apply H2. by exists name, path. }
      by apply write_fold_written.
  - unfold _write_plugin_master. rewrite Hg0. cbn [bind].
    eexists. split_and!; [done|..].
    + intros p Hno. by apply write_fold_untouched.
    + rewrite (group_manifests_records cfg false ms grouped0 Hg0).
      apply list_fmap_id.
Qed.

Lemma final_pass_keeps_configured_catalogs_witness :
  exists fs',
    _write_plugin_master two_outputs_cfg (sample_world None)
      [routed_to_a; routed_to_b] true fs_with_stale = Ok fs' /\
    fs' !! "/work/c.json" = None.
Proof.
  destruct (final_pass_keeps_configured_catalogs two_outputs_cfg (sample_world None)
              [routed_to_a; routed_to_b] fs_with_stale
              [("A", delete "_output_name" routed_to_a);
               ("B", delete "_output_name" routed_to_b)]
              [("A", routed_to_a); ("B", routed_to_b)])
    as [(fs' & Hw & _ & Hstale & _) _].
  - evaluated.
  - evaluated.
  - exists fs'. split; [exact Hw|]. apply Hstale.
    + evaluated.
    + intros E. refuted E.
    + intros name path Hin Hq.
      cbn [output_files two_outputs_cfg load_default] in Hin.
      entries Hin; refuted Hq.
Defined.

(** C7 (counterexample).  Destinations [A] and [B] are configured, a catalog
    of an earlier destination [C] is on disk, and the only manifest is routed
    to [B]: after the final pass the file of [C] is gone and the file of [B]
    exists, but the file of [A] does not. *)
Lemma empty_configured_destination_has_no_file :
  output_files two_outputs_cfg = [("A", "./a.json"); ("B", "./b.json")] /\
  fs_with_stale !! "/work/c.json" = Some (Catalog [routed_to_b]) /\
  (fs' <- _write_plugin_master two_outputs_cfg (sample_world None) [routed_to_b]
            true fs_with_stale;;
   Ok (fs' !! "/work/c.json", fs' !! "/work/b.json", fs' !! "/work/a.json"))
  = Ok (None, Some (Catalog [delete "_output_name" routed_to_b]), None).
Proof. split_and!; [reflexivity|evaluated|evaluated]. Qed.

(** ** OutputRouter: from the live counts to the final write *)

Lemma result_map_Forall2 {A B : Type} (f : A -> result B) (l : list A) (l' : list B) :
  result_map f l = Ok l' -> Forall2 (fun a b => f a = Ok b) l l'.
Proof.
  revert l'. induction l as [|a l IH]; intros l'; simpl.
  { intros [= <-]. constructor. }
  destruct (f a) as [b|] eqn:Ea; simpl; [|done].
  destruct (result_map f l) as [bs|]; simpl; [|done].
  intros [= <-]. constructor; [done|]. by apply IH.
Qed.

Lemma result_map_total {A B : Type} (f : A -> result B) (l : list A) :
  Forall (fun a => exists b, f a = Ok b) l -> exists l', result_map f l = Ok l'.
Proof.
  induction 1 as [|a l [b Hb] _ [bs IH]]; simpl; [eauto|].
  rewrite Hb, IH. simpl. eauto.
Qed.

Lemma apply_cached_count_total (cache : list (value * value)) (m : manifest) :
  hashable (get m "InternalName") = true ->
  exists m', apply_cached_count cache m = Ok m'.
Proof.
  intros H. unfold apply_cached_count. rewrite H.
  repeat case_match; eauto.
Qed.

(** The fallback touches [DownloadCount] alone. *)
Lemma apply_cached_count_lookup (cache : list (value * value)) (m m' : manifest) k :
  apply_cached_count cache m = Ok m' -> k <> "DownloadCount" -> m' !! k = m !! k.
Proof.
  unfold apply_cached_count. intros H Hk.
  repeat case_match; simplify_eq; try done. by rewrite lookup_insert_ne.
Qed.

Lemma set_local_timestamp_lookup (cfg : Config) (W : World) i (m m' : manifest) pn k :
  _set_local_timestamp cfg W i m pn = Ok m' -> k <> "LastUpdate" -> m' !! k = m !! k.
Proof.
  unfold _set_local_timestamp, bind. intros H Hk.
  destruct (is_global_build cfg m); [|done].
  destruct pn; simplify_eq. by rewrite lookup_insert_ne.
Qed.

(** The time stamp step touches [LastUpdate] and [_repository_source]
    alone. *)
Lemma update_last_modified_one_lookup (cfg : Config) (W : World) i (m : manifest) k :
  k <> "LastUpdate" -> k <> "_repository_source" ->
  update_last_modified_one cfg W i m !! k = m !! k.
Proof.
  intros H1 H2. unfold update_last_modified_one.
  repeat case_match; try done;
    try (erewrite set_local_timestamp_lookup by done);
    try done; by rewrite lookup_delete_ne.
Qed.

Lemma trim_lookup_go (m : manifest) (keys : list string) (acc : manifest) k :
  foldl (fun acc k => match m !! k with
                      | Some v => <[k := v]> acc
                      | None => acc
                      end) acc keys !! k
  = if mem k keys
    then match m !! k with Some v => Some v | None => acc !! k end
    else acc !! k.
Proof.
  revert acc. induction keys as [|k0 keys IH]; intros acc; [done|].
  cbn [foldl]. rewrite IH. unfold mem. cbn [existsb]. fold (mem k keys).
  destruct (String.eqb_spec k k0) as [->|Hne]; cbn [orb].
  - destruct (m !! k0) as [v|] eqn:E; [|by destruct (mem k0 keys)].
    rewrite lookup_insert_eq. by destruct (mem k0 keys).
  - destruct (m !! k0); [by rewrite lookup_insert_ne|done].
Qed.

(** [trim_manifest] keeps the required keys that are present, with their
    values, and nothing else. *)
Lemma trim_manifest_lookup (cfg : Config) (m : manifest) k :
  trim_manifest cfg m !! k =
    if mem k (required_manifest_keys cfg) then m !! k else None.
Proof.
  unfold trim_manifest. rewrite trim_lookup_go, lookup_empty.
  destruct (mem k _); [by destruct (m !! k)|done].
Qed.

Lemma vdict_set_values (P : value -> Prop) (d : list (value * value)) k v :
  Forall (fun kv => P (snd kv)) d -> P v ->
  Forall (fun kv => P (snd kv)) (vdict_set d k v).
Proof.
  intros Hd Hv. induction Hd as [|[k' v'] d Hk Hd IH]; simpl.
  - by repeat constructor.
  - destruct (py_eq k' k); by constructor.
Qed.

Lemma vdict_get_values (P : value -> Prop) (d : list (value * value)) k v :
  Forall (fun kv => P (snd kv)) d -> vdict_get d k = Some v -> P v.
Proof.
  induction 1 as [|[k' v'] d Hk _ IH]; simpl; [done|].
  destruct (py_eq k' k); [by intros [= <-]|done].
Qed.

Lemma well_keyed_spec (m : manifest) :
  well_keyed m = true <->
  hashable (get m "InternalName") = true /\
  hashable (get_or m "_output_name" (VStr "default")) = true.
Proof. unfold well_keyed. by rewrite andb_true_iff. Qed.

(** The routing table of well-keyed manifests is built, and holds hashable
    destinations. *)
Lemma output_routing_total (ms : list manifest) (routing : list (value * value)) :
  Forall (fun m => well_keyed m = true) ms ->
  Forall (fun kv => hashable (snd kv) = true) routing ->
  exists r, output_routing ms routing = Ok r /\
    Forall (fun kv => hashable (snd kv) = true) r.
Proof.
  intros Hms. revert routing.
  induction Hms as [|m ms [Hk Ho]%well_keyed_spec _ IH]; intros routing Hr; simpl.
  { eauto. }
  rewrite Hk. apply IH. by apply (vdict_set_values (fun v => hashable v = true)).
Qed.

(** Cached count and time stamp leave the keys of a manifest as they are. *)
Lemma stamped_well_keyed (cfg : Config) (W : World) cache i (m m1 : manifest) :
  apply_cached_count cache m = Ok m1 ->
  well_keyed m = true ->
  well_keyed (update_last_modified_one cfg W i m1) = true.
Proof.
  intros H1 Hm. unfold well_keyed, get, get_or in *.
  rewrite !update_last_modified_one_lookup by done.
  by rewrite !(apply_cached_count_lookup cache m m1) by done.
Qed.

Lemma trimmed_identifier_hashable (cfg : Config) (m : manifest) :
  hashable (get m "InternalName") = true ->
  hashable (get (trim_manifest cfg m) "InternalName") = true.
Proof.
  unfold get, get_or. rewrite trim_manifest_lookup. by destruct (mem _ _).
Qed.

(** The steps of the tail of [generate], when it returns. *)
Lemma generate_tail_inv (cfg : Config) (W : World) cache (ms ms4 : list manifest)
    (fs fs' : gmap string file) :
  generate_tail cfg W cache ms fs = Ok (ms4, fs') ->
  exists ms1 routing fs1,
    result_map (apply_cached_count cache) ms = Ok ms1 /\
    _write_plugin_master cfg W (imap (update_last_modified_one cfg W) ms1) false fs
    = Ok fs1 /\
    output_routing (imap (update_last_modified_one cfg W) ms1) [] = Ok routing /\
    result_map (reattach_output routing)
      (trim_manifest cfg <$> imap (update_last_modified_one cfg W) ms1) = Ok ms4 /\
    _write_plugin_master cfg W ms4 true fs1 = Ok fs'.
Proof.
  unfold generate_tail, _update_last_modified. intros H.
  destruct (result_map (apply_cached_count cache) ms) as [ms1|]; [|done].
  cbn [bind] in H.
  destruct (_write_plugin_master cfg W _ false fs) as [fs1|] eqn:E1; [|done].
  cbn [bind fst snd] in H.
  destruct (output_routing _ []) as [routing|] eqn:E2; [|done]. cbn [bind] in H.
  destruct (result_map (reattach_output routing) _) as [ms4'|] eqn:E3; [|done].
  cbn [bind] in H.
  destruct (_write_plugin_master cfg W ms4' true fs1) as [fs2|] eqn:E4; [|done].
  cbn [bind] in H. simplify_eq. by exists ms1, routing, fs1.
Qed.

(** The tail of [generate] returns on well-keyed manifests. *)
Lemma generate_tail_total (cfg : Config) (W : World) cache (ms : list manifest)
    (fs : gmap string file) :
  Forall (fun m => well_keyed m = true) ms ->
  exists ms4 fs', generate_tail cfg W cache ms fs = Ok (ms4, fs').
Proof.
  intros Hms.
  destruct (result_map_total (apply_cached_count cache) ms) as [ms1 H1].
  { eapply Forall_impl; [done|]. intros m [Hk _]%well_keyed_spec.
    by apply apply_cached_count_total. }
  set (ms2 := imap (update_last_modified_one cfg W) ms1).
  assert (Forall (fun m => well_keyed m = true) ms2) as Hms2.
  { apply Forall_lookup. intros i m2 Hi. unfold ms2 in Hi.
    rewrite list_lookup_imap in Hi.
    destruct (ms1 !! i) as [m1|] eqn:E1; simplify_eq/=.
    destruct (Forall2_lookup_r _ _ _ _ _ (result_map_Forall2 _ _ _ H1) E1)
      as (m & Hm & Ha).
    eapply stamped_well_keyed; [done|]. by eapply Forall_lookup_1 in Hms. }
  destruct (group_manifests_total cfg false ms2) as [g0 Hg0].
  { eapply Forall_impl; [done|]. by intros m [_ ?]%well_keyed_spec. }
  destruct (output_routing_total ms2 []) as (routing & Hr & Hrv); [done|done|].
  destruct (result_map_total (reattach_output routing) (trim_manifest cfg <$> ms2))
    as [ms4 H4].
  { apply Forall_fmap. eapply Forall_impl; [done|].
    intros m [Hk _]%well_keyed_spec. unfold compose, reattach_output.
    rewrite trimmed_identifier_hashable by done. eauto. }
  destruct (group_manifests_total cfg true ms4) as [g Hg].
  { apply Forall_lookup. intros i m4 Hi.
    destruct (Forall2_lookup_r _ _ _ _ _ (result_map_Forall2 _ _ _ H4) Hi)
      as (m3 & _ & Ha).
    unfold reattach_output in Ha. case_match; simplify_eq.
    unfold get_or. rewrite lookup_insert_eq. cbn [default].
    destruct (vdict_get routing _) as [v|] eqn:Ev; [|done].
    by apply (vdict_get_values (fun v => hashable v = true) routing
                (get m3 "InternalName") v). }
  unfold generate_tail, _update_last_modified. rewrite H1. cbn [bind].
  fold ms2. unfold _write_plugin_master at 1. rewrite Hg0. cbn [bind fst snd].
  rewrite Hr. cbn [bind]. rewrite H4. cbn [bind].
  unfold _write_plugin_master. rewrite Hg. cbn [bind]. eauto.
Qed.

(** What the tail of [generate] makes of the [i]-th manifest. *)
Lemma generate_tail_manifest (cfg : Config) (W : World) cache (ms ms4 : list manifest)
    (fs fs' : gmap string file) i :
  generate_tail cfg W cache ms fs = Ok (ms4, fs') ->
  (is_Some (ms !! i) <-> is_Some (ms4 !! i)) /\
  forall m m4, ms !! i = Some m -> ms4 !! i = Some m4 ->
    exists m1, apply_cached_count cache m = Ok m1 /\
      is_Some (m4 !! "_output_name") /\
      forall k, k <> "_output_name" ->
        m4 !! k = if mem k (required_manifest_keys cfg)
                  then update_last_modified_one cfg W i m1 !! k else None.
Proof.
  intros (ms1 & routing & fs1 & H1 & _ & _ & H4 & _)%generate_tail_inv.
  apply result_map_Forall2 in H1, H4.
  pose proof (Forall2_length _ _ _ H1) as L1.
  pose proof (Forall2_length _ _ _ H4) as L4.
  rewrite length_fmap, length_imap in L4.
  split.
  { rewrite !lookup_lt_is_Some. lia. }
  intros m m4 Hm Hm4.
  destruct (Forall2_lookup_l _ _ _ _ _ H1 Hm) as (m1 & Hm1 & Ha).
  exists m1. split; [done|].
  destruct (Forall2_lookup_r _ _ _ _ _ H4 Hm4) as (m3 & Hm3 & Hre).
  rewrite list_lookup_fmap, list_lookup_imap, Hm1 in Hm3. simplify_eq/=.
  unfold reattach_output in Hre. case_match; simplify_eq. split.
  - by rewrite lookup_insert_eq.
  - intros k Hk. rewrite lookup_insert_ne by done. apply trim_manifest_lookup.
Qed.

(** C5.  On well-keyed manifests, with [DownloadCount] among the required
    keys, the tail of [generate] returns, and for every manifest of the run:
    if its count after the live fetch equals 0 and the cache holds a value
    for its [InternalName], the fallback step sets [DownloadCount] to the
    cached value and the manifest ends the run with it; if its live count is
    not 0, the fallback step leaves the manifest as it is and the manifest
    ends the run with the live count, whatever the cache holds. *)
Theorem cached_count_fallback (cfg : Config) (W : World) cache (ms : list manifest)
    (fs : gmap string file) :
  Forall (fun m => well_keyed m = true) ms ->
  mem "DownloadCount" (required_manifest_keys cfg) = true ->
  exists ms' fs', generate_tail cfg W cache ms fs = Ok (ms', fs') /\
    forall i m, ms !! i = Some m ->
      (forall cached,
         py_eq (get_or m "DownloadCount" (VInt 0)) (VInt 0) = true ->
         vdict_get cache (get m "InternalName") = Some cached ->
         apply_cached_count cache m = Ok (<["DownloadCount" := cached]> m) /\
         exists m', ms' !! i = Some m' /\ m' !! "DownloadCount" = Some cached) /\
      (forall live,
         m !! "DownloadCount" = Some live -> py_eq live (VInt 0) = false ->
         apply_cached_count cache m = Ok m /\
         exists m', ms' !! i = Some m' /\ m' !! "DownloadCount" = Some live).
Proof.
  intros Hms Hreq.
  destruct (generate_tail_total cfg W cache ms fs Hms) as (ms' & fs' & Hrun).
  exists ms', fs'. split; [done|]. intros i m Hm.
  destruct (generate_tail_manifest cfg W cache ms ms' fs fs' i Hrun) as [Hlen Hat].
  destruct (proj1 Hlen) as [m' Hm']; [by eexists|].
  destruct (Hat m m' Hm Hm') as (m1 & Ha & _ & Hk).
  assert (m' !! "DownloadCount" = m1 !! "DownloadCount") as Hdc.
  { rewrite Hk, Hreq by done. by apply update_last_modified_one_lookup. }
  apply (Forall_lookup_1 _ _ _ _ Hms), well_keyed_spec in Hm as [Hh _].
  split.
  - intros cached Hz Hc.
    assert (apply_cached_count cache m = Ok (<["DownloadCount" := cached]> m)) as E.
    { unfold apply_cached_count. by rewrite Hz, Hh, Hc. }
    split; [done|]. exists m'. split; [done|].
    rewrite Hdc. rewrite E in Ha. simplify_eq. apply lookup_insert_eq.
  - intros live Hl Hnz.
    assert (apply_cached_count cache m = Ok m) as E.
    { unfold apply_cached_count, get_or. rewrite Hl.
      change (default (VInt 0) (Some live)) with live. by rewrite Hnz. }
    split; [done|]. exists m'. split; [done|].
    rewrite Hdc. rewrite E in Ha. by simplify_eq.
Qed.

Lemma cached_count_fallback_witness :
  exists ms' fs',
    generate_tail two_outputs_cfg (sample_world None) sample_cache
      [routed_to_a; routed_to_b] fs_with_stale = Ok (ms', fs') /\
    (exists m', ms' !! 1 = Some m' /\ m' !! "DownloadCount" = Some (VInt 42)) /\
    (exists m', ms' !! 0 = Some m' /\ m' !! "DownloadCount" = Some (VInt 5)).
Proof.
  destruct (cached_count_fallback two_outputs_cfg (sample_world None) sample_cache
              [routed_to_a; routed_to_b] fs_with_stale)
    as (ms' & fs' & Hrun & Hat).
  - repeat constructor.
  - reflexivity.
  - exists ms', fs'. split; [exact Hrun|]. split.
    + refine (proj2 (proj1 (Hat 1 routed_to_b eq_refl) (VInt 42) _ _));
        reflexivity.
    + refine (proj2 (proj2 (Hat 0 routed_to_a eq_refl) (VInt 5) _ _));
        reflexivity.
Defined.

(** C8.  On well-keyed manifests the tail of [generate] returns, and every
    file found afterwards at the path of a configured destination is a
    catalog written by the final pass; each of its records holds, for the
    required keys other than [_output_name], exactly what the manifest held
    before trimming (absent keys stay absent) and no other key; so
    [_output_name] is in no record, and with the required keys of
    [load_default] no internal field is. *)
Theorem final_records_are_trimmed (cfg : Config) (W : World) cache
    (ms : list manifest) (fs : gmap string file) :
  Forall (fun m => well_keyed m = true) ms ->
  exists ms' fs', generate_tail cfg W cache ms fs = Ok (ms', fs') /\
    forall name path f,
      (name, path) ∈ output_files cfg -> fs' !! resolve W path = Some f ->
      exists records, f = Catalog records /\
        forall r, r ∈ records ->
          (exists i m m1, ms !! i = Some m /\ apply_cached_count cache m = Ok m1 /\
             forall k, r !! k =
               if mem k (required_manifest_keys cfg) &&
                  negb (String.eqb k "_output_name")
               then update_last_modified_one cfg W i m1 !! k else None) /\
          (forall k, is_Some (r !! k) -> k ∈ required_manifest_keys cfg) /\
          r !! "_output_name" = None /\
          (required_manifest_keys cfg = default_required_manifest_keys ->
           forall k, k ∈ internal_fields -> r !! k = None).
Proof.
  intros Hms.
  destruct (generate_tail_total cfg W cache ms fs Hms) as (ms' & fs' & Hrun).
  exists ms', fs'. split; [done|]. intros name path f Hin Hf.
  destruct (generate_tail_inv cfg W cache ms ms' fs fs' Hrun)
    as (ms1 & routing & fs1 & _ & _ & _ & _ & Hw).
  unfold _write_plugin_master in Hw.
  destruct (group_manifests cfg true ms') as [grouped|] eqn:Hg; [|done].
  cbn [bind] in Hw. simplify_eq. rewrite cleanup_lookup in Hf.
  destruct (stale _ _ _); [done|].
  destruct (write_fold_configured W grouped (output_files cfg) (fs1, ∅)
              (resolve W path) f Hf) as (n & q & _ & _ & _ & ->).
  { by exists name, path. }
  eexists. split; [done|]. intros r Hr.
  apply group_of_records in Hr.
  rewrite (group_manifests_records cfg true ms' grouped Hg) in Hr.
  apply list_elem_of_fmap in Hr as (m4 & -> & Hm4).
  apply list_elem_of_lookup in Hm4 as [i Hm4].
  destruct (generate_tail_manifest cfg W cache ms ms' fs _ i Hrun) as [Hlen Hat].
  destruct (proj2 Hlen) as [m Hm]; [by eexists|].
  destruct (Hat m m4 Hm Hm4) as (m1 & Ha & _ & Hk).
  assert (forall k, delete "_output_name" m4 !! k =
            if mem k (required_manifest_keys cfg) && negb (String.eqb k "_output_name")
            then update_last_modified_one cfg W i m1 !! k else None) as Hrec.
  { intros k. destruct (String.eqb_spec k "_output_name") as [->|Hne].
    - rewrite lookup_delete_eq. by rewrite andb_false_r.
    - rewrite lookup_delete_ne by done. rewrite Hk by done. by rewrite andb_true_r. }
  split_and!.
  - by exists i, m, m1.
  - intros k [v Hv]. rewrite Hrec in Hv.
    destruct (mem k (required_manifest_keys cfg)) eqn:E; [|done].
    by apply mem_true.
  - apply lookup_delete_eq.
  - intros Hd k Hi. rewrite Hrec, Hd. members Hi; reflexivity.
Qed.

Lemma final_records_are_trimmed_witness :
  exists ms' fs',
    generate_tail two_outputs_cfg (sample_world None) sample_cache
      [routed_to_a; routed_to_b] fs_with_stale = Ok (ms', fs').
Proof.
  destruct (final_records_are_trimmed two_outputs_cfg (sample_world None)
              sample_cache [routed_to_a; routed_to_b] fs_with_stale)
    as (ms' & fs' & Hrun & _).
  - repeat constructor.
  - by exists ms', fs'.
Defined.

(** * Further properties of the modelled functions *)

(** ** AssetSelector *)

(** The six loops of [_find_plugin_asset] as six searches. *)
Lemma find_plugin_asset_finds (id : string) (assets : list manifest) :
  (forall a, a ∈ assets -> exists n, asset_name a = VStr n) ->
  _find_plugin_asset assets id =
    Ok (match
          match List.find (fun a => py_eq (get a "name") (VStr "latest.zip")) assets with
          | Some a => Some a
          | None =>
          match List.find (fun a => py_eq (get a "name") (VStr (id +:+ ".zip"))) assets with
          | Some a => Some a
          | None =>
          match List.find (fun a => py_eq (get a "name")
                             (VStr (PyStr.replace id " " "" +:+ ".zip"))) assets with
          | Some a => Some a
          | None =>
          match List.find (fun a => py_eq (get a "name")
                             (VStr (PyStr.replace id " " "-" +:+ ".zip"))) assets with
          | Some a => Some a
          | None =>
          match List.find (fun a => is_zip a &&
                             match asset_name a with
                             | VStr n => PyStr.startswith n (id +:+ "-")
                             | _ => false
                             end) assets with
          | Some a => Some a
          | None => List.find is_zip assets
          end end end end end
        with
        | Some a => get a "url"
        | None => VNone
        end).
Proof.
  intros Hstr. unfold _find_plugin_asset.
  repeat match goal with
         | |- context [first_match (fun a => Ok (@?q a)) ?l] =>
             rewrite (first_match_find (fun a => Ok (q a)) q l) by done
         end.
  destruct (List.find _ assets) as [a|]; cbn [bind]; [done|].
  destruct (List.find _ assets) as [a|]; cbn [bind]; [done|].
  destruct (List.find _ assets) as [a|]; cbn [bind]; [done|].
  destruct (List.find _ assets) as [a|]; cbn [bind]; [done|].
  rewrite (first_match_find _ (fun a => is_zip a &&
             match asset_name a with
             | VStr n => PyStr.startswith n (id +:+ "-")
             | _ => false
             end)); cycle 1.
  { intros a Ha. destruct (Hstr a Ha) as [n Hn]. unfold is_zip.
    fold (asset_name a). rewrite Hn. cbn [str_method bind].
    by destruct (PyStr.endswith n ".zip"). }
  destruct (List.find _ assets) as [a|]; cbn [bind]; [done|].
  rewrite (first_match_find _ is_zip); cycle 1.
  { intros a Ha. destruct (Hstr a Ha) as [n Hn]. unfold is_zip.
    fold (asset_name a). by rewrite Hn. }
  by destruct (List.find is_zip assets).
Qed.

Lemma named_is_zip (a : manifest) (s : string) :
  py_eq (get a "name") (VStr (s +:+ ".zip")) = true -> is_zip a = true.
Proof.
  intros H%py_eq_str_iff. unfold get, get_or in H. unfold is_zip, asset_name, get_or.
  destruct (a !! "name") as [v|]; simplify_eq/=. by apply endswith_app.
Qed.

(** X1.  When some asset is named [latest.zip], both selections take it
    whatever else the release holds (names that are no strings included):
    [_find_plugin_asset] returns the url of the first asset of that name, and
    the download-URL path prefers the name [latest.zip]. *)
Theorem latest_zip_wins (id : string) (assets : list manifest) :
  (exists a, a ∈ assets /\ a !! "name" = Some (VStr "latest.zip")) ->
  (exists a, List.find (fun a => py_eq (get a "name") (VStr "latest.zip")) assets
             = Some a /\
     a !! "name" = Some (VStr "latest.zip") /\
     _find_plugin_asset assets id = Ok (get a "url")) /\
  preferred_asset_name id assets = Ok (Some (VStr "latest.zip")).
Proof.
  intros Hex.
  destruct (find_named_some assets "latest.zip" Hex)
    as [(a1 & Hin1 & Hn1 & Hf1) (a2 & Hin2 & Hn2 & Hf2)]; [done|].
  split.
  - exists a1. split_and!; [done..|]. unfold _find_plugin_asset.
    rewrite (first_match_find _ (fun a => py_eq (get a "name") (VStr "latest.zip")))
      by done.
    by rewrite Hf1.
  - unfold preferred_asset_name.
    rewrite (first_match_find _ (fun a => py_eq (asset_name a) (VStr "latest.zip")))
      by done.
    rewrite Hf2. cbn [bind]. unfold get_or. by rewrite Hn2.
Qed.

Lemma latest_zip_wins_witness :
  preferred_asset_name "P"
    (asset "P.zip" "https://api.github.com/repos/o/r/releases/assets/1"
     :: asset "latest.zip" "https://api.github.com/repos/o/r/releases/assets/2" :: [])
  = Ok (Some (VStr "latest.zip")).
Proof.
  refine (proj2 (latest_zip_wins "P" _ _)).
  exists (asset "latest.zip" "https://api.github.com/repos/o/r/releases/assets/2").
  split; [right; left|reflexivity].
Defined.

(** X2.  On a release whose asset names are strings, both selections are
    sound and complete for [.zip] assets: without an asset whose name ends in
    [.zip] they find nothing; with one, [_find_plugin_asset] returns the url
    of an asset of the release whose name ends in [.zip], and the
    download-URL path returns the name of such an asset. *)
Theorem selection_takes_a_zip_asset (id : string) (assets : list manifest) :
  (forall a, a ∈ assets -> exists n, asset_name a = VStr n) ->
  ((forall a, a ∈ assets -> is_zip a = false) ->
   _find_plugin_asset assets id = Ok VNone /\
   preferred_asset_name id assets = Ok None) /\
  ((exists a, a ∈ assets /\ is_zip a = true) ->
   (exists a, a ∈ assets /\ is_zip a = true /\
      _find_plugin_asset assets id = Ok (get a "url")) /\
   (exists a, a ∈ assets /\ is_zip a = true /\
      preferred_asset_name id assets = Ok (Some (asset_name a)))).
Proof.
  intros Hstr.
  rewrite (find_plugin_asset_finds id assets Hstr).
  rewrite (preferred_asset_name_finds id assets Hstr).
  assert (forall (q : manifest -> bool) a,
            (forall a, q a = true -> is_zip a = true) ->
            List.find q assets = Some a -> a ∈ assets /\ is_zip a = true) as Hsound.
  { intros q a Hq [Hin Hqa]%find_some. split; [by apply list_elem_of_In|by apply Hq]. }
  assert (forall (q : manifest -> bool),
            (forall a, q a = true -> is_zip a = true) ->
            (forall a, a ∈ assets -> is_zip a = false) ->
            List.find q assets = None) as Hnone.
  { intros q Hq Hz. destruct (List.find q assets) as [a|] eqn:E; [|done].
    destruct (Hsound q a Hq E) as [Hin Hza]. by rewrite (Hz a Hin) in Hza. }
  assert (forall a, is_latest a = true -> is_zip a = true) as Z1.
  { unfold is_latest, is_zip. intros a H%py_eq_str_iff. by rewrite H. }
  assert (forall a, is_versioned id a = true -> is_zip a = true) as Z2.
  { unfold is_versioned, is_zip, versioned_name. intros a.
    destruct (asset_name a); try done. by intros [[? _]%andb_true_iff _]%andb_true_iff. }
  assert (forall a, is_exact id a = true -> is_zip a = true) as Z3.
  { unfold is_exact, is_zip. intros a H%py_eq_str_iff. rewrite H. by apply endswith_app. }
  assert (forall a, py_eq (get a "name") (VStr "latest.zip") = true -> is_zip a = true)
    as Y1 by (intros a; apply (named_is_zip a "latest")).
  pose proof (fun a => named_is_zip a id) as Y2.
  pose proof (fun a => named_is_zip a (PyStr.replace id " " "")) as Y3.
  pose proof (fun a => named_is_zip a (PyStr.replace id " " "-")) as Y4.
  assert (forall a, is_zip a &&
            match asset_name a with
            | VStr n => PyStr.startswith n (id +:+ "-")
            | _ => false
            end = true -> is_zip a = true) as Y5
    by (by intros a [? _]%andb_true_iff).
  split.
  - intros Hz.
    rewrite (Hnone _ Y1 Hz), (Hnone _ Y2 Hz), (Hnone _ Y3 Hz), (Hnone _ Y4 Hz),
      (Hnone _ Y5 Hz), (Hnone is_zip (fun a H => H) Hz).
    by rewrite (Hnone _ Z1 Hz), (Hnone _ Z2 Hz), (Hnone _ Z3 Hz).
  - intros (a0 & Hin0 & Hz0).
    assert (exists a, List.find is_zip assets = Some a) as [az Haz].
    { destruct (List.find is_zip assets) as [a|] eqn:E; [eauto|].
      eapply find_none in E; [|by apply list_elem_of_In]. congruence. }
    split.
    + destruct (List.find (fun a => py_eq (get a "name") (VStr "latest.zip")) assets)
        as [a|] eqn:E1; [exists a; by destruct (Hsound _ a Y1 E1)|].
      destruct (List.find (fun a => py_eq (get a "name") (VStr (id +:+ ".zip"))) assets)
        as [a|] eqn:E2; [exists a; by destruct (Hsound _ a Y2 E2)|].
      destruct (List.find (fun a => py_eq (get a "name")
                             (VStr (PyStr.replace id " " "" +:+ ".zip"))) assets)
        as [a|] eqn:E3; [exists a; by destruct (Hsound _ a Y3 E3)|].
      destruct (List.find (fun a => py_eq (get a "name")
                             (VStr (PyStr.replace id " " "-" +:+ ".zip"))) assets)
        as [a|] eqn:E4; [exists a; by destruct (Hsound _ a Y4 E4)|].
      destruct (List.find (fun a => is_zip a &&
                             match asset_name a with
                             | VStr n => PyStr.startswith n (id +:+ "-")
                             | _ => false
                             end) assets)
        as [a|] eqn:E5; [exists a; by destruct (Hsound _ a Y5 E5)|].
      rewrite Haz. exists az. by destruct (Hsound is_zip az (fun a H => H) Haz).
    + destruct (List.find is_latest assets) as [a|] eqn:E1;
        [exists a; by destruct (Hsound _ a Z1 E1)|].
      destruct (List.find (is_versioned id) assets) as [a|] eqn:E2;
        [exists a; by destruct (Hsound _ a Z2 E2)|].
      destruct (List.find (is_exact id) assets) as [a|] eqn:E3;
        [exists a; by destruct (Hsound _ a Z3 E3)|].
      rewrite Haz. exists az. by destruct (Hsound is_zip az (fun a H => H) Haz).
Qed.

Lemma selection_takes_a_zip_asset_witness :
  _find_plugin_asset [asset "notes.txt" "https://api.github.com/1"] "P" = Ok VNone /\
  preferred_asset_name "P" [asset "notes.txt" "https://api.github.com/1"] = Ok None.
Proof.
  refine (proj1 (selection_takes_a_zip_asset "P"
                   [asset "notes.txt" "https://api.github.com/1"] _) _).
  - intros a Ha. members Ha. by exists "notes.txt".
  - intros a Ha. members Ha. reflexivity.
Defined.

(** ** ManifestEnricher *)

(** X3.  [trim_manifest] is a projection: the result is a part of the
    manifest, holds exactly the manifest's entries under the required keys,
    and trimming again changes nothing. *)
Theorem trim_manifest_projection (cfg : Config) (m : manifest) :
  trim_manifest cfg m ⊆ m /\
  (forall k, is_Some (trim_manifest cfg m !! k) <->
             k ∈ required_manifest_keys cfg /\ is_Some (m !! k)) /\
  trim_manifest cfg (trim_manifest cfg m) = trim_manifest cfg m.
Proof.
  split_and!.
  - apply map_subseteq_spec. intros k v. rewrite trim_manifest_lookup.
    by destruct (mem k _).
  - intros k. rewrite trim_manifest_lookup.
    destruct (mem k _) eqn:E.
    + apply mem_true in E. by split; [|intros [_ ?]].
    + apply mem_false in E. split; [by intros []|by intros [? _]].
  - apply map_eq. intros k. rewrite !trim_manifest_lookup. by destruct (mem k _).
Qed.

Lemma add_download_links_inv (cfg : Config) (W : World) (m m' : manifest) :
  add_download_links cfg W m = Ok m' ->
  exists g pn m1 m2,
    is_global_build cfg m = Ok g /\ m !! "InternalName" = Some pn /\
    install_link cfg W g pn m = Ok m1 /\ testing_link cfg W g pn m1 = Ok m2 /\
    m' = <["DownloadCount" := VInt 0]>
           (icon_fallback cfg W pn (duplicate_fields (field_duplicates cfg) m2)).
Proof.
  unfold add_download_links, bind, item. intros H.
  destruct (is_global_build cfg m) as [g|]; [|done].
  destruct (m !! "InternalName") as [pn|]; [|done].
  destruct (install_link cfg W g pn m) as [m1|] eqn:E1; [|done].
  destruct (testing_link cfg W g pn m1) as [m2|] eqn:E2; [|done].
  injection H as <-. exists g, pn, m1, m2. by split_and!.
Qed.

Lemma install_link_lookup (cfg : Config) (W : World) g pn (m m1 : manifest) k :
  install_link cfg W g pn m = Ok m1 -> k <> "DownloadLinkInstall" -> m1 !! k = m !! k.
Proof.
  unfold install_link, resolve_asset_link, format_url, str_method, bind. intros H Hk.
  repeat case_match; simplify_eq; try done; by rewrite lookup_insert_ne.
Qed.

Lemma testing_link_lookup (cfg : Config) (W : World) g pn (m m2 : manifest) k :
  testing_link cfg W g pn m = Ok m2 ->
  k <> "DownloadLinkTesting" -> k <> "_testing_download_url" -> m2 !! k = m !! k.
Proof.
  unfold testing_link, format_url, bind. intros H H1 H2.
  repeat case_match; simplify_eq; try done;
    rewrite lookup_insert_ne by done; [by rewrite lookup_delete_ne|done].
Qed.

Lemma duplicate_fields_source (rules : list (string * list string)) (m : manifest) k v :
  duplicate_fields rules m !! k = Some v -> m !! k = None ->
  exists s ts, (s, ts) ∈ rules /\ k ∈ ts.
Proof.
  intros H Hn.
  destruct (decide (Exists (fun rule => k ∈ snd rule) rules)) as [Hex|Hno].
  - apply Exists_exists in Hex as ([s ts] & Hin & Hk). by exists s, ts.
  - rewrite duplicate_fields_fresh in H; [congruence|].
    intros s ts Hin Hk. apply Hno, Exists_exists. by exists (s, ts).
Qed.

(** X4.  What [add_download_links] leaves alone.  When it returns, the
    counter is 0; no field of the manifest is removed except
    [_testing_download_url]; a field other than the two links, the icon, the
    counter and [_testing_download_url] keeps its value; and a field the
    manifest did not have, other than those, is the target of a duplication
    rule. *)
Theorem add_download_links_frame (cfg : Config) (W : World) (m m' : manifest) :
  add_download_links cfg W m = Ok m' ->
  m' !! "DownloadCount" = Some (VInt 0) /\
  (forall k, k <> "_testing_download_url" -> is_Some (m !! k) -> is_Some (m' !! k)) /\
  (forall k, k ∉ ["DownloadLinkInstall"; "DownloadLinkTesting"; "IconUrl";
                  "DownloadCount"; "_testing_download_url"] ->
     (forall v, m !! k = Some v -> m' !! k = Some v) /\
     (is_Some (m' !! k) -> m !! k = None ->
      exists s ts, (s, ts) ∈ field_duplicates cfg /\ k ∈ ts)).
Proof.
  intros (g & pn & m1 & m2 & Hg & Hpn & H1 & H2 & ->)%add_download_links_inv.
  split_and!.
  - by rewrite lookup_insert_eq.
  - intros k Hk Hs. rewrite lookup_insert_is_Some.
    destruct (decide ("DownloadCount" = k)) as [|Hd]; [by left|right].
    split; [done|]. apply icon_fallback_keeps.
    assert (is_Some (m1 !! k)) as Hs1.
    { unfold install_link, resolve_asset_link, format_url, str_method, bind in H1.
      repeat case_match; simplify_eq; try done;
        rewrite lookup_insert_is_Some; destruct (decide ("DownloadLinkInstall" = k));
        first [by left|by right]. }
    assert (is_Some (m2 !! k)) as [v Hs2].
    { unfold testing_link, format_url, bind in H2.
      repeat case_match; simplify_eq; try done;
        rewrite lookup_insert_is_Some; destruct (decide ("DownloadLinkTesting" = k));
        try (by left); try (by right).
      right. split; [done|]. by rewrite lookup_delete_ne. }
    exists v. by apply duplicate_fields_keep.
  - intros k Hk.
    assert (k <> "DownloadLinkInstall" /\ k <> "DownloadLinkTesting" /\ k <> "IconUrl" /\
            k <> "DownloadCount" /\ k <> "_testing_download_url") as (?&?&?&?&?).
    { split_and!; intros ->; apply Hk; listed. }
    assert (m2 !! k = m !! k) as E2.
    { rewrite (testing_link_lookup _ _ _ _ _ _ _ H2) by done.
      by rewrite (install_link_lookup _ _ _ _ _ _ _ H1). }
    rewrite lookup_insert_ne, icon_fallback_lookup by done.
    split.
    + intros v Hv. apply duplicate_fields_keep. by rewrite E2.
    + intros [v Hv] Hn. eapply duplicate_fields_source; [done|]. by rewrite E2.
Qed.

Lemma add_download_links_frame_witness :
  enriched_once !! "DownloadCount" = Some (VInt 0).
Proof.
  refine (proj1 (add_download_links_frame main_cfg
                   (sample_world (Some assets_exact_and_versioned))
                   repository_testing_manifest enriched_once _)).
  evaluated.
Defined.

(** A literal list does not hold a key that differs from its members. *)
Ltac absent H :=
  repeat (apply elem_of_cons in H as [H|H]; [discriminate H|]);
  by apply elem_of_nil in H.

Lemma load_default_urls (b : string) outs po :
  download_urls (load_default b outs po) !! "main" = Some (base_url +:+ "/latest.zip") /\
  download_urls (load_default b outs po) !! "global"
  = Some (base_url +:+ "/global/latest.zip") /\
  download_urls (load_default b outs po) !! "testing"
  = Some (base_url +:+ "/testing/latest.zip").
Proof.
  cbn [download_urls load_default]. split_and!.
  - by rewrite lookup_insert_eq.
  - by rewrite !lookup_insert_ne, lookup_singleton_eq.
  - by rewrite lookup_insert_ne, lookup_insert_eq.
Qed.

Lemma is_global_build_inv (cfg : Config) (m : manifest) g :
  is_global_build cfg m = Ok g ->
  exists n, m !! "Name" = Some (VStr n) /\
    g = PyStr.endswith n ("(API" +:+ PyStr.of_Z (global_api_level cfg) +:+ ")").
Proof.
  unfold is_global_build, item, bind, str_method.
  destruct (m !! "Name") as [[]|]; try done. intros [= <-]. eauto.
Qed.

(** X5.  When [add_download_links] raises.  With the default configuration
    and a [format] that accepts its arguments, the function returns exactly
    when [Name] is a string, [InternalName] is present and, for a manifest
    with a stored asset URL, [RepoUrl] is absent or a string.  A missing
    [Name] or [InternalName] raises [KeyError]; a [Name] that is no string
    raises [AttributeError], and so does a [RepoUrl] that is no string beside
    a stored asset URL. *)
Theorem add_download_links_returns (b : string) outs po (W : World) (m : manifest) :
  (forall t p, exists u, str_format W t b p = Ok u) ->
  let cfg := load_default b outs po in
  ((exists m', add_download_links cfg W m = Ok m') <->
   (exists n, m !! "Name" = Some (VStr n)) /\ is_Some (m !! "InternalName") /\
   (is_Some (m !! "_repository_asset_url") ->
    exists s, get_or m "RepoUrl" (VStr "") = VStr s)) /\
  (m !! "Name" = None -> add_download_links cfg W m = Raise KeyError) /\
  (forall v, m !! "Name" = Some v -> (forall s, v <> VStr s) ->
     add_download_links cfg W m = Raise AttributeError) /\
  (forall n, m !! "Name" = Some (VStr n) -> m !! "InternalName" = None ->
     add_download_links cfg W m = Raise KeyError) /\
  (forall n pn v, m !! "Name" = Some (VStr n) -> m !! "InternalName" = Some pn ->
     is_Some (m !! "_repository_asset_url") ->
     m !! "RepoUrl" = Some v -> (forall s, v <> VStr s) ->
     add_download_links cfg W m = Raise AttributeError).
Proof.
  intros Hfmt cfg.
  destruct (load_default_urls b outs po) as (Um & Ug & Ut). fold cfg in Um, Ug, Ut.
  split_and!.
  - split.
    + intros [m' (g & pn & m1 & m2 & Hg & Hpn & H1 & _)%add_download_links_inv].
      apply is_global_build_inv in Hg as (n & Hn & _).
      split_and!; [by exists n|by exists pn|].
      intros Ha. unfold install_link in H1.
      rewrite (bool_decide_eq_true_2 _ Ha : has_key m _ = true) in H1.
      unfold str_method, bind in H1.
      destruct (get_or m "RepoUrl" (VStr "")); try done. eauto.
    + intros ([n Hn] & [pn Hpn] & Hrepo).
      unfold add_download_links, is_global_build, item, bind. rewrite Hn, Hpn.
      cbn [str_method].
      generalize (PyStr.endswith n
                    ("(API" +:+ PyStr.of_Z (global_api_level cfg) +:+ ")")).
      intros g.
      assert (exists m1, install_link cfg W g pn m = Ok m1) as [m1 ->].
      { unfold install_link, has_key. case_bool_decide as Ha.
        - destruct (Hrepo Ha) as [s ->]. cbn [str_method bind]. eauto.
        - destruct (truthy _); [destruct (_get_repo_download_url W m); eauto|].
          unfold format_url. destruct g; rewrite ?Ug, ?Um; cbn [branch cfg load_default].
          + destruct (Hfmt (base_url +:+ "/global/latest.zip") pn) as [u' ->].
            cbn [bind]. eauto.
          + destruct (Hfmt (base_url +:+ "/latest.zip") pn) as [u' ->].
            cbn [bind]. eauto. }
      assert (exists m2, testing_link cfg W g pn m1 = Ok m2) as [m2 ->].
      { unfold testing_link. destruct (_ && _); [|eauto].
        destruct (m1 !! "_testing_download_url"); [eauto|].
        unfold format_url. rewrite Ut. cbn [branch cfg load_default].
        destruct (Hfmt (base_url +:+ "/testing/latest.zip") pn) as [u' ->].
        cbn [bind]. eauto. }
      eauto.
  - intros Hn. unfold add_download_links, is_global_build, item, bind. by rewrite Hn.
  - intros v Hn Hv. unfold add_download_links, is_global_build, item, bind.
    rewrite Hn. destruct v; try done. by destruct (Hv s).
  - intros n Hn Hpn. unfold add_download_links, is_global_build, item, bind.
    by rewrite Hn, Hpn.
  - intros n pn v Hn Hpn Ha Hr Hv.
    unfold add_download_links, is_global_build, item, bind. rewrite Hn, Hpn.
    cbn [str_method]. unfold install_link.
    rewrite (bool_decide_eq_true_2 _ Ha : has_key m _ = true).
    unfold get_or. rewrite Hr. destruct v; try done. by destruct (Hv s).
Qed.

Lemma add_download_links_returns_witness :
  add_download_links main_cfg plain_world {[ "InternalName" := VStr "P" ]}
  = Raise KeyError.
Proof.
  refine (proj1 (proj2 (add_download_links_returns "main"
                          [("default", "./pluginmaster.json")] ∅ plain_world
                          {[ "InternalName" := VStr "P" ]} _)) _).
  - intros t p. eexists. reflexivity.
  - reflexivity.
Defined.

(** X6.  The links of a local manifest.  With the default configuration, a
    manifest without stored asset URL whose [_repository_source] is false or
    absent gets the install link of the branch and the plugin, from the
    template of the global archive when its [Name] ends in [(API13)] and of
    the main archive otherwise, whatever [DownloadLinkInstall] it had; the
    update link is the manifest's own when it has one and the install link
    otherwise. *)
Theorem local_manifest_links (b : string) outs po (W : World) (m m' : manifest) n pn :
  m !! "Name" = Some (VStr n) -> m !! "InternalName" = Some pn ->
  m !! "_repository_asset_url" = None ->
  truthy (get_or m "_repository_source" (VBool false)) = false ->
  add_download_links (load_default b outs po) W m = Ok m' ->
  exists url,
    str_format W (base_url +:+ (if PyStr.endswith n "(API13)"
                                then "/global/latest.zip" else "/latest.zip")) b pn
    = Ok url /\
    m' !! "DownloadLinkInstall" = Some (VStr url) /\
    m' !! "DownloadLinkUpdate" = Some (default (VStr url) (m !! "DownloadLinkUpdate")).
Proof.
  intros Hn Hpn Ha Hsrc (g & pn' & m1 & m2 & Hg & Hpn' & H1 & H2 & ->)%add_download_links_inv.
  destruct (load_default_urls b outs po) as (Um & Ug & _).
  apply is_global_build_inv in Hg as (n' & Hn' & ->). simplify_eq.
  change ("(API" +:+ PyStr.of_Z (global_api_level (load_default b outs po)) +:+ ")")
    with "(API13)" in *.
  unfold install_link in H1.
  rewrite (bool_decide_eq_false_2 _ (proj1 (eq_None_not_Some _) Ha)
           : has_key m "_repository_asset_url" = false), Hsrc in H1.
  unfold format_url, bind in H1.
  assert (exists url,
    str_format W (base_url +:+ (if PyStr.endswith n "(API13)"
                                then "/global/latest.zip" else "/latest.zip")) b pn
    = Ok url /\ m1 = <["DownloadLinkInstall" := VStr url]> m) as (url & Hu & ->).
  { destruct (PyStr.endswith n "(API13)"); rewrite ?Ug, ?Um in H1;
      cbn [branch load_default] in H1;
      destruct (str_format W _ b pn) as [url|]; [|done| |done];
      injection H1 as <-; by exists url. }
  exists url. split; [done|].
  assert (m2 !! "DownloadLinkInstall" = Some (VStr url)) as E1.
  { rewrite (testing_link_lookup _ _ _ _ _ _ _ H2) by done. by rewrite lookup_insert_eq. }
  assert (m2 !! "DownloadLinkUpdate" = m !! "DownloadLinkUpdate") as E2.
  { rewrite (testing_link_lookup _ _ _ _ _ _ _ H2) by done. by rewrite lookup_insert_ne. }
  rewrite !lookup_insert_ne, !icon_fallback_lookup by done.
  cbn [field_duplicates load_default duplicate_fields foldl]. unfold duplicate_field.
  rewrite E1, E2. destruct (m !! "DownloadLinkUpdate") as [v|].
  - by rewrite E1, E2.
  - by rewrite lookup_insert_ne, lookup_insert_eq, E1.
Qed.

Lemma local_manifest_links_witness :
  exists url,
    str_format (sample_world None)
      (base_url +:+ (if PyStr.endswith "P" "(API13)"
                     then "/global/latest.zip" else "/latest.zip")) "main" (VStr "P")
    = Ok url /\
    enriched_local !! "DownloadLinkInstall" = Some (VStr url) /\
    enriched_local !! "DownloadLinkUpdate"
    = Some (default (VStr url) (local_testing_manifest !! "DownloadLinkUpdate")).
Proof.
  refine (local_manifest_links "main" [("default", "./pluginmaster.json")] ∅
            (sample_world None) local_testing_manifest enriched_local "P" (VStr "P")
            _ _ _ _ _).
  - reflexivity.
  - reflexivity.
  - reflexivity.
  - reflexivity.
  - evaluated.
Defined.

(** X7.  The testing link.  When no duplication rule fills
    [DownloadLinkTesting] or [_testing_download_url]: a manifest with
    [TestingAssemblyVersion] that is no global build gets the link popped
    from [_testing_download_url] when it has one, and the testing template
    otherwise, whatever link it had; a global build, and a manifest without
    [TestingAssemblyVersion], keeps both fields as they are. *)
Theorem testing_link_policy (cfg : Config) (W : World) (m m' : manifest) g :
  add_download_links cfg W m = Ok m' ->
  is_global_build cfg m = Ok g ->
  (forall s ts, (s, ts) ∈ field_duplicates cfg ->
     ("DownloadLinkTesting" ∉ ts) /\ ("_testing_download_url" ∉ ts)) ->
  (g = false -> is_Some (m !! "TestingAssemblyVersion") ->
     (forall u, m !! "_testing_download_url" = Some u ->
        m' !! "DownloadLinkTesting" = Some u /\ m' !! "_testing_download_url" = None) /\
     (m !! "_testing_download_url" = None ->
        exists pn url, m !! "InternalName" = Some pn /\
          format_url cfg W "testing" pn = Ok url /\
          m' !! "DownloadLinkTesting" = Some (VStr url))) /\
  (g = true \/ m !! "TestingAssemblyVersion" = None ->
     m' !! "DownloadLinkTesting" = m !! "DownloadLinkTesting" /\
     m' !! "_testing_download_url" = m !! "_testing_download_url").
Proof.
  intros (g' & pn & m1 & m2 & Hg & Hpn & H1 & H2 & ->)%add_download_links_inv Hg' Hrules.
  rewrite Hg in Hg'. injection Hg' as ->.
  assert (forall k, k = "DownloadLinkTesting" \/ k = "_testing_download_url" ->
            (<["DownloadCount" := VInt 0]>
               (icon_fallback cfg W pn (duplicate_fields (field_duplicates cfg) m2))
             : manifest) !! k = m2 !! k) as Hout.
  { intros k Hk. rewrite lookup_insert_ne, icon_fallback_lookup
      by (by destruct Hk as [-> | ->]).
    apply duplicate_fields_fresh. intros s ts Hin.
    destruct (Hrules s ts Hin). by destruct Hk as [-> | ->]. }
  assert (forall k, k <> "DownloadLinkInstall" -> m1 !! k = m !! k) as Hin
    by (intros k; by apply install_link_lookup with cfg W g pn).
  rewrite !Hout by eauto. unfold testing_link in H2.
  unfold has_key in H2. rewrite !Hin in H2 by done.
  split.
  - intros -> Ht. rewrite (bool_decide_eq_true_2 _ Ht) in H2. cbn [andb negb] in H2.
    split.
    + intros u Hu. rewrite Hu in H2. injection H2 as <-.
      by rewrite lookup_insert_eq, lookup_insert_ne, lookup_delete_eq.
    + intros Hu. rewrite Hu in H2. unfold bind in H2.
      destruct (format_url cfg W "testing" pn) as [url|] eqn:Eu; [|done].
      injection H2 as <-. exists pn, url. by rewrite lookup_insert_eq.
  - intros Hno.
    assert (bool_decide (is_Some (m !! "TestingAssemblyVersion")) && negb g = false) as E.
    { destruct Hno as [->|Hno]; [apply andb_false_r|].
      by rewrite Hno, (bool_decide_eq_false_2 _ (proj1 (eq_None_not_Some _) eq_refl)). }
    rewrite E in H2. injection H2 as <-. by rewrite !Hin.
Qed.

Lemma testing_link_policy_witness :
  enriched_global !! "DownloadLinkTesting" = None /\
  enriched_global !! "_testing_download_url" = None.
Proof.
  refine (proj2 (testing_link_policy main_cfg plain_world global_testing_manifest
                   enriched_global true _ _ _) _).
  - evaluated.
  - reflexivity.
  - intros s ts Hin. entries Hin. split; intros Ht; absent Ht.
  - by left.
Defined.

(** X8.  The install link of a manifest with a stored asset URL.  When
    [DownloadLinkInstall] is no target of a duplication rule, the link is
    either left as the manifest had it, or it is the latest-release download
    URL of the repository in [RepoUrl] and of the asset name that the stored
    URL answered for the manifest's token name; the local archive templates
    and the latest release are not consulted. *)
Theorem stored_asset_link (cfg : Config) (W : World) (m m' : manifest) u :
  m !! "_repository_asset_url" = Some u ->
  add_download_links cfg W m = Ok m' ->
  (forall s ts, (s, ts) ∈ field_duplicates cfg -> "DownloadLinkInstall" ∉ ts) ->
  exists repo_url, get_or m "RepoUrl" (VStr "") = VStr repo_url /\
    (m' !! "DownloadLinkInstall" = m !! "DownloadLinkInstall" \/
     exists tn name,
       m !! "_repository_token_name" = Some (VStr tn) /\ tn <> "" /\
       asset_info_name W u tn = Some name /\ truthy name = true /\
       m' !! "DownloadLinkInstall" =
         Some (VStr ("https://github.com/" +:+
                     PyStr.rstrip (PyStr.replace repo_url "https://github.com/" "") "/" +:+
                     "/releases/latest/download/" +:+ str_of W name))).
Proof.
  intros Ha (g & pn & m1 & m2 & Hg & Hpn & H1 & H2 & ->)%add_download_links_inv Hrules.
  assert ((<["DownloadCount" := VInt 0]>
             (icon_fallback cfg W pn (duplicate_fields (field_duplicates cfg) m2))
           : manifest) !! "DownloadLinkInstall" = m1 !! "DownloadLinkInstall") as ->.
  { rewrite lookup_insert_ne, icon_fallback_lookup by done.
    rewrite duplicate_fields_fresh by done.
    by apply testing_link_lookup with cfg W g pn. }
  unfold install_link in H1.
  rewrite (bool_decide_eq_true_2 _ (ex_intro _ u Ha) : has_key m _ = true) in H1.
  unfold str_method, bind in H1.
  destruct (get_or m "RepoUrl" (VStr "")) as [| | |repo_url| |] eqn:Er; try done.
  injection H1 as <-. exists repo_url. split; [done|].
  unfold resolve_asset_link, get, get_or. rewrite Ha.
  destruct (m !! "_repository_token_name") as [[| | |tn| |]|] eqn:Etn;
    cbn [from_option id]; try (left; by repeat case_match).
  destruct (truthy (VStr tn)) eqn:Ett; [|by left].
  destruct (asset_info_name W u tn) as [name|] eqn:En; [|by left].
  destruct (truthy name) eqn:Etr; [|by left].
  right. exists tn, name. split_and!; try done.
  - intros ->. done.
  - by rewrite lookup_insert_eq.
Qed.

Lemma stored_asset_link_witness :
  exists repo_url, get_or repository_testing_manifest "RepoUrl" (VStr "") = VStr repo_url /\
    (enriched_once !! "DownloadLinkInstall"
     = repository_testing_manifest !! "DownloadLinkInstall" \/
     exists tn name,
       repository_testing_manifest !! "_repository_token_name" = Some (VStr tn) /\
       tn <> "" /\
       asset_info_name (sample_world (Some assets_exact_and_versioned))
         (VStr "https://api.github.com/repos/o/r/releases/assets/1") tn = Some name /\
       truthy name = true /\
       enriched_once !! "DownloadLinkInstall" =
         Some (VStr ("https://github.com/" +:+
                     PyStr.rstrip (PyStr.replace repo_url "https://github.com/" "") "/" +:+
                     "/releases/latest/download/" +:+
                     str_of (sample_world (Some assets_exact_and_versioned)) name))).
Proof.
  refine (stored_asset_link main_cfg (sample_world (Some assets_exact_and_versioned))
            repository_testing_manifest enriched_once
            (VStr "https://api.github.com/repos/o/r/releases/assets/1") _ _ _).
  - reflexivity.
  - evaluated.
  - intros s ts Hin. entries Hin. intros Ht. absent Ht.
Defined.

(** ** SourceAggregator *)

(** X9.  [process_plugin_directory] by archive.  Without a usable primary
    archive the directory yields nothing, whatever its other archives hold.
    With one, the first manifest is the primary with its name and every field
    but the two testing fields as in the archive.  A usable global archive
    adds a second manifest that [add_download_links] recognises as the global
    build and that differs from the archive in [Name] alone; when its
    manifest has no [Name] the call raises [KeyError] and the primary is lost
    with it. *)
Theorem process_plugin_directory_by_archive (cfg : Config) (W : World) (d : plugin_dir) :
  (usable_manifest (main_zip d) = None -> process_plugin_directory cfg W d = Ok []) /\
  (forall b, usable_manifest (main_zip d) = Some b ->
     (usable_manifest (global_zip d) = None ->
        exists p, process_plugin_directory cfg W d = Ok [p] /\
          forall k, k <> "TestingAssemblyVersion" -> k <> "TestingDalamudApiLevel" ->
                    p !! k = b !! k) /\
     (forall g, usable_manifest (global_zip d) = Some g ->
        (g !! "Name" = None -> process_plugin_directory cfg W d = Raise KeyError) /\
        (is_Some (g !! "Name") ->
           exists p g', process_plugin_directory cfg W d = Ok [p; g'] /\
             (forall k, k <> "TestingAssemblyVersion" -> k <> "TestingDalamudApiLevel" ->
                        p !! k = b !! k) /\
             is_global_build cfg g' = Ok true /\
             (forall k, k <> "Name" -> g' !! k = g !! k)))).
Proof.
  unfold process_plugin_directory. split.
  { by intros ->. }
  intros b ->.
  set (p := match usable_manifest (testing_zip d) with
            | Some t => _
            | None => b
            end).
  assert (forall k, k <> "TestingAssemblyVersion" -> k <> "TestingDalamudApiLevel" ->
                    p !! k = b !! k) as Hp.
  { intros k H1 H2. unfold p. destruct (usable_manifest (testing_zip d)); [|done].
    by rewrite !lookup_insert_ne. }
  split.
  - intros ->. by exists p.
  - intros g ->. unfold item, bind. split.
    + by intros ->.
    + intros [n ->]. eexists p, _. split_and!; [done|done| |].
      * unfold is_global_build, item, bind. rewrite lookup_insert_eq.
        cbn [str_method]. f_equal.
        apply endswith_app.
        change (" (API" +:+ PyStr.of_Z (global_api_level cfg) +:+ ")")
          with (" " +:+ ("(API" +:+ PyStr.of_Z (global_api_level cfg) +:+ ")")).
        apply endswith_app, endswith_refl.
      * intros k Hk. by rewrite lookup_insert_ne.
Qed.

Lemma process_plugin_directory_by_archive_witness :
  process_plugin_directory main_cfg (sample_world None) broken_dir = Ok [].
Proof.
  refine (proj1 (process_plugin_directory_by_archive main_cfg (sample_world None)
                   broken_dir) _).
  reflexivity.
Defined.

(** X10.  The outcomes of [_choose_better_manifest] for arbitrary version
    values.  It returns one of the two manifests or raises [AttributeError],
    nothing else.  Equal versions take the repository manifest whatever their
    type.  For unequal versions: a repository version that is no string
    raises [AttributeError]; one that is a string but does not parse takes
    the repository manifest, also when the local version is no string; one
    that parses beside a local version that is no string raises
    [AttributeError]. *)
Theorem choose_better_manifest_outcomes lim (repo loc : manifest) :
  let rv := get_or repo "AssemblyVersion" (VStr "0.0") in
  let lv := get_or loc "AssemblyVersion" (VStr "0.0") in
  (_choose_better_manifest lim repo loc = Ok repo \/
   _choose_better_manifest lim repo loc = Ok loc \/
   _choose_better_manifest lim repo loc = Raise AttributeError) /\
  (py_eq rv lv = true -> _choose_better_manifest lim repo loc = Ok repo) /\
  (py_eq rv lv = false ->
     ((forall s, rv <> VStr s) ->
        _choose_better_manifest lim repo loc = Raise AttributeError) /\
     (forall s, rv = VStr s -> ints lim (PyStr.split s ".") = None ->
        _choose_better_manifest lim repo loc = Ok repo) /\
     (forall s, rv = VStr s -> is_Some (ints lim (PyStr.split s ".")) ->
        (forall t, lv <> VStr t) ->
        _choose_better_manifest lim repo loc = Raise AttributeError)).
Proof.
  intros rv lv. unfold _choose_better_manifest. fold rv lv.
  split_and!.
  - destruct (py_eq rv lv); [by left|].
    unfold version_parts.
    destruct rv as [| | |s| |]; try (right; by right).
    destruct (ints lim (PyStr.split s ".")); [|by left].
    destruct lv as [| | |t| |]; try (right; by right).
    destruct (ints lim (PyStr.split t ".")); [|by left].
    destruct (py_list_ge _ _); [by left|right; by left].
  - by intros ->.
  - intros ->. split_and!.
    + intros Hs. destruct rv; try done. by destruct (Hs s).
    + intros s -> Hn. unfold version_parts. by rewrite Hn.
    + intros s -> [ns Hn] Ht. unfold version_parts at 1. rewrite Hn.
      destruct lv; try done. by destruct (Ht s0).
Qed.

Lemma choose_better_manifest_outcomes_witness :
  _choose_better_manifest 4300 repo_version_2 local_version_1 = Raise AttributeError.
Proof.
  refine (proj1 (proj2 (proj2 (choose_better_manifest_outcomes 4300
                                 repo_version_2 local_version_1)) _) _).
  - reflexivity.
  - intros s Hs. discriminate Hs.
Defined.

Lemma vset_mem_app_list (s t : list value) (k : value) :
  vset_mem (s ++ t) k = vset_mem s k || vset_mem t k.
Proof. unfold vset_mem. apply existsb_app. Qed.

(** X11.  The loop over the local manifests of
    [_collect_manifests_with_priority] returns exactly when every identifier
    that is truthy can be hashed.  It then appends a sublist of the local
    manifests: each added manifest has a truthy identifier that no repository
    entry claimed, no two added manifests have equal identifiers, and every
    local manifest with a truthy identifier is claimed in the end, by the
    repository pass or by the first local manifest with that identifier. *)
Theorem collect_local_invariant (ls ms : list manifest) (ps : list value) :
  let id (m : manifest) := get m "InternalName" in
  ((exists r, collect_local ls ms ps = Ok r) <->
   Forall (fun m => truthy (id m) = true -> hashable (id m) = true) ls) /\
  (forall r, collect_local ls ms ps = Ok r ->
     exists new,
       r = (ms ++ new, ps ++ (id <$> new)) /\
       new `sublist_of` ls /\
       Forall (fun m => truthy (id m) = true /\ vset_mem ps (id m) = false) new /\
       ForallOrdPairs (fun a b => py_eq (id a) (id b) = false) new /\
       Forall (fun m => truthy (id m) = true -> vset_mem (snd r) (id m) = true) ls).
Proof.
  intros id. revert ms ps.
  induction ls as [|m ls IH]; intros ms ps.
  { split; [split; [by constructor|by eexists]|].
    intros r [= <-]. exists []. rewrite !app_nil_r.
    split_and!; by constructor. }
  cbn [collect_local]. fold (id m).
  destruct (truthy (id m)) eqn:Ht.
  - destruct (hashable (id m)) eqn:Hh.
    + destruct (vset_mem ps (id m)) eqn:Hm; cbn [negb].
      * destruct (IH ms ps) as [IH1 IH2]. split.
        { rewrite IH1. split; [by constructor|by inversion 1]. }
        intros r Hr. destruct (IH2 r Hr) as (new & -> & Hsub & Hnew & Hpairs & Hall).
        exists new. split_and!; try done.
        { by constructor. }
        constructor; [|done]. intros _. cbn [snd].
        by rewrite vset_mem_app_list, Hm.
      * destruct (IH (ms ++ [m]) (ps ++ [id m])) as [IH1 IH2]. split.
        { rewrite IH1. split; [by constructor|by inversion 1]. }
        intros r Hr. destruct (IH2 r Hr) as (new & -> & Hsub & Hnew & Hpairs & Hall).
        exists (m :: new). rewrite <- !app_assoc. cbn [app fmap list_fmap].
        split_and!; try done.
        { by constructor. }
        { constructor; [done|]. eapply Forall_impl; [exact Hnew|].
          intros a [Ha Hb]. split; [done|].
          rewrite vset_mem_app in Hb. by apply orb_false_elim in Hb as [? _]. }
        { constructor; [|done]. eapply Forall_impl; [exact Hnew|].
          intros a [_ Hb]. rewrite vset_mem_app in Hb.
          by apply orb_false_elim in Hb as [_ ?]. }
        constructor.
        { intros _. cbn [snd]. rewrite vset_mem_app_list. apply orb_true_iff. right.
          cbn [vset_mem existsb]. by rewrite py_eq_refl_hashable. }
        eapply Forall_impl; [exact Hall|]. intros a Ha Hta. specialize (Ha Hta).
        cbn [snd] in *. by rewrite <- app_assoc in Ha.
    + split; [|done]. split; [by intros [? ?]|].
      inversion 1 as [|? ? Hhd]; subst. specialize (Hhd Ht). congruence.
  - destruct (IH ms ps) as [IH1 IH2]. split.
    { rewrite IH1. split; [|by inversion 1].
      intros Hls. constructor; [intros; congruence|done]. }
    intros r Hr. destruct (IH2 r Hr) as (new & -> & Hsub & Hnew & Hpairs & Hall).
    exists new. split_and!; try done.
    { by constructor. }
    constructor; [|done]. by rewrite Ht.
Qed.

Lemma collect_local_invariant_witness :
  exists new,
    ([foo_primary], [VStr "Foo"])
    = ([] ++ new, [] ++ ((fun m : manifest => get m "InternalName") <$> new)) /\
    new `sublist_of` [foo_primary; foo_global] /\
    Forall (fun m : manifest => truthy (get m "InternalName") = true /\
                     vset_mem [] (get m "InternalName") = false) new /\
    ForallOrdPairs (fun a b : manifest =>
                      py_eq (get a "InternalName") (get b "InternalName") = false) new /\
    Forall (fun m : manifest => truthy (get m "InternalName") = true ->
                     vset_mem (snd ([foo_primary], [VStr "Foo"])) (get m "InternalName")
                     = true) [foo_primary; foo_global].
Proof.
  refine (proj2 (collect_local_invariant [foo_primary; foo_global] [] []) _ _).
  reflexivity.
Defined.

Lemma tag_output_cases (cfg : Config) (m m' : manifest) :
  tag_output cfg m = Ok m' ->
  (is_Some (m !! "_output_name") /\ m' = m) \/
  (m !! "_output_name" = None /\
   exists o, m' = <["_output_name" := VStr o]> m /\
     ((exists n, get_or m "Name" (VStr "") = VStr n /\
         plugin_outputs cfg !! n = Some o /\ o <> "") \/
      ((forall n, get_or m "Name" (VStr "") = VStr n ->
          plugin_outputs cfg !! n = None \/ plugin_outputs cfg !! n = Some "") /\
       ((exists i, get_or m "InternalName" (VStr "") = VStr i /\
           plugin_outputs cfg !! i = Some o) \/
        (o = "default" /\
         forall i, get_or m "InternalName" (VStr "") = VStr i ->
                   plugin_outputs cfg !! i = None))))).
Proof.
  unfold tag_output, has_key. case_bool_decide as Hk.
  { intros [= <-]. by left. }
  intros H. right. split; [by apply eq_None_not_Some|].
  assert ((by_id <- str_dict_get (plugin_outputs cfg)
                      (get_or m "InternalName" (VStr ""));;
           Ok (<["_output_name" := VStr (default "default" by_id)]> m)) = Ok m' ->
          exists o, m' = <["_output_name" := VStr o]> m /\
            ((exists i, get_or m "InternalName" (VStr "") = VStr i /\
                plugin_outputs cfg !! i = Some o) \/
             (o = "default" /\
              forall i, get_or m "InternalName" (VStr "") = VStr i ->
                        plugin_outputs cfg !! i = None))) as Hid.
  { unfold str_dict_get, bind.
    destruct (get_or m "InternalName" (VStr "")) as [| | |i| |]; try done;
      try (intros [= <-]; exists "default"; split; [done|right; by split]).
    destruct (plugin_outputs cfg !! i) as [o|] eqn:Ei; intros [= <-].
    - exists o. split; [done|left]. by exists i.
    - exists "default". split; [done|right]. split; [done|]. by intros ? [= <-]. }
  unfold str_dict_get at 1 in H.
  destruct (get_or m "Name" (VStr "")) as [| | |n| |] eqn:En; cbn [bind] in H; try done.
  1-3: destruct (Hid H) as (o & -> & Ho); exists o; split; [done|right];
       by split.
  destruct (plugin_outputs cfg !! n) as [o|] eqn:Eo.
  - destruct (truthy (VStr o)) eqn:Et.
    + injection H as <-. exists o. split; [done|left]. exists n. split_and!; try done.
      by intros ->.
    + destruct (Hid H) as (o' & -> & Ho). exists o'. split; [done|right].
      split; [|done]. intros ? [= <-]. right. rewrite Eo.
      cbn [truthy] in Et. apply negb_false_iff, String.eqb_eq in Et. by subst.
  - destruct (Hid H) as (o' & -> & Ho). exists o'. split; [done|right].
    split; [|done]. intros ? [= <-]. by left.
Qed.

Lemma tag_outputs_Forall2 (cfg : Config) (ms ms' : list manifest) :
  tag_outputs cfg ms = Ok ms' -> Forall2 (fun m m' => tag_output cfg m = Ok m') ms ms'.
Proof.
  revert ms'. induction ms as [|m ms IH]; intros ms'; cbn [tag_outputs].
  { intros [= <-]. constructor. }
  unfold bind. destruct (tag_output cfg m) as [m1|] eqn:E1; [|done].
  destruct (tag_outputs cfg ms) as [ms1|]; [|done].
  intros [= <-]. constructor; [done|by apply IH].
Qed.

(** X12.  Every manifest that [_collect_manifests_with_priority] returns
    carries a destination tag.  A tag the manifest came with is kept.  A
    manifest that came without one is tagged with a string and is otherwise
    unchanged: the non-empty entry of [plugin_outputs] under its [Name] when
    there is one, else the entry under its [InternalName], else
    ["default"]. *)
Theorem collected_manifests_are_tagged (cfg : Config) (W : World)
    (plugins : list plugin_dir) (repo_manifests ms : list manifest) :
  _collect_manifests_with_priority cfg W plugins repo_manifests = Ok ms ->
  Forall (fun m => is_Some (m !! "_output_name")) ms /\
  exists chosen, tag_outputs cfg chosen = Ok ms /\
    Forall2 (fun m m' =>
      (is_Some (m !! "_output_name") /\ m' = m) \/
      (m !! "_output_name" = None /\
       exists o, m' = <["_output_name" := VStr o]> m /\
         ((exists n, get_or m "Name" (VStr "") = VStr n /\
             plugin_outputs cfg !! n = Some o /\ o <> "") \/
          ((forall n, get_or m "Name" (VStr "") = VStr n ->
              plugin_outputs cfg !! n = None \/ plugin_outputs cfg !! n = Some "") /\
           ((exists i, get_or m "InternalName" (VStr "") = VStr i /\
               plugin_outputs cfg !! i = Some o) \/
            (o = "default" /\
             forall i, get_or m "InternalName" (VStr "") = VStr i ->
                       plugin_outputs cfg !! i = None)))))) chosen ms.
Proof.
  unfold _collect_manifests_with_priority, bind. intros H.
  destruct (collect_repo cfg W plugins repo_manifests [] []) as [r1|]; [|done].
  destruct (_collect_local_manifests cfg W plugins) as [ls|]; [|done].
  destruct (collect_local ls (fst r1) (snd r1)) as [r2|]; [|done].
  apply tag_outputs_Forall2 in H as H2.
  assert (Forall2 (fun m m' =>
      (is_Some (m !! "_output_name") /\ m' = m) \/
      (m !! "_output_name" = None /\
       exists o, m' = <["_output_name" := VStr o]> m /\
         ((exists n, get_or m "Name" (VStr "") = VStr n /\
             plugin_outputs cfg !! n = Some o /\ o <> "") \/
          ((forall n, get_or m "Name" (VStr "") = VStr n ->
              plugin_outputs cfg !! n = None \/ plugin_outputs cfg !! n = Some "") /\
           ((exists i, get_or m "InternalName" (VStr "") = VStr i /\
               plugin_outputs cfg !! i = Some o) \/
            (o = "default" /\
             forall i, get_or m "InternalName" (VStr "") = VStr i ->
                       plugin_outputs cfg !! i = None)))))) (fst r2) ms) as Hcases.
  { eapply Forall2_impl; [exact H2|]. intros m m'. apply tag_output_cases. }
  split; [|by exists (fst r2)].
  clear H H2. induction Hcases as [|m m' ? ? Hm _ IH]; constructor; [|done].
  destruct Hm as [[Hs ->]|(_ & o & -> & _)]; [done|].
  by rewrite lookup_insert_eq.
Qed.

Lemma collected_manifests_are_tagged_witness :
  Forall (fun m : manifest => is_Some (m !! "_output_name"))
    [<["_output_name" := VStr "default"]> foo_primary].
Proof.
  refine (proj1 (collected_manifests_are_tagged main_cfg (sample_world None)
                   [foo_dir] [] _ _)).
  evaluated.
Defined.

(** ** OutputRouter *)

Lemma group_of_routed (cfg : Config) (final : bool) (ms : list manifest) grouped name :
  group_manifests cfg final ms = Ok grouped ->
  group_of name grouped =
    (fun m => if final then delete "_output_name" m else m) <$>
      List.filter (routed_to cfg name) ms.
Proof.
  revert grouped. induction ms as [|m ms IH]; intros grouped; cbn [group_manifests].
  { by intros [= <-]. }
  unfold bind, routed_to. destruct (route cfg m) as [o|] eqn:Eo; [|done].
  destruct (group_manifests cfg final ms) as [g|]; [|done].
  intros [= <-]. cbn [List.filter]. rewrite Eo.
  unfold group_of in *. cbn [List.filter fst].
  destruct (String.eqb o name); cbn [fmap list_fmap snd]; by rewrite (IH g eq_refl).
Qed.

Lemma route_configured (cfg : Config) (m : manifest) o :
  route cfg m = Ok o -> o ∈ (output_files cfg).*1 \/ o = "default".
Proof.
  unfold route. destruct (get_or m "_output_name" (VStr "default"));
    try (intros [= <-]; by right); try done.
  case_bool_decide; intros [= <-]; [by left|by right].
Qed.

Lemma group_manifests_routes (cfg : Config) (final : bool) (ms : list manifest) grouped m :
  group_manifests cfg final ms = Ok grouped -> m ∈ ms -> exists o, route cfg m = Ok o.
Proof.
  revert grouped. induction ms as [|m0 ms IH]; intros grouped; cbn [group_manifests].
  { by intros _ ?%elem_of_nil. }
  unfold bind. destruct (route cfg m0) as [o|] eqn:Eo; [|done].
  destruct (group_manifests cfg final ms) as [g|]; [|done].
  intros _ [->|Hin]%elem_of_cons; [by exists o|]. by apply (IH g).
Qed.

Lemma NoDup_fmap_same {A B : Type} (f : A -> B) (l : list A) x y :
  NoDup (f <$> l) -> x ∈ l -> y ∈ l -> f x = f y -> x = y.
Proof.
  intros Hnd [i Hi]%list_elem_of_lookup [j Hj]%list_elem_of_lookup Hf.
  assert (i = j) as ->; [|congruence].
  apply (NoDup_lookup _ i j (f x) Hnd); rewrite list_lookup_fmap;
    [by rewrite Hi|by rewrite Hj, Hf].
Qed.

(** The file of a configured destination after [_write_plugin_master]. *)
Lemma write_plugin_master_file (cfg : Config) (W : World) (ms : list manifest)
    (final : bool) (fs fs' : gmap string file) name path :
  NoDup ((fun out => resolve W (snd out)) <$> output_files cfg) ->
  _write_plugin_master cfg W ms final fs = Ok fs' ->
  (name, path) ∈ output_files cfg ->
  fs' !! resolve W path =
    if bool_decide (List.filter (routed_to cfg name) ms = []) &&
       negb (String.eqb name "default")
    then None
    else Some (Catalog ((fun m => if final then delete "_output_name" m else m) <$>
                          List.filter (routed_to cfg name) ms)).
Proof.
  intros Hnd Hw Hin.
  unfold _write_plugin_master, bind in Hw.
  destruct (group_manifests cfg final ms) as [grouped|] eqn:Hg; [|done].
  injection Hw as <-.
  assert (writes_output grouped name =
          negb (bool_decide (List.filter (routed_to cfg name) ms = []) &&
                negb (String.eqb name "default"))) as Hwo.
  { unfold writes_output. rewrite (group_of_routed cfg final ms grouped name Hg).
    do 2 f_equal. apply bool_decide_ext. split; [apply fmap_nil_inv|by intros ->]. }
  destruct (bool_decide (List.filter (routed_to cfg name) ms = []) &&
            negb (String.eqb name "default")) eqn:Hskip; cbn [negb] in Hwo.
  - assert (fst (write_outputs cfg W grouped fs) !! resolve W path = None) as Hnone.
    { apply write_fold_skipped; [|right; by exists name, path].
      intros n q Hin' Hq.
      by rewrite (f_equal fst (NoDup_fmap_same _ _ (n, q) (name, path) Hnd Hin' Hin Hq)
                  : n = name). }
    destruct final; [|done]. rewrite cleanup_lookup, Hnone. by destruct (stale _ _ _).
  - assert (fst (write_outputs cfg W grouped fs) !! resolve W path
            = Some (Catalog (group_of name grouped))) as Hsome
      by (by apply write_fold_written).
    rewrite (group_of_routed cfg final ms grouped name Hg) in Hsome.
    destruct final; [|done]. rewrite cleanup_lookup, Hsome.
    unfold stale. rewrite (bool_decide_eq_true_2 (resolve W path ∈ _)).
    { by rewrite andb_false_r. }
    apply write_fold_current. right. by exists name, path.
Qed.

(** With a default destination, every manifest is routed to a configured
    one. *)
Lemma routed_to_configured (cfg : Config) (W : World) (ms : list manifest)
    (final : bool) (fs fs' : gmap string file) (m : manifest) :
  "default" ∈ (output_files cfg).*1 ->
  _write_plugin_master cfg W ms final fs = Ok fs' ->
  m ∈ ms ->
  exists name path, route cfg m = Ok name /\ ((name, path) ∈ output_files cfg) /\
    (m ∈ List.filter (routed_to cfg name) ms).
Proof.
  intros Hdef Hw Hm.
  unfold _write_plugin_master, bind in Hw.
  destruct (group_manifests cfg final ms) as [grouped|] eqn:Hg; [|done].
  destruct (group_manifests_routes cfg final ms grouped m Hg Hm) as [o Ho].
  assert (o ∈ (output_files cfg).*1) as ([n path] & -> & Hin)%list_elem_of_fmap.
  { by destruct (route_configured cfg m o Ho) as [?| ->]. }
  cbn [fst] in *. exists n, path. split_and!; [done..|].
  apply list_elem_of_In, filter_In. split; [by apply list_elem_of_In|].
  unfold routed_to. rewrite Ho. apply String.eqb_refl.
Qed.

(** X13.  What each catalog holds.  When the configured paths resolve to
    different files and [_write_plugin_master] returns, the file of every
    configured destination holds the manifests routed to it, in their order
    and without [_output_name] on the final pass; a destination other than
    the default one that no manifest is routed to has no file.  When a
    default destination is configured, every manifest is in the catalog of
    the destination it is routed to. *)
Theorem catalogs_hold_routed_manifests (cfg : Config) (W : World) (ms : list manifest)
    (final : bool) (fs fs' : gmap string file) :
  NoDup ((fun out => resolve W (snd out)) <$> output_files cfg) ->
  _write_plugin_master cfg W ms final fs = Ok fs' ->
  let clean (m : manifest) := if final then delete "_output_name" m else m in
  (forall name path, (name, path) ∈ output_files cfg ->
     fs' !! resolve W path =
       if bool_decide (List.filter (routed_to cfg name) ms = []) &&
          negb (String.eqb name "default")
       then None
       else Some (Catalog (clean <$> List.filter (routed_to cfg name) ms))) /\
  ("default" ∈ (output_files cfg).*1 ->
   forall m, m ∈ ms ->
     exists name path records, route cfg m = Ok name /\
       (name, path) ∈ output_files cfg /\
       fs' !! resolve W path = Some (Catalog records) /\ clean m ∈ records).
Proof.
  intros Hnd Hw clean. split.
  { intros name path Hin. by apply (write_plugin_master_file cfg W ms final fs fs'). }
  intros Hdef m Hm.
  destruct (routed_to_configured cfg W ms final fs fs' m Hdef Hw Hm)
    as (n & path & Ho & Hin & Hmem).
  exists n, path, (clean <$> List.filter (routed_to cfg n) ms).
  split_and!; [done|done| |by apply list_elem_of_fmap_2].
  rewrite (write_plugin_master_file cfg W ms final fs fs' n path Hnd Hw Hin).
  rewrite bool_decide_eq_false_2; [done|].
  intros E. rewrite E in Hmem. by apply elem_of_nil in Hmem.
Qed.

Lemma catalogs_hold_routed_manifests_witness :
  (<["/work/b.json" := Catalog [delete "_output_name" routed_to_b]]>
     (delete "/work/a.json" (delete "/work/c.json" (delete "/work/notes.json"
        fs_with_stale))) : gmap string file) !! resolve (sample_world None) "./b.json" =
    if bool_decide (List.filter (routed_to two_outputs_cfg "B") [routed_to_b] = []) &&
       negb (String.eqb "B" "default")
    then None
    else Some (Catalog ((fun m : manifest => delete "_output_name" m) <$>
                          List.filter (routed_to two_outputs_cfg "B") [routed_to_b])).
Proof.
  refine (proj1 (catalogs_hold_routed_manifests two_outputs_cfg (sample_world None)
                   [routed_to_b] true fs_with_stale _ _ _) "B" "./b.json" _).
  - vm_compute. repeat constructor; intros H; absent H.
  - evaluated.
  - listed.
Defined.

Lemma group_manifests_filter (cfg : Config) (final : bool) (ms : list manifest) :
  group_manifests cfg final
    (List.filter (fun m => negb (routed_to cfg "default" m)) ms) =
  match group_manifests cfg final ms with
  | Ok grouped =>
      Ok (List.filter (fun g => negb (String.eqb (fst g) "default")) grouped)
  | Raise e => Raise e
  end.
Proof.
  induction ms as [|m ms IH]; [done|].
  cbn [List.filter group_manifests]. unfold routed_to at 1.
  destruct (route cfg m) as [o|] eqn:Eo; cbn [bind negb].
  - destruct (String.eqb o "default") eqn:Ed; cbn [negb].
    + rewrite IH. destruct (group_manifests cfg final ms); cbn [bind]; [|done].
      cbn [List.filter fst]. by rewrite Ed.
    + cbn [group_manifests]. rewrite Eo, IH. cbn [bind].
      destruct (group_manifests cfg final ms); cbn [bind]; [|done].
      cbn [List.filter fst]. by rewrite Ed.
  - cbn [group_manifests]. by rewrite Eo.
Qed.

Lemma group_of_filter (name : string) (grouped : list (string * manifest)) :
  name <> "default" ->
  group_of name (List.filter (fun g => negb (String.eqb (fst g) "default")) grouped)
  = group_of name grouped.
Proof.
  intros Hn. unfold group_of. f_equal.
  induction grouped as [|[o r] grouped IH]; [done|].
  cbn [List.filter fst]. destruct (String.eqb o "default") eqn:Ed; cbn [negb].
  - apply String.eqb_eq in Ed as ->.
    rewrite (proj2 (String.eqb_neq "default" name)) by done. apply IH.
  - cbn [List.filter fst]. by rewrite IH.
Qed.

Lemma write_fold_ext (W : World) (g g' : list (string * manifest)) outs st :
  (forall name path, (name, path) ∈ outs -> group_of name g = group_of name g') ->
  foldl (write_output W g) st outs = foldl (write_output W g') st outs.
Proof.
  revert st. induction outs as [|[name path] outs IH]; intros st H; [done|].
  cbn [foldl]. rewrite IH.
  - f_equal. unfold write_output. cbn [fst snd]. by rewrite (H name path) by left.
  - intros n q Hin. apply (H n q). by right.
Qed.

(** X14.  Without a default destination, the manifests that are routed to
    it, those whose [_output_name] is missing or names no configured
    destination, are left out of every file: [_write_plugin_master] behaves
    as if they were not in the list, and raises no error for them. *)
Theorem unrouted_manifests_are_dropped (cfg : Config) (W : World) (ms : list manifest)
    (final : bool) (fs : gmap string file) :
  "default" ∉ (output_files cfg).*1 ->
  _write_plugin_master cfg W ms final fs =
  _write_plugin_master cfg W
    (List.filter (fun m => negb (routed_to cfg "default" m)) ms) final fs.
Proof.
  intros Hdef. unfold _write_plugin_master.
  rewrite group_manifests_filter.
  destruct (group_manifests cfg final ms) as [grouped|]; cbn [bind]; [|done].
  unfold write_outputs.
  rewrite (write_fold_ext W
             (List.filter (fun g => negb (String.eqb (fst g) "default")) grouped)
             grouped); [done|].
  intros name path Hin. apply group_of_filter. intros ->.
  apply Hdef, list_elem_of_fmap. by exists ("default", path).
Qed.

Lemma unrouted_manifests_are_dropped_witness :
  _write_plugin_master two_outputs_cfg (sample_world None) [untagged; routed_to_b] true
    fs_with_stale =
  _write_plugin_master two_outputs_cfg (sample_world None)
    (List.filter (fun m => negb (routed_to two_outputs_cfg "default" m))
       [untagged; routed_to_b]) true fs_with_stale.
Proof.
  refine (unrouted_manifests_are_dropped two_outputs_cfg (sample_world None)
            [untagged; routed_to_b] true fs_with_stale _).
  intros H. vm_compute in H. absent H.
Defined.

(** X15.  The time stamp of a manifest whose [Name] and [InternalName] are
    strings.  A manifest from a repository that carries the date of its
    release keeps it; every other manifest is stamped with the modification
    time of the archive of its variant, the global archive for a global build
    and the main one otherwise, or with the clock when that archive is
    missing.  A truthy [_repository_source] is removed.  Without a [Name] no
    stamp is set. *)
Theorem last_update_policy (cfg : Config) (W : World) (i : nat) (m : manifest) :
  let m' := update_last_modified_one cfg W i m in
  (forall n id, m !! "Name" = Some (VStr n) -> m !! "InternalName" = Some (VStr id) ->
     m' !! "LastUpdate" =
       (if truthy (get m "_repository_source") && has_key m "LastUpdate"
        then m !! "LastUpdate"
        else Some (VStr (PyStr.of_Z
               (default (clock W i)
                  (zip_mtime W id
                     (PyStr.endswith n
                        ("(API" +:+ PyStr.of_Z (global_api_level cfg) +:+ ")"))))))) /\
     (truthy (get m "_repository_source") = true -> m' !! "_repository_source" = None)) /\
  (m !! "Name" = None -> m' !! "LastUpdate" = m !! "LastUpdate").
Proof.
  intros m'. subst m'. unfold update_last_modified_one. split.
  - intros n id Hn Hid.
    assert (forall m0 : manifest,
              m0 !! "Name" = Some (VStr n) ->
              _set_local_timestamp cfg W i m0 (VStr id) =
              Ok (<["LastUpdate" := VStr (PyStr.of_Z
                     (default (clock W i)
                        (zip_mtime W id
                           (PyStr.endswith n
                              ("(API" +:+ PyStr.of_Z (global_api_level cfg) +:+ ")")))))]>
                    m0)) as Hstamp.
    { intros m0 H0. unfold _set_local_timestamp, is_global_build, item, bind.
      rewrite H0. cbn [str_method]. by destruct (zip_mtime W id _). }
    destruct (truthy (get m "_repository_source")) eqn:Ht; cbn [andb].
    + unfold has_key. rewrite (bool_decide_eq_true_2 (is_Some (m !! "InternalName")))
        by (by rewrite Hid).
      case_bool_decide as Hl.
      * split; [by rewrite lookup_delete_ne|intros _; by rewrite lookup_delete_eq].
      * rewrite lookup_delete_ne, Hid, Hstamp by (by rewrite ?lookup_delete_ne).
        split; [by rewrite lookup_insert_eq|].
        intros _. by rewrite lookup_insert_ne, lookup_delete_eq.
    + rewrite Hid, Hstamp by done. split; [by rewrite lookup_insert_eq|done].
  - intros Hn.
    assert (forall (m0 : manifest) pn,
              m0 !! "Name" = None -> _set_local_timestamp cfg W i m0 pn = Raise KeyError)
      as Hraise.
    { intros m0 pn H0. unfold _set_local_timestamp, is_global_build, item, bind.
      by rewrite H0. }
    destruct (truthy (get m "_repository_source")).
    + destruct (has_key m "LastUpdate").
      * destruct (has_key m "InternalName"); [by rewrite lookup_delete_ne|done].
      * rewrite lookup_delete_ne by done.
        destruct (m !! "InternalName"); [|by rewrite lookup_delete_ne].
        rewrite Hraise by (by rewrite lookup_delete_ne). by rewrite lookup_delete_ne.
    + destruct (m !! "InternalName"); [|done]. by rewrite Hraise.
Qed.

Lemma last_update_policy_witness :
  update_last_modified_one main_cfg (sample_world None) 0 released_manifest
    !! "LastUpdate" = Some (VStr "1690000000").
Proof.
  refine (proj1 (proj1 (last_update_policy main_cfg (sample_world None) 0
                          released_manifest) "P" "P" _ _)).
  - reflexivity.
  - reflexivity.
Defined.

(** ** DownloadCountUpdater *)

Lemma foldr_add_from (l : list Z) (z : Z) :
  foldr Z.add z l = (foldr Z.add 0 l + z)%Z.
Proof. induction l as [|x l IH]; cbn [foldr]; [lia|]. rewrite IH. lia. Qed.

Lemma downloads_cons (cs : list Z) (css : list (list Z)) :
  downloads (cs :: css) = (foldr Z.add 0 cs + downloads css)%Z.
Proof. unfold downloads. cbn [concat]. by rewrite foldr_app, foldr_add_from. Qed.

Lemma downloads_app (css css' : list (list Z)) :
  downloads (css ++ css') = (downloads css + downloads css')%Z.
Proof. unfold downloads. by rewrite concat_app, foldr_app, foldr_add_from. Qed.

Lemma sum_assets_with (cs : list Z) (assets : list value) (total : Z) :
  Forall2 (fun a c => asset_with c a) assets cs ->
  sum_assets total assets = Ok (total + foldr Z.add 0 cs)%Z.
Proof.
  intros H. revert total.
  induction H as [|a c assets cs (d & -> & Hc) _ IH]; intros total;
    cbn [sum_assets foldr value_get bind].
  { by rewrite Z.add_0_r. }
  rewrite Hc. cbn [add_count bind]. rewrite IH. f_equal. lia.
Qed.

Lemma sum_releases_with (css : list (list Z)) (releases : list value) (total : Z) :
  Forall2 (fun r cs => release_with cs r) releases css ->
  sum_releases total releases = Ok (total + downloads css)%Z.
Proof.
  intros H. revert total.
  induction H as [|r cs releases css (d & assets & -> & Ha & Hcs) _ IH]; intros total;
    cbn [sum_releases value_get bind].
  { unfold downloads. cbn [concat foldr]. by rewrite Z.add_0_r. }
  rewrite Ha. cbn [iterate bind]. rewrite (sum_assets_with cs assets total Hcs).
  cbn [bind]. rewrite IH, downloads_cons. f_equal. lia.
Qed.

Lemma sum_releases_objects (releases : list value) (total t : Z) :
  sum_releases total releases = Ok t -> Forall (fun r => exists d, r = VDict d) releases.
Proof.
  revert total. induction releases as [|r releases IH]; intros total; [by constructor|].
  cbn [sum_releases]. destruct r; try done. cbn [value_get bind].
  destruct (iterate _) as [assets|]; [|done]. cbn [bind].
  destruct (sum_assets total assets) as [t'|]; [|done]. cbn [bind].
  intros H. constructor; [by eexists|by apply (IH t')].
Qed.

(** The loop runs through the pages that are full. *)
Lemma fetch_pages_full (page_of : nat -> option value) (pages : list (list (list Z)))
    (fuel start : nat) (total : Z) :
  (forall i css, pages !! i = Some css ->
     exists v, page_of (start + i) = Some v /\ page_with css v /\ 100 <= length css) ->
  fetch_pages page_of (length pages + fuel) start total =
  fetch_pages page_of fuel (start + length pages) (total + downloads (concat pages))%Z.
Proof.
  revert start total. induction pages as [|css pages IH]; intros start total Hp.
  { cbn [length Nat.add concat]. unfold downloads. cbn [concat foldr].
    by rewrite Nat.add_0_r, Z.add_0_r. }
  destruct (Hp 0 css eq_refl) as (v & Hv & (releases & -> & Hr) & Hlen).
  rewrite Nat.add_0_r in Hv.
  cbn [length Nat.add fetch_pages]. rewrite Hv.
  assert (length releases = length css) as Hl by (by eapply Forall2_length).
  destruct releases as [|r releases]; [cbn in Hl; lia|].
  cbn [truthy negb iterate bind].
  rewrite (sum_releases_with css (r :: releases) total Hr). cbn [bind len].
  rewrite Hl. rewrite (proj2 (Nat.ltb_ge _ _) Hlen).
  rewrite IH.
  - f_equal; [lia|]. cbn [concat]. rewrite downloads_app. lia.
  - intros i css' Hi. destruct (Hp (S i) css' Hi) as (v' & Hv' & Hrest).
    exists v'. split; [|done]. by rewrite <- Hv', Nat.add_succ_r.
Qed.

(** X16.  [_fetch_download_count] sums over the pages.  When the pages up
    to some page list 100 releases or more each, and the next page is empty
    or lists fewer than 100, the function asks for these pages and no more,
    and returns the sum of the download counts of all assets of all releases
    listed, where an asset without count adds 0 and a release without assets
    adds nothing. *)
Theorem fetch_download_count_sums (G : GitHub) (owner rep : string)
    (pages : list (list (list Z))) (last : list (list Z)) (fuel : nat) :
  (forall i css, pages !! i = Some css ->
     exists v, releases_page G owner rep (S i) = Some v /\ page_with css v /\
       100 <= length css) ->
  (exists v, releases_page G owner rep (S (length pages)) = Some v /\
     (page_with last v \/ (truthy v = false /\ last = []))) ->
  length last < 100 ->
  length pages < fuel ->
  _fetch_download_count G fuel owner rep
  = Some (downloads (concat pages) + downloads last)%Z.
Proof.
  intros Hp (v & Hv & Hlast) Hshort Hfuel. unfold _fetch_download_count.
  replace fuel with (length pages + S (fuel - length pages - 1)) by lia.
  rewrite fetch_pages_full by done.
  cbn [fetch_pages Nat.add]. rewrite Hv. cbn [Z.add].
  destruct Hlast as [(releases & -> & Hr)|[Hf ->]].
  - assert (length releases = length last) as Hl by (by eapply Forall2_length).
    destruct releases as [|r releases].
    { apply Forall2_nil_inv_l in Hr as ->. cbn [truthy negb]. unfold downloads at 2.
      cbn [concat foldr]. by rewrite Z.add_0_r. }
    cbn [truthy negb iterate bind].
    rewrite (sum_releases_with last (r :: releases) _ Hr). cbn [bind len].
    rewrite Hl. by rewrite (proj2 (Nat.ltb_lt _ _) Hshort).
  - rewrite Hf. cbn [negb]. unfold downloads at 2. cbn [concat foldr].
    by rewrite Z.add_0_r.
Qed.

Lemma fetch_download_count_sums_witness :
  _fetch_download_count two_pages 2 "o" "r" = Some 7%Z.
Proof.
  refine (fetch_download_count_sums two_pages "o" "r" [replicate 100 []] [[7%Z]] 2
            _ _ _ _).
  - intros [|i] css Hi; [|by destruct i]. injection Hi as <-.
    exists (VList (replicate 100 (VDict []))). split_and!; [done| |cbn; lia].
    exists (replicate 100 (VDict [])). split; [done|].
    change (Forall2 (fun r cs => release_with cs r) (replicate 100 (VDict []))
              (replicate 100 [])).
    apply Forall2_replicate. exists [], []. by split_and!; [..|constructor].
  - eexists. split; [reflexivity|left]. eexists. split; [reflexivity|].
    constructor; [|constructor]. eexists _, _. split_and!; [reflexivity..|].
    constructor; [|constructor]. eexists. by split.
  - cbn. lia.
  - cbn. lia.
Defined.

(** X17.  [_fetch_download_count] returns all or nothing.  When the pages up
    to some page list 100 releases or more each, and the request for the next
    page fails or is refused, or its body is truthy without being a list, or
    lists something that is no object, the function returns 0 whatever the
    earlier pages counted. *)
Theorem fetch_download_count_all_or_nothing (G : GitHub) (owner rep : string)
    (pages : list (list (list Z))) (fuel : nat) :
  (forall i css, pages !! i = Some css ->
     exists v, releases_page G owner rep (S i) = Some v /\ page_with css v /\
       100 <= length css) ->
  releases_page G owner rep (S (length pages)) = None \/
  (exists v, releases_page G owner rep (S (length pages)) = Some v /\
     truthy v = true /\
     ((forall releases, v <> VList releases) \/
      (exists releases r, v = VList releases /\ r ∈ releases /\
         forall d, r <> VDict d))) ->
  length pages < fuel ->
  _fetch_download_count G fuel owner rep = Some 0%Z.
Proof.
  intros Hp Hbad Hfuel. unfold _fetch_download_count.
  replace fuel with (length pages + S (fuel - length pages - 1)) by lia.
  rewrite fetch_pages_full by done.
  cbn [fetch_pages Nat.add].
  destruct Hbad as [->|(v & -> & Ht & Hv)]; [done|].
  rewrite Ht. cbn [negb].
  destruct Hv as [Hnl|(releases & r & -> & Hin & Hr)].
  - destruct v as [| | |s|l|d]; try done.
    + destruct s as [|c s]; [done|]. cbn. done.
    + by destruct (Hnl l).
    + destruct d as [|[k x] d]; [done|]. cbn. done.
  - cbn [iterate bind].
    destruct (sum_releases _ releases) as [t|] eqn:Hs; [|done].
    apply sum_releases_objects in Hs.
    rewrite Forall_forall in Hs. destruct (Hs r Hin) as [d ->]. by destruct (Hr d).
Qed.

Lemma fetch_download_count_all_or_nothing_witness :
  _fetch_download_count second_page_refused 5 "o" "r" = Some 0%Z.
Proof.
  refine (fetch_download_count_all_or_nothing second_page_refused "o" "r"
            [replicate 100 [3%Z]] 5 _ _ _).
  - intros [|i] css Hi; [|by destruct i]. injection Hi as <-.
    eexists. split_and!; [reflexivity| |cbn; lia].
    eexists. split; [reflexivity|].
    change (Forall2 (fun r cs => release_with cs r)
              (replicate 100
                 (VDict [("assets", VList [VDict [("download_count", VInt 3)]])]))
              (replicate 100 [3%Z])).
    apply Forall2_replicate. eexists _, _. split_and!; [reflexivity..|].
    constructor; [|constructor]. eexists. by split.
  - by left.
  - cbn. lia.
Defined.

Lemma update_download_count_cases (G : GitHub) (fuel : nat) (st st' : gmap string Z)
    (m m' : manifest) :
  update_download_count G fuel st m = Some (m', st') ->
  st ⊆ st' /\
  ((m' = m /\ st' = st) \/
   exists url owner rep count,
     get_or m "RepoUrl" (VStr "") = VStr url /\
     PyStr.contains url "github.com" = true /\
     _parse_github_url (VStr url) = Some (owner, rep) /\ owner <> "" /\
     st' !! (owner +:+ "/" +:+ rep) = Some count /\
     m' = <["DownloadCount" := VInt count]> m /\
     (st !! (owner +:+ "/" +:+ rep) = None ->
      _fetch_download_count G fuel owner rep = Some count)).
Proof.
  unfold update_download_count. intros H.
  destruct (get_or m "RepoUrl" (VStr "")) as [| | |url| |] eqn:Eu;
    try (injection H as <- <-; split; [done|by left]).
  destruct (negb (truthy (VStr url)) || negb (PyStr.contains url "github.com")) eqn:Et.
  { injection H as <- <-. split; [done|by left]. }
  apply orb_false_elim in Et as [_ Hc%negb_false_iff].
  destruct (_parse_github_url (VStr url)) as [[owner rep]|] eqn:Ep; cycle 1.
  { injection H as <- <-. split; [done|by left]. }
  destruct (negb (truthy (VStr owner)) || negb (truthy (VStr rep))) eqn:Eo.
  { injection H as <- <-. split; [done|by left]. }
  apply orb_false_elim in Eo as [Ho%negb_false_iff _].
  assert (owner <> "") as Hne by (by intros ->).
  destruct (st !! (owner +:+ "/" +:+ rep)) as [count|] eqn:Es.
  - injection H as <- <-. split; [done|right].
    exists url, owner, rep, count. split_and!; try done. intros ?. congruence.
  - destruct (_fetch_download_count G fuel owner rep) as [count|] eqn:Ef; [|done].
    injection H as <- <-. split; [by apply insert_subseteq|right].
    exists url, owner, rep, count. split_and!; try done. by rewrite lookup_insert_eq.
Qed.

(** X18.  The counts that [update_download_counts] sets agree with its cache.
    When the download counts can be fetched, the function returns; the cache
    only grows; every manifest is left as it is or gets [DownloadCount] set
    to the final cache entry of the repository in its [RepoUrl], so that
    manifests of one repository get one count; a manifest whose [RepoUrl] is
    no string, or is a string without [github.com], is left as it is. *)
Theorem update_download_counts_consistent (G : GitHub) (fuel : nat)
    (st : gmap string Z) (ms : list manifest) :
  (forall owner rep, is_Some (_fetch_download_count G fuel owner rep)) ->
  exists ms' st',
    update_download_counts G fuel st ms = Some (ms', st') /\
    st ⊆ st' /\
    Forall2 (fun m m' =>
      (m' = m \/
       exists owner rep count,
         _parse_github_url (get_or m "RepoUrl" (VStr "")) = Some (owner, rep) /\
         st' !! (owner +:+ "/" +:+ rep) = Some count /\
         m' = <["DownloadCount" := VInt count]> m) /\
      ((forall url, get_or m "RepoUrl" (VStr "") = VStr url ->
          PyStr.contains url "github.com" = false) -> m' = m)) ms ms'.
Proof.
  intros Hfetch. revert st. induction ms as [|m ms IH]; intros st.
  { exists [], st. by split_and!; [..|constructor]. }
  cbn [update_download_counts].
  destruct (update_download_count G fuel st m) as [[m1 st1]|] eqn:E1; cycle 1.
  { exfalso. unfold update_download_count in E1.
    repeat case_match; try done.
    match goal with
    | Hf : _fetch_download_count G fuel ?o ?r = None |- _ =>
        destruct (Hfetch o r) as [c Hc]; congruence
    end. }
  destruct (IH st1) as (ms' & st' & -> & Hsub & Hall).
  exists (m1 :: ms'), st'. split; [done|].
  apply update_download_count_cases in E1 as [Hsub1 Hm].
  split; [by transitivity st1|].
  constructor; [|done].
  destruct Hm as [[-> ->]|(url & owner & rep & count & Hu & Hc & Hp & _ & Hs & -> & _)].
  - split; [by left|done].
  - split.
    + right. exists owner, rep, count. rewrite Hu. split_and!; [done| |done].
      by apply (lookup_weaken st1).
    + intros Hno. rewrite (Hno url Hu) in Hc. done.
Qed.

Lemma update_download_counts_consistent_witness :
  exists ms' st',
    update_download_counts two_pages 2 ∅ [github_manifest; gitlab_manifest]
    = Some (ms', st') /\
    (∅ : gmap string Z) ⊆ st' /\
    Forall2 (fun m m' : manifest =>
      (m' = m \/
       exists owner rep count,
         _parse_github_url (get_or m "RepoUrl" (VStr "")) = Some (owner, rep) /\
         st' !! (owner +:+ "/" +:+ rep) = Some count /\
         m' = <["DownloadCount" := VInt count]> m) /\
      ((forall url, get_or m "RepoUrl" (VStr "") = VStr url ->
          PyStr.contains url "github.com" = false) -> m' = m))
      [github_manifest; gitlab_manifest] ms'.
Proof.
  refine (update_download_counts_consistent two_pages 2 ∅
            [github_manifest; gitlab_manifest] _).
  intros owner rep. by eexists.
Defined.

(** ** RepositoryPluginProcessor: testing releases *)

Lemma slice_from_prefix (p s : string) :
  String.prefix p s = true -> s = p +:+ slice_from (String.length p) s.
Proof.
  revert s. induction p as [|c p IH]; intros s; [done|].
  destruct s as [|d s]; cbn [String.prefix]; [done|].
  destruct (ascii_dec c d) as [->|]; [|done].
  intros H. cbn [String.length slice_from]. rewrite app_cons_string. f_equal. by apply IH.
Qed.

Lemma first_value_some (p : value -> result bool) (l : list value) a :
  first_value p l = Ok (Some a) -> a ∈ l /\ p a = Ok true.
Proof.
  induction l as [|x l IH]; cbn [first_value]; [done|].
  unfold bind. destruct (p x) as [[]|] eqn:E; [|by intros [? ?]%IH; split; [right|]|done].
  intros [= <-]. split; [left|done].
Qed.

Lemma first_value_none (p : value -> result bool) (l : list value) a :
  first_value p l = Ok None -> a ∈ l -> p a = Ok false.
Proof.
  induction l as [|x l IH]; cbn [first_value]; [by intros _ ?%elem_of_nil|].
  unfold bind. destruct (p x) as [[]|] eqn:E; [done| |done].
  intros H [->|Hin]%elem_of_cons; [done|by apply IH].
Qed.

Lemma testing_release_some (owner rep : string) (release : value) version url :
  testing_release owner rep release = Ok (Some (version, url)) ->
  exists d tag assets name,
    release = VDict d /\
    truthy (default VNone (assoc_get "prerelease" d)) = true /\
    default (VStr "") (assoc_get "tag_name" d) = VStr tag /\
    (tag = "testing-v" +:+ version \/ tag = "v" +:+ version) /\
    default (VList []) (assoc_get "assets" d) = VList assets /\
    (exists da, VDict da ∈ assets /\ assoc_get "name" da = Some (VStr name)) /\
    PyStr.endswith name ".zip" = true /\
    (name = "latest.zip" \/
     forall da, VDict da ∈ assets -> assoc_get "name" da <> Some (VStr "latest.zip")) /\
    url = "https://github.com/" +:+ owner +:+ "/" +:+ rep +:+
          "/releases/download/" +:+ tag +:+ "/" +:+ name.
Proof.
  unfold testing_release. destruct release as [| | | | |d]; try done.
  cbn [value_get bind].
  destruct (truthy (default VNone (assoc_get "prerelease" d))) eqn:Hpre; [|done].
  cbn [negb].
  destruct (default (VStr "") (assoc_get "tag_name" d)) as [| | |tag| |] eqn:Htag;
    try done.
  cbn [str_method bind].
  destruct (testing_version tag) as [v|] eqn:Hv; [|done].
  assert (tag = "testing-v" +:+ v \/ tag = "v" +:+ v) as Htagv.
  { unfold testing_version, PyStr.startswith in Hv.
    destruct (String.prefix "testing-v" tag) eqn:E1.
    - injection Hv as <-. left. by apply slice_from_prefix.
    - destruct (String.prefix "v" tag) eqn:E2; [|done].
      injection Hv as <-. right. by apply slice_from_prefix. }
  destruct (default (VList []) (assoc_get "assets" d)) as [| | |s|assets|da] eqn:Ha;
    try done; cbn [iterate bind].
  - (* a string of assets: its characters have no [get] *)
    destruct s as [|c s]; [done|]. done.
  - destruct (first_value _ assets) as [[a|]|] eqn:E1; cbn [bind]; [| |done].
    + intros [= <- <-].
      apply first_value_some in E1 as [Hin Hp].
      destruct a as [| | | | |da]; try done. cbn [value_get bind] in Hp.
      injection Hp as Hp. apply py_eq_str_iff in Hp.
      destruct (assoc_get "name" da) as [n|] eqn:En; [|done]. cbn in Hp. subst n.
      exists d, tag, assets, "latest.zip". split_and!; try done.
      * by exists da.
      * by left.
    + match goal with
      | |- context [first_value ?p assets] =>
          destruct (first_value p assets) as [[a|]|] eqn:E2; cbn [bind]; [|done|done]
      end.
      apply first_value_some in E2 as [Hin Hp].
      destruct a as [| | | | |da]; try done. cbn [value_get value_item bind] in *.
      destruct (assoc_get "name" da) as [n|] eqn:En; [|done].
      cbn [default from_option id] in Hp.
      destruct n as [| | |n| |]; try done. cbn [str_method bind] in *.
      injection Hp as Hp. intros [= <- <-].
      exists d, tag, assets, n. split_and!; try done.
      * by exists da.
      * right. intros da' Hin' Hn'.
        pose proof (first_value_none _ _ _ E1 Hin') as Hf.
        cbn [value_get bind] in Hf. by rewrite Hn' in Hf.
  - destruct da as [|[k x] da]; [done|]. done.
Qed.

Lemma testing_release_none (owner rep : string) (release : value) :
  testing_release owner rep release = Ok None -> ~ eligible_prerelease release.
Proof.
  intros H (d & tag & assets & da & name & -> & Hpre & Htag & Hpfx & Ha & Hin & Hn & Hz).
  unfold testing_release in H. cbn [value_get bind] in H.
  rewrite Hpre, Htag in H. cbn [negb str_method bind] in H.
  assert (exists v, testing_version tag = Some v) as [v Hv].
  { unfold testing_version. destruct Hpfx as [-> | Hv]; [by eexists|].
    destruct (PyStr.startswith tag "testing-v"); [by eexists|]. rewrite Hv. by eexists. }
  rewrite Hv, Ha in H. cbn [iterate bind] in H.
  destruct (first_value _ assets) as [[a|]|] eqn:E1; cbn [bind] in H; try done.
  match type of H with
  | context [first_value ?p assets] =>
      destruct (first_value p assets) as [[a|]|] eqn:E2; cbn [bind] in H; try done
  end.
  - apply first_value_some in E2 as [_ Hp].
    destruct a as [| | | | |da']; try done. cbn [value_get value_item bind] in *.
    destruct (assoc_get "name" da') as [[| | |n| |]|]; try done.
  - pose proof (first_value_none _ _ _ E2 Hin) as Hf.
    cbn [value_get bind] in Hf. rewrite Hn in Hf. cbn in Hf. congruence.
Qed.

Lemma find_testing_release_inv (owner rep : string) (releases : list value) info :
  find_testing_release owner rep releases = Ok (Some info) ->
  exists i release,
    releases !! i = Some release /\
    testing_release owner rep release = Ok (Some info) /\
    forall j r, j < i -> releases !! j = Some r -> testing_release owner rep r = Ok None.
Proof.
  induction releases as [|r releases IH]; cbn [find_testing_release]; [done|].
  unfold bind. destruct (testing_release owner rep r) as [[i0|]|] eqn:E; [| |done].
  - intros [= <-]. exists 0, r. split_and!; [done..|]. intros j ? Hj. lia.
  - intros (i & release & Hi & Hr & Hearlier)%IH.
    exists (S i), release. split_and!; [done..|].
    intros [|j] r' Hj Hr'; [by injection Hr' as <-|].
    apply (Hearlier j); [lia|done].
Qed.

(** X19.  What [_get_testing_release_info] returns.  A result comes from a
    release of the list that is marked as pre-release and whose tag is
    [testing-v] or [v] followed by the returned version; the URL is the
    download URL of that tag and of an asset of the release whose name ends
    in [.zip], the asset [latest.zip] when the release has one; and no
    release listed before it is a pre-release with such a tag and such an
    asset. *)
Theorem testing_release_info_sound (G : GitHub) (owner rep plugin_name : string)
    (token : option string) (version url : string) :
  _get_testing_release_info G owner rep plugin_name token = Some (version, url) ->
  exists releases i d tag assets name,
    recent_releases G owner rep token = Some (VList releases) /\
    releases !! i = Some (VDict d) /\
    truthy (default VNone (assoc_get "prerelease" d)) = true /\
    default (VStr "") (assoc_get "tag_name" d) = VStr tag /\
    (tag = "testing-v" +:+ version \/ tag = "v" +:+ version) /\
    default (VList []) (assoc_get "assets" d) = VList assets /\
    (exists da, VDict da ∈ assets /\ assoc_get "name" da = Some (VStr name)) /\
    PyStr.endswith name ".zip" = true /\
    (name = "latest.zip" \/
     forall da, VDict da ∈ assets -> assoc_get "name" da <> Some (VStr "latest.zip")) /\
    url = "https://github.com/" +:+ owner +:+ "/" +:+ rep +:+
          "/releases/download/" +:+ tag +:+ "/" +:+ name /\
    (forall j r, j < i -> releases !! j = Some r -> ~ eligible_prerelease r).
Proof.
  unfold _get_testing_release_info. intros H.
  destruct (recent_releases G owner rep token) as [body|]; [|done].
  destruct (iterate body) as [items|] eqn:Hit; cbn [bind] in H; [|done].
  destruct (find_testing_release owner rep items) as [info|] eqn:Hf; [|done].
  subst info.
  apply find_testing_release_inv in Hf as (i & release & Hi & Hr & Hearlier).
  apply testing_release_some in Hr
    as (d & tag & assets & name & -> & Hpre & Htag & Hv & Ha & Hasset & Hz & Hl & ->).
  assert (body = VList items) as ->.
  { destruct body as [| | |s|l|dd]; try done; cbn [iterate] in Hit.
    - injection Hit as <-. apply list_lookup_fmap_Some in Hi as (? & ? & ?). done.
    - by injection Hit as <-.
    - injection Hit as <-. apply list_lookup_fmap_Some in Hi as (? & ? & ?). done. }
  exists items, i, d, tag, assets, name. split_and!; try done.
  intros j r Hj Hjr. apply (testing_release_none owner rep). by apply (Hearlier j).
Qed.

Lemma testing_release_info_sound_witness :
  exists releases i d tag assets name,
    recent_releases with_prerelease "o" "r" None = Some (VList releases) /\
    releases !! i = Some (VDict d) /\
    truthy (default VNone (assoc_get "prerelease" d)) = true /\
    default (VStr "") (assoc_get "tag_name" d) = VStr tag /\
    (tag = "testing-v" +:+ "1.1.0" \/ tag = "v" +:+ "1.1.0") /\
    default (VList []) (assoc_get "assets" d) = VList assets /\
    (exists da, VDict da ∈ assets /\ assoc_get "name" da = Some (VStr name)) /\
    PyStr.endswith name ".zip" = true /\
    (name = "latest.zip" \/
     forall da, VDict da ∈ assets -> assoc_get "name" da <> Some (VStr "latest.zip")) /\
    "https://github.com/o/r/releases/download/testing-v1.1.0/latest.zip"
    = "https://github.com/" +:+ "o" +:+ "/" +:+ "r" +:+
      "/releases/download/" +:+ tag +:+ "/" +:+ name /\
    (forall j r, j < i -> releases !! j = Some r -> ~ eligible_prerelease r).
Proof.
  refine (testing_release_info_sound with_prerelease "o" "r" "P" None "1.1.0"
            "https://github.com/o/r/releases/download/testing-v1.1.0/latest.zip" _).
  reflexivity.
Defined.

(** ** RepositoryPluginProcessor: the manifest file *)

Lemma listed_file (c : string) (files : list string) :
  existsb (String.eqb c) files = true <-> c ∈ files.
Proof.
  rewrite existsb_exists. split.
  - intros (f & Hin & ->%String.eqb_eq). by apply list_elem_of_In.
  - intros Hin. exists c. split; [by apply list_elem_of_In|apply String.eqb_refl].
Qed.

(** X20.  The manifest file that is read from a downloaded archive.  The
    chosen file is a file of the archive whose name ends in [.json]: the
    first of the three candidate names that the archive holds, or, when it
    holds none of them, the first file at the root of the archive that ends
    in [.json] and not in [.deps.json].  No file is chosen exactly when the
    archive holds no candidate and no such file.  A file named after the
    plugin is chosen whatever else the archive holds. *)
Theorem manifest_file_choice (n : string) (files : list string) :
  (forall f, manifest_file n files = Some f ->
     f ∈ files /\ PyStr.endswith f ".json" = true /\
     (f ∈ manifest_candidates n \/
      ((forall c, c ∈ manifest_candidates n -> c ∉ files) /\
       PyStr.contains f "/" = false /\ PyStr.endswith f ".deps.json" = false /\
       head (json_files files) = Some f))) /\
  (manifest_file n files = None <->
     (forall c, c ∈ manifest_candidates n -> c ∉ files) /\
     (forall f, f ∈ files -> PyStr.endswith f ".json" = true ->
        PyStr.contains f "/" = true \/ PyStr.endswith f ".deps.json" = true)) /\
  (n +:+ ".json" ∈ files -> manifest_file n files = Some (n +:+ ".json")).
Proof.
  assert (forall c, c ∈ manifest_candidates n -> PyStr.endswith c ".json" = true) as Hjson.
  { intros c Hc. unfold manifest_candidates in Hc. members Hc; by apply endswith_app. }
  assert (List.find (fun c => existsb (String.eqb c) files) (manifest_candidates n) = None ->
          forall c, c ∈ manifest_candidates n -> c ∉ files) as Hnone.
  { intros Hf c Hc Hin. apply list_elem_of_In in Hc.
    pose proof (find_none _ _ Hf c Hc) as Hx. cbn beta in Hx.
    apply listed_file in Hin. congruence. }
  assert (forall f, head (json_files files) = Some f ->
            f ∈ files /\ PyStr.endswith f ".json" = true /\
            PyStr.contains f "/" = false /\ PyStr.endswith f ".deps.json" = false) as Hhead.
  { intros f Hf. assert (f ∈ json_files files) as Hin.
    { destruct (json_files files); [done|]. injection Hf as <-. left. }
    apply list_elem_of_In, filter_In in Hin as [Hin Hp].
    apply andb_true_iff in Hp as [[H1 H2%negb_true_iff]%andb_true_iff H3%negb_true_iff].
    split_and!; try done. by apply list_elem_of_In. }
  unfold manifest_file. split_and!.
  - intros f. destruct (List.find _ (manifest_candidates n)) as [c|] eqn:Hf.
    + intros [= <-]. apply find_some in Hf as [Hc Hin].
      apply list_elem_of_In in Hc. apply listed_file in Hin.
      split_and!; [done|by apply Hjson|by left].
    + intros Hh. destruct (Hhead f Hh) as (? & ? & ? & ?).
      split_and!; [done|done|right]. split_and!; try done. by apply Hnone.
  - destruct (List.find _ (manifest_candidates n)) as [c|] eqn:Hf.
    + clear Hnone. split; [done|]. intros [Hno _]. apply find_some in Hf as [Hc Hin].
      apply list_elem_of_In in Hc. apply listed_file in Hin. by destruct (Hno c Hc).
    + split.
      * intros Hh. split; [by apply Hnone|].
        intros f Hin Hj.
        destruct (PyStr.contains f "/") eqn:E1; [by left|].
        destruct (PyStr.endswith f ".deps.json") eqn:E2; [by right|].
        assert (f ∈ json_files files) as Hjf.
        { apply list_elem_of_In, filter_In. split; [by apply list_elem_of_In|].
          by rewrite Hj, E1, E2. }
        destruct (json_files files); [by apply elem_of_nil in Hjf|done].
      * intros [_ Hall]. destruct (head (json_files files)) as [f|] eqn:Hh; [|done].
        destruct (Hhead f eq_refl) as (Hin & Hj & H1 & H2).
        destruct (Hall f Hin Hj); congruence.
  - intros Hin. unfold manifest_candidates. cbn [List.find].
    by rewrite (proj2 (listed_file _ _) Hin).
Qed.

Lemma manifest_file_choice_witness :
  manifest_file "My Plugin" ["readme.json"; "lib/My Plugin.json"; "My Plugin.json"]
  = Some "My Plugin.json".
Proof.
  refine (proj2 (proj2 (manifest_file_choice "My Plugin"
            ["readme.json"; "lib/My Plugin.json"; "My Plugin.json"])) _).
  listed.
Defined.

(** ** [Config._load_plugin_sources] *)

Lemma dict_set_same {A : Type} (d : list (string * A)) k v :
  assoc_get k (dict_set d k v) = Some v.
Proof.
  induction d as [|[k' v'] d IH]; cbn [dict_set assoc_get].
  { by rewrite String.eqb_refl. }
  destruct (String.eqb k' k) eqn:E; cbn [assoc_get]; by rewrite E.
Qed.

Lemma dict_set_other {A : Type} (d : list (string * A)) k k' v :
  k <> k' -> assoc_get k' (dict_set d k v) = assoc_get k' d.
Proof.
  intros Hk. induction d as [|[k0 v0] d IH]; cbn [dict_set assoc_get].
  { by rewrite (proj2 (String.eqb_neq k k')). }
  destruct (String.eqb k0 k) eqn:E; cbn [assoc_get]; [|by rewrite IH].
  apply String.eqb_eq in E as ->. by rewrite (proj2 (String.eqb_neq k k')).
Qed.

Lemma dict_set_keys {A B : Type} (d : list (string * A)) (e : list (string * B)) k v w :
  d.*1 = e.*1 -> (dict_set d k v).*1 = (dict_set e k w).*1.
Proof.
  revert e. induction d as [|[k0 v0] d IH]; intros [|[k1 w1] e]; try done.
  cbn [dict_set fmap list_fmap fst]. intros [= -> He].
  destruct (String.eqb k1 k); cbn [fmap list_fmap fst]; f_equal; [done|by apply IH].
Qed.

Lemma dict_set_fresh {A : Type} (d : list (string * A)) k v :
  k ∉ d.*1 -> dict_set d k v = d ++ [(k, v)].
Proof.
  induction d as [|[k0 v0] d IH]; [done|].
  cbn [fmap list_fmap fst dict_set]. intros Hk.
  apply not_elem_of_cons in Hk as [Hne Hk].
  rewrite (proj2 (String.eqb_neq k0 k)) by done. cbn [app]. by rewrite IH.
Qed.

Lemma load_plugins_keys plugins rl po rl' po' :
  load_plugins plugins rl po = Ok (rl', po') -> rl.*1 = po.*1 -> rl'.*1 = po'.*1.
Proof.
  revert rl po. induction plugins as [|[n c] plugins IH]; intros rl po; cbn [load_plugins].
  { by intros [= <- <-]. }
  unfold bind. destruct (value_get c "enabled" (VBool true)) as [enabled|]; [|done].
  destruct (negb (truthy enabled)); [apply IH|].
  destruct (value_item c "url") as [url|]; [|done].
  destruct (value_get c "token" _) as [token|]; [|done].
  destruct (value_get c "output" _) as [output|]; [|done].
  intros H Hk. apply (IH _ _ H). by apply dict_set_keys.
Qed.

Lemma load_plugins_broken plugins rl po n c :
  (n, c) ∈ plugins -> broken_plugin_entry c -> exists e, load_plugins plugins rl po = Raise e.
Proof.
  intros Hin Hc. revert rl po.
  induction plugins as [|[n0 c0] plugins IH]; intros rl po; [by apply elem_of_nil in Hin|].
  cbn [load_plugins]. apply elem_of_cons in Hin as [[= <- <-]|Hin].
  - destruct Hc as [Hc|(d & -> & He & Hu)].
    + destruct c; try (by eexists). by destruct (Hc d).
    + cbn [value_get value_item bind]. rewrite He, Hu. cbn [negb bind]. by eexists.
  - unfold bind. destruct (value_get c0 "enabled" (VBool true)) as [enabled|]; [|by eexists].
    destruct (negb (truthy enabled)); [by apply IH|].
    destruct (value_item c0 "url") as [url|]; [|by eexists].
    destruct (value_get c0 "token" _) as [token|]; [|by eexists].
    destruct (value_get c0 "output" _) as [output|]; [|by eexists].
    by apply IH.
Qed.

Lemma load_plugins_good plugins rl po :
  (forall n c, (n, c) ∈ plugins -> ~ broken_plugin_entry c) ->
  exists r, load_plugins plugins rl po = Ok r.
Proof.
  revert rl po. induction plugins as [|[n c] plugins IH]; intros rl po Hgood;
    cbn [load_plugins]; [by eexists|].
  assert (forall n' c', (n', c') ∈ plugins -> ~ broken_plugin_entry c') as Hrest.
  { intros n' c' Hin'. apply (Hgood n' c'). by right. }
  destruct c as [| | | | |dc];
    try (exfalso; apply (Hgood n _ (list_elem_of_here _ _)); left; by intros ?).
  cbn [value_get value_item bind].
  destruct (truthy (default (VBool true) (assoc_get "enabled" dc))) eqn:He; cbn [negb].
  - destruct (assoc_get "url" dc) as [url|] eqn:Hu; cbn [bind]; [by apply IH|].
    exfalso. apply (Hgood n _ (list_elem_of_here _ _)). right. by exists dc.
  - by apply IH.
Qed.

Lemma load_plugins_lookup plugins rl po rl' po' n :
  load_plugins plugins rl po = Ok (rl', po') ->
  NoDup plugins.*1 ->
  (n ∉ plugins.*1 -> assoc_get n rl' = assoc_get n rl /\ assoc_get n po' = assoc_get n po) /\
  (forall c, (n, c) ∈ plugins ->
     exists d, c = VDict d /\
       if truthy (default (VBool true) (assoc_get "enabled" d))
       then exists url,
              assoc_get "url" d = Some url /\
              assoc_get n rl'
              = Some (url, default (VStr "GITHUB_TOKEN") (assoc_get "token" d)) /\
              assoc_get n po' = Some (default (VStr "default") (assoc_get "output" d))
       else assoc_get n rl' = assoc_get n rl /\ assoc_get n po' = assoc_get n po).
Proof.
  revert rl po. induction plugins as [|[n0 c0] plugins IH]; intros rl po; cbn [load_plugins].
  { intros [= <- <-] _. split; [done|]. by intros c ?%elem_of_nil. }
  cbn [fmap list_fmap fst]. intros H [Hn0 Hnd]%NoDup_cons.
  destruct c0 as [| | | | |d0]; try done. cbn [value_get value_item bind] in H.
  destruct (truthy (default (VBool true) (assoc_get "enabled" d0))) eqn:He; cbn [negb] in H.
  - destruct (assoc_get "url" d0) as [url|] eqn:Hu; [|done]. cbn [bind] in H.
    destruct (IH _ _ H Hnd) as [IH1 IH2]. split.
    + intros [Hne Hnin]%not_elem_of_cons. destruct (IH1 Hnin) as [-> ->].
      by rewrite !dict_set_other.
    + intros c [[= -> ->]|Hin]%elem_of_cons.
      * exists d0. split; [done|]. rewrite He. exists url. split; [done|].
        destruct (IH1 Hn0) as [-> ->]. by rewrite !dict_set_same.
      * destruct (IH2 c Hin) as (d & -> & Hd). exists d. split; [done|].
        destruct (truthy (default (VBool true) (assoc_get "enabled" d))); [done|].
        destruct Hd as [-> ->].
        assert (n0 <> n) as Hne.
        { intros ->. apply Hn0, list_elem_of_fmap. by exists (n, VDict d). }
        by rewrite !dict_set_other.
  - destruct (IH _ _ H Hnd) as [IH1 IH2]. split.
    + intros [Hne Hnin]%not_elem_of_cons. by apply IH1.
    + intros c [[= -> ->]|Hin]%elem_of_cons; [|by apply IH2].
      exists d0. split; [done|]. rewrite He. by apply IH1.
Qed.

Lemma output_files_fold (W : World) (outputs : list (string * value))
    (acc : list (string * string)) :
  NoDup (acc.*1 ++ outputs.*1) ->
  foldl (fun acc out => dict_set acc (fst out) ("./" +:+ str_of W (snd out))) acc outputs
  = acc ++ ((fun out => (fst out, "./" +:+ str_of W (snd out))) <$> outputs).
Proof.
  revert acc. induction outputs as [|[k v] outputs IH]; intros acc Hnd; cbn [foldl].
  { by rewrite app_nil_r. }
  cbn [fmap list_fmap fst snd] in *.
  apply NoDup_app in Hnd as (Hacc & Hdis & Hout).
  rewrite dict_set_fresh by (intros Hk; apply (Hdis k Hk); left).
  rewrite IH.
  - by rewrite <- app_assoc.
  - rewrite fmap_app. cbn [fmap list_fmap fst]. rewrite <- app_assoc. cbn [app].
    apply NoDup_app. split_and!; [done| |done].
    intros x Hx Hin. apply (Hdis x Hx). done.
Qed.

(** X21.  What [_load_plugin_sources] returns.  The output files are never
    empty, and [repository_list] and [plugin_outputs] have the same keys in
    the same order.  For sources that are an object whose ["outputs"] and
    ["plugins"] are objects with distinct keys: if some entry of ["plugins"]
    is no object, or is enabled without ["url"], everything is discarded and
    the defaults are returned, the configured outputs included; otherwise
    the outputs are the configured ones under [./], or the default when none
    is configured, a disabled plugin is in neither dictionary, and an
    enabled one is in both, with ["GITHUB_TOKEN"] and ["default"] for a
    missing token and output. *)
Theorem load_plugin_sources_result (W : World) (file : sources_file) :
  let loaded := _load_plugin_sources W file in
  sources_output_files loaded <> [] /\
  (sources_repository_list loaded).*1 = (sources_plugin_outputs loaded).*1 /\
  (forall d outputs plugins,
     file = SourcesJson (VDict d) ->
     default (VDict []) (assoc_get "outputs" d) = VDict outputs ->
     default (VDict []) (assoc_get "plugins" d) = VDict plugins ->
     NoDup outputs.*1 -> NoDup plugins.*1 ->
     ((exists n c, (n, c) ∈ plugins /\ broken_plugin_entry c) -> loaded = no_sources) /\
     ((forall n c, (n, c) ∈ plugins -> ~ broken_plugin_entry c) ->
      sources_output_files loaded =
        match outputs with
        | [] => default_output_files
        | _ => (fun out => (fst out, "./" +:+ str_of W (snd out))) <$> outputs
        end /\
      forall n c, (n, c) ∈ plugins ->
        exists dc, c = VDict dc /\
          if truthy (default (VBool true) (assoc_get "enabled" dc))
          then exists url,
                 assoc_get "url" dc = Some url /\
                 assoc_get n (sources_repository_list loaded)
                 = Some (url, default (VStr "GITHUB_TOKEN") (assoc_get "token" dc)) /\
                 assoc_get n (sources_plugin_outputs loaded)
                 = Some (default (VStr "default") (assoc_get "output" dc))
          else assoc_get n (sources_repository_list loaded) = None /\
               assoc_get n (sources_plugin_outputs loaded) = None)).
Proof.
  intros loaded. subst loaded. split_and!.
  - destruct file as [| |sources]; cbn [_load_plugin_sources]; try done.
    unfold load_sources, bind.
    destruct (value_get sources "outputs" _) as [o|]; [|done].
    destruct (value_items o) as [outs|]; [|done].
    destruct (value_get sources "plugins" _) as [p|]; [|done].
    destruct (value_items p) as [ps|]; [|done].
    destruct (load_plugins ps [] []) as [r|]; [|done].
    cbn [sources_output_files]. by destruct (foldl _ _ _).
  - destruct file as [| |sources]; cbn [_load_plugin_sources]; try done.
    unfold load_sources, bind.
    destruct (value_get sources "outputs" _) as [o|]; [|done].
    destruct (value_items o) as [outs|]; [|done].
    destruct (value_get sources "plugins" _) as [p|]; [|done].
    destruct (value_items p) as [ps|]; [|done].
    destruct (load_plugins ps [] []) as [[rl po]|] eqn:E; [|done].
    cbn [sources_repository_list sources_plugin_outputs fst snd].
    by apply (load_plugins_keys ps [] []).
  - intros d outputs plugins -> Ho Hp Hndo Hndp.
    cbn [_load_plugin_sources]. unfold load_sources.
    cbn [value_get bind]. rewrite Ho, Hp. cbn [value_items bind].
    split.
    + intros (n & c & Hin & Hc).
      by destruct (load_plugins_broken plugins [] [] n c Hin Hc) as [e ->].
    + intros Hgood.
      destruct (load_plugins plugins [] []) as [[rl po]|e] eqn:E; cbn [bind].
      * cbn [sources_output_files sources_repository_list sources_plugin_outputs fst snd].
        split.
        { rewrite (output_files_fold W outputs []) by done. cbn [app].
          by destruct outputs. }
        intros n c Hin.
        destruct (load_plugins_lookup plugins [] [] rl po n E Hndp) as [_ Hl].
        destruct (Hl c Hin) as (dc & -> & Hdc). exists dc. split; [done|].
        by destruct (truthy (default (VBool true) (assoc_get "enabled" dc))).
      * destruct (load_plugins_good plugins [] [] Hgood) as [r Hr]. congruence.
Qed.

Lemma load_plugin_sources_result_witness :
  _load_plugin_sources plain_world (SourcesJson sources_without_url) = no_sources.
Proof.
  refine (proj1 (proj2 (proj2 (load_plugin_sources_result plain_world
                                 (SourcesJson sources_without_url)))
                   _ _ _ eq_refl eq_refl eq_refl _ _) _).
  - vm_compute. repeat constructor; intros H; absent H.
  - vm_compute. repeat constructor; intros H; absent H.
  - exists "First", (VDict [("output", VStr "A")]). split; [listed|].
    right. eexists. by split_and!.
Defined.

(** ** The download counts of the previous run *)

Lemma py_eq_hashable_euclid (a b c : value) :
  hashable a = true -> hashable b = true -> hashable c = true ->
  py_eq a b = true -> py_eq a c = true -> py_eq b c = true.
Proof.
  destruct a as [|x|x|x| |], b as [|y|y|y| |], c as [|z|z|z| |]; cbn [hashable py_eq];
    try done; intros _ _ _;
    repeat match goal with
           | b : bool |- _ => destruct b
           end; cbn [Bool.eqb];
    rewrite ?Z.eqb_eq, ?String.eqb_eq; try done; try lia; congruence.
Qed.

Lemma vdict_get_set_same (d : list (value * value)) k v :
  hashable k = true -> vdict_get (vdict_set d k v) k = Some v.
Proof.
  intros Hk. induction d as [|[k0 v0] d IH]; cbn [vdict_set vdict_get].
  { by rewrite py_eq_refl_hashable. }
  destruct (py_eq k0 k) eqn:E; cbn [vdict_get]; by rewrite E.
Qed.

Lemma vdict_get_set_kept (d : list (value * value)) k v k' :
  is_Some (vdict_get d k') -> is_Some (vdict_get (vdict_set d k v) k').
Proof.
  induction d as [|[k0 v0] d IH]; cbn [vdict_set vdict_get]; [by intros []|].
  destruct (py_eq k0 k) eqn:E; cbn [vdict_get]; by destruct (py_eq k0 k').
Qed.

Lemma vdict_get_set_cases (d : list (value * value)) k v k' x :
  Forall (fun kv => hashable (fst kv) = true) d ->
  hashable k = true -> hashable k' = true ->
  vdict_get (vdict_set d k v) k' = Some x ->
  (py_eq k k' = true /\ x = v) \/ vdict_get d k' = Some x.
Proof.
  intros Hd Hk Hk'. induction Hd as [|[k0 v0] d Hk0 _ IH]; cbn [vdict_set vdict_get].
  { destruct (py_eq k k'); [|done]. intros [= <-]. by left. }
  cbn [fst] in Hk0.
  destruct (py_eq k0 k) eqn:E; cbn [vdict_get].
  - destruct (py_eq k0 k') eqn:E'; [|by right].
    intros [= <-]. left. split; [|done]. by apply (py_eq_hashable_euclid k0).
  - destruct (py_eq k0 k'); [by right|apply IH].
Qed.

Lemma vdict_set_keys_hashable (d : list (value * value)) k v :
  Forall (fun kv => hashable (fst kv) = true) d -> hashable k = true ->
  Forall (fun kv => hashable (fst kv) = true) (vdict_set d k v).
Proof.
  intros Hd Hk. induction Hd as [|[k0 v0] d Hk0 Hd IH]; cbn [vdict_set].
  { by repeat constructor. }
  destruct (py_eq k0 k); by constructor.
Qed.

Section counts.
Context (ms : list manifest).
Let id (m : manifest) : value := get m "InternalName".
Let count (m : manifest) : value := get_or m "DownloadCount" (VInt 0).
Hypothesis keyed : Forall (fun m => truthy (id m) = true /\ hashable (id m) = true) ms.
Hypothesis agree :
  forall m1 m2, m1 ∈ ms -> m2 ∈ ms -> py_eq (id m1) (id m2) = true -> count m1 = count m2.

(** The cache holds counts of [ms] only. *)
Let sound (cache : list (value * value)) : Prop :=
  Forall (fun kv => hashable (fst kv) = true) cache /\
  forall m v, m ∈ ms -> vdict_get cache (id m) = Some v -> v = count m.

Lemma load_counts_records (l : list manifest) (cache : list (value * value)) :
  (forall m, m ∈ l -> m ∈ ms) -> sound cache ->
  let cache' :=
    load_counts (fun m k dflt => Ok (get_or m k dflt)) (delete "_output_name" <$> l) cache in
  sound cache' /\
  (forall k, is_Some (vdict_get cache k) -> is_Some (vdict_get cache' k)) /\
  (forall m, m ∈ l -> is_Some (vdict_get cache' (id m))).
Proof.
  revert cache. induction l as [|m0 l IH]; intros cache Hl Hs; cbn zeta.
  { split_and!; [done|done|]. by intros m ?%elem_of_nil. }
  assert (m0 ∈ ms) as Hm0 by (apply Hl; left).
  assert (truthy (id m0) = true /\ hashable (id m0) = true) as [Ht Hh].
  { rewrite Forall_forall in keyed. by apply keyed. }
  cbn [fmap list_fmap load_counts bind].
  assert (get_or (delete "_output_name" m0) "InternalName" VNone = id m0) as ->.
  { unfold id, get, get_or. by rewrite lookup_delete_ne. }
  assert (get_or (delete "_output_name" m0) "DownloadCount" (VInt 0) = count m0) as ->.
  { unfold count, get_or. by rewrite lookup_delete_ne. }
  rewrite Ht, Hh.
  assert (sound (vdict_set cache (id m0) (count m0))) as Hs1.
  { destruct Hs as [Hkeys Hval]. split; [by apply vdict_set_keys_hashable|].
    intros m v Hm Hv.
    assert (hashable (id m) = true) as Hhm.
    { rewrite Forall_forall in keyed. by apply keyed. }
    apply vdict_get_set_cases in Hv as [[He ->]|Hv]; try done.
    - by apply agree.
    - by apply Hval. }
  destruct (IH (vdict_set cache (id m0) (count m0))) as (IH1 & IH2 & IH3);
    [intros m Hm; apply Hl; by right|done|].
  split_and!; [done| |].
  - intros k Hk. apply IH2. by apply vdict_get_set_kept.
  - intros m [->|Hm]%elem_of_cons; [|by apply IH3].
    apply IH2. rewrite vdict_get_set_same by done. by eexists.
Qed.

Lemma load_existing_counts_written (cfg : Config) (W : World)
    (parse : string -> option value) (fs fs' : gmap string file)
    (outs : list (string * string)) (cache : list (value * value)) :
  NoDup ((fun out => resolve W (snd out)) <$> output_files cfg) ->
  _write_plugin_master cfg W ms true fs = Ok fs' ->
  (forall out, out ∈ outs -> out ∈ output_files cfg) ->
  sound cache ->
  let cache' :=
    foldl (fun cache out =>
             match fs' !! resolve W (snd out) with
             | Some f => load_file_counts parse f cache
             | None => cache
             end) cache outs in
  sound cache' /\
  (forall k, is_Some (vdict_get cache k) -> is_Some (vdict_get cache' k)) /\
  (forall name path m, (name, path) ∈ outs -> m ∈ List.filter (routed_to cfg name) ms ->
     is_Some (vdict_get cache' (id m))).
Proof.
  intros Hnd Hw. revert cache.
  induction outs as [|[name path] outs IH]; intros cache Houts Hs; cbn zeta.
  { split_and!; [done|done|]. by intros ? ? ? ?%elem_of_nil. }
  cbn [foldl snd].
  rewrite (write_plugin_master_file cfg W ms true fs fs' name path Hnd Hw)
    by (apply Houts; left).
  set (l := List.filter (routed_to cfg name) ms).
  assert (forall m, m ∈ l -> m ∈ ms) as Hl.
  { intros m Hm. apply list_elem_of_In, filter_In in Hm as [Hm _].
    by apply list_elem_of_In. }
  destruct (load_counts_records l cache Hl Hs) as (L1 & L2 & L3).
  destruct (bool_decide (l = []) && negb (String.eqb name "default")) eqn:Hskip.
  - destruct (IH cache) as (IH1 & IH2 & IH3); [intros out Ho; apply Houts; by right|done|].
    split_and!; [done|done|].
    intros n q m [[= -> ->]|Hin]%elem_of_cons Hm; [|by apply (IH3 n q)].
    apply andb_true_iff in Hskip as [Hnil%bool_decide_eq_true _].
    fold l in Hm. rewrite Hnil in Hm. by apply elem_of_nil in Hm.
  - cbn [load_file_counts].
    destruct (IH (load_counts (fun m k dflt => Ok (get_or m k dflt))
                    (delete "_output_name" <$> l) cache)) as (IH1 & IH2 & IH3);
      [intros out Ho; apply Houts; by right|done|].
    split_and!; [done| |].
    + intros k Hk. by apply IH2, L2.
    + intros n q m [[= -> ->]|Hin]%elem_of_cons Hm; [|by apply (IH3 n q)].
      by apply IH2, L3.
Qed.

End counts.

(** X22.  The download counts survive a run.  When a default destination is
    configured, the paths resolve to different files, the identifiers of the
    manifests are truthy and hashable and manifests with equal identifiers
    have equal counts, then after the final [_write_plugin_master] a fresh
    [_load_existing_download_counts] finds for every manifest the count that
    was written for it, 0 when it had none. *)
Theorem download_counts_survive (cfg : Config) (W : World)
    (parse : string -> option value) (ms : list manifest) (fs fs' : gmap string file) :
  "default" ∈ (output_files cfg).*1 ->
  NoDup ((fun out => resolve W (snd out)) <$> output_files cfg) ->
  Forall (fun m => truthy (get m "InternalName") = true /\
                   hashable (get m "InternalName") = true) ms ->
  (forall m1 m2, m1 ∈ ms -> m2 ∈ ms ->
     py_eq (get m1 "InternalName") (get m2 "InternalName") = true ->
     get_or m1 "DownloadCount" (VInt 0) = get_or m2 "DownloadCount" (VInt 0)) ->
  _write_plugin_master cfg W ms true fs = Ok fs' ->
  forall m, m ∈ ms ->
    vdict_get (_load_existing_download_counts cfg W parse fs' []) (get m "InternalName")
    = Some (get_or m "DownloadCount" (VInt 0)).
Proof.
  intros Hdef Hnd Hkeyed Hagree Hw m Hm.
  destruct (load_existing_counts_written ms Hkeyed Hagree cfg W parse fs fs'
              (output_files cfg) [] Hnd Hw) as ([_ Hsound] & _ & Hloaded).
  { done. }
  { split; [constructor|]. by intros ? ? _ [=]. }
  destruct (routed_to_configured cfg W ms true fs fs' m Hdef Hw Hm)
    as (name & path & _ & Hin & Hmem).
  destruct (Hloaded name path m Hin Hmem) as [v Hv].
  unfold _load_existing_download_counts. rewrite Hv. f_equal. by apply Hsound.
Qed.

Lemma download_counts_survive_witness :
  vdict_get
    (_load_existing_download_counts default_and_b_cfg (sample_world None) (fun _ => None)
       (<["/work/b.json" := Catalog [delete "_output_name" routed_to_b]]>
          (<["/work/pluginmaster.json" := Catalog [delete "_output_name" routed_to_a]]>
             (delete "/work/a.json" (delete "/work/c.json" (delete "/work/notes.json"
                fs_with_stale))))) [])
    (get routed_to_a "InternalName")
  = Some (get_or routed_to_a "DownloadCount" (VInt 0)).
Proof.
  refine (download_counts_survive default_and_b_cfg (sample_world None) (fun _ => None)
            [routed_to_a; routed_to_b] fs_with_stale _ _ _ _ _ _ routed_to_a _).
  - listed.
  - vm_compute. repeat constructor; intros H; absent H.
  - by repeat constructor.
  - intros m1 m2 H1 H2. members H1; members H2; try done; intros H; discriminate H.
  - evaluated.
  - listed.
Defined.

Lemma load_counts_stops {A : Type} (get_field : A -> string -> value -> result value)
    (before after : list A) (bad : A) (cache : list (value * value)) :
  (forall c, (plugin_name <- get_field bad "InternalName" VNone;;
              download_count <- get_field bad "DownloadCount" (VInt 0);;
              if truthy plugin_name then
                if hashable plugin_name
                then Ok (vdict_set c plugin_name download_count)
                else Raise TypeError
              else Ok c) = Raise TypeError \/
             get_field bad "InternalName" VNone = Raise AttributeError) ->
  load_counts get_field (before ++ bad :: after) cache = load_counts get_field before cache.
Proof.
  intros Hbad. revert cache. induction before as [|x before IH]; intros cache.
  - cbn [app load_counts]. destruct (Hbad cache) as [-> | ->]; done.
  - cbn [app load_counts]. destruct (_ <- _;; _) as [cache'|]; [apply IH|done].
Qed.

(** X23.  An entry that cannot be read ends the loading of its file.  In a
    catalog, a record whose identifier is truthy but cannot be hashed, and in
    any other file a listed value that is no object, stops the loop: the
    entries after it are ignored, also the well-formed ones, and the counts
    that the entries before it stored stay in the cache. *)
Theorem load_file_counts_stops_at_bad_entry (parse : string -> option value)
    (cache : list (value * value)) :
  (forall (before after : list manifest) (bad : manifest),
     truthy (get bad "InternalName") = true -> hashable (get bad "InternalName") = false ->
     load_file_counts parse (Catalog (before ++ bad :: after)) cache
     = load_file_counts parse (Catalog before) cache) /\
  (forall text (before after : list value) (bad : value),
     parse text = Some (VList (before ++ bad :: after)) ->
     (forall d, bad <> VDict d) ->
     load_file_counts parse (OtherFile text) cache
     = load_counts value_get before cache).
Proof.
  split.
  - intros before after bad Ht Hh. cbn [load_file_counts].
    apply load_counts_stops. intros c. left. cbn [bind].
    fold (get bad "InternalName"). by rewrite Ht, Hh.
  - intros text before after bad Hp Hbad. cbn [load_file_counts]. rewrite Hp.
    cbn [iterate]. apply load_counts_stops. intros c. right.
    destruct bad; try done. by destruct (Hbad d).
Qed.

Lemma load_file_counts_stops_at_bad_entry_witness :
  load_file_counts (fun _ => None) catalog_with_bad_record []
  = load_file_counts (fun _ => None) (Catalog [routed_to_a]) [].
Proof.
  refine (proj1 (load_file_counts_stops_at_bad_entry (fun _ => None) [])
            [routed_to_a] [routed_to_b]
            {[ "InternalName" := VList [VStr "x"]; "DownloadCount" := VInt 9 ]} _ _).
  - reflexivity.
  - reflexivity.
Defined.

(** ** Repository paths *)

Lemma split1_join (s : string) (c : ascii) (h t : string) :
  PyStr.split1 s c = Some (h, t) ->
  s = h +:+ String c t /\ has_char c h = false.
Proof.
  revert h. induction s as [|a s IH]; intros h; cbn [PyStr.split1]; [done|].
  destruct (Ascii.eqb a c) eqn:E.
  - intros [= <- <-]. apply Ascii.eqb_eq in E as ->. by split.
  - destruct (PyStr.split1 s c) as [[h' t']|]; [|done].
    intros [= <- <-]. destruct (IH h' eq_refl) as [-> Hh].
    split; [done|]. cbn [has_char]. by rewrite E, Hh.
Qed.

Lemma split1_none (s : string) (c : ascii) :
  PyStr.split1 s c = None <-> has_char c s = false.
Proof.
  induction s as [|a s IH]; cbn [PyStr.split1 has_char]; [done|].
  destruct (Ascii.eqb a c); [done|]. cbn [orb]. rewrite <- IH.
  by destruct (PyStr.split1 s c) as [[]|].
Qed.

Lemma rstrip_no_tail (s : string) (c : ascii) (h : string) :
  PyStr.rstrip s c <> h +:+ String c "".
Proof.
  revert h. induction s as [|a s IH]; intros h; cbn [PyStr.rstrip].
  { by destruct h. }
  destruct (PyStr.rstrip s c) as [|b r] eqn:Er.
  - destruct (Ascii.eqb a c) eqn:E; [by destruct h|].
    destruct h as [|x h]; cbn.
    + intros [= ->]. by rewrite Ascii.eqb_refl in E.
    + intros [= _ Hh]. by destruct h.
  - destruct h as [|x h]; [done|]. rewrite app_cons_string. intros [= _ Hh].
    by apply (IH h).
Qed.

(** X24.  [_parse_github_url] splits the repository path at its first
    slash.  The two parts joined by a slash are the URL without the prefix
    [https://github.com/] and without trailing slashes; the owner holds no
    slash; the repository name is not empty and does not end in a slash.
    There is no result exactly when the URL is no string or the path holds no
    slash. *)
Theorem parse_github_url_joins (url : value) :
  (forall owner rep, _parse_github_url url = Some (owner, rep) ->
     exists s, url = VStr s /\
       owner +:+ "/" +:+ rep = PyStr.rstrip (PyStr.replace s "https://github.com/" "") "/" /\
       has_char "/" owner = false /\ rep <> "" /\ (forall t, rep <> t +:+ "/")) /\
  (_parse_github_url url = None <->
     forall s, url = VStr s ->
       has_char "/" (PyStr.rstrip (PyStr.replace s "https://github.com/" "") "/") = false).
Proof.
  split.
  - intros owner rep H. destruct url as [| | |s| |]; try done. cbn [_parse_github_url] in H.
    exists s. split; [done|].
    apply split1_join in H as [Hs Hh].
    assert (forall t, rep <> t +:+ "/") as Hno.
    { intros t ->.
      apply (rstrip_no_tail (PyStr.replace s "https://github.com/" "") "/"
               (owner +:+ "/" +:+ t)).
      rewrite Hs. change (String "/" (t +:+ "/")) with ("/" +:+ (t +:+ "/")).
      by rewrite !app_assoc_string. }
    split_and!; [by rewrite Hs|done| |done].
    intros ->. by apply (rstrip_no_tail _ _ _ Hs).
  - destruct url as [| | |s| |]; cbn [_parse_github_url];
      try (split; [by intros _ ? [=]|done]).
    rewrite split1_none. split; [by intros H ? [= <-]|intros H; by apply H].
Qed.

Lemma parse_github_url_joins_witness :
  exists s, VStr "https://github.com/o/r/" = VStr s /\
    "o" +:+ "/" +:+ "r" = PyStr.rstrip (PyStr.replace s "https://github.com/" "") "/" /\
    has_char "/" "o" = false /\ "r" <> "" /\ (forall t, "r" <> t +:+ "/").
Proof.
  refine (proj1 (parse_github_url_joins (VStr "https://github.com/o/r/")) "o" "r" _).
  reflexivity.
Defined.

Lemma first_match_some (p : manifest -> result bool) (assets : list manifest) a :
  first_match p assets = Ok (Some a) -> a ∈ assets /\ p a = Ok true.
Proof.
  induction assets as [|x assets IH]; cbn [first_match]; [done|].
  unfold bind. destruct (p x) as [[]|] eqn:E; [|by intros [? ?]%IH; split; [right|]|done].
  intros [= <-]. split; [left|done].
Qed.

Lemma preferred_asset_name_sound (plugin_name : string) (assets : list manifest) v :
  preferred_asset_name plugin_name assets = Ok (Some v) ->
  exists a name, a ∈ assets /\ asset_name a = VStr name /\ v = VStr name /\
    PyStr.endswith name ".zip" = true.
Proof.
  unfold preferred_asset_name, bind. cbv zeta.
  assert (forall (p : manifest -> result bool) a,
            first_match p assets = Ok (Some a) ->
            (forall x, p x = Ok true ->
               exists n, get_or x "name" (VStr "") = VStr n /\
                 PyStr.endswith n ".zip" = true) ->
            exists a' name, a' ∈ assets /\ asset_name a' = VStr name /\
              get_or a "name" (VStr "") = VStr name /\
              PyStr.endswith name ".zip" = true) as Hfound.
  { intros p a [Hin Hp]%first_match_some Hz.
    destruct (Hz a Hp) as (n & Hn & Hzip). by exists a, n. }
  destruct (first_match _ assets) as [[a|]|] eqn:E1; [| |done].
  { intros [= <-]. apply Hfound in E1 as (a' & name & ? & ? & -> & ?);
      [by exists a', name|].
    intros x [= Hx%py_eq_str_iff]. rewrite Hx. by exists "latest.zip". }
  match goal with
  | |- context [first_match ?p assets] =>
      destruct (first_match p assets) as [[a|]|] eqn:E2; [| |done]
  end.
  { intros [= <-]. apply Hfound in E2 as (a' & name & ? & ? & -> & ?);
      [by exists a', name|].
    intros x. destruct (get_or x "name" (VStr "")) as [| | |n| |]; try done.
    cbn [str_method]. destruct (PyStr.endswith n ".zip") eqn:Hz; [|done].
    intros _. by exists n. }
  match goal with
  | |- context [first_match ?p assets] =>
      destruct (first_match p assets) as [[a|]|] eqn:E3; [| |done]
  end.
  { intros [= <-]. apply Hfound in E3 as (a' & name & ? & ? & -> & ?);
      [by exists a', name|].
    intros x [= Hx%py_eq_str_iff]. rewrite Hx. exists (plugin_name +:+ ".zip").
    split; [done|]. by apply endswith_app. }
  match goal with
  | |- context [first_match ?p assets] =>
      destruct (first_match p assets) as [[a|]|] eqn:E4; [|done|done]
  end.
  intros [= <-]. apply Hfound in E4 as (a' & name & ? & ? & -> & ?);
    [by exists a', name|].
  intros x. destruct (get_or x "name" (VStr "")) as [| | |n| |]; try done.
  cbn [str_method]. intros [= Hz]. by exists n.
Qed.

(** X25.  What [_get_repo_download_url] returns.  A result needs a [RepoUrl]
    that is a string with [github.com] in it and a slash in its repository
    path, an [InternalName], and a latest release; it is the latest-release
    download URL of that owner and repository and of the name of an asset of
    that release that ends in [.zip]. *)
Theorem repo_download_url_sound (W : World) (m : manifest) (url : string) :
  _get_repo_download_url W m = Some url ->
  exists repo_url owner rep assets a name,
    get_or m "RepoUrl" (VStr "") = VStr repo_url /\
    PyStr.contains repo_url "github.com" = true /\
    _parse_github_url (VStr repo_url) = Some (owner, rep) /\
    latest_release_assets W owner rep = Some assets /\
    is_Some (m !! "InternalName") /\
    a ∈ assets /\ asset_name a = VStr name /\ PyStr.endswith name ".zip" = true /\
    url = "https://github.com/" +:+ owner +:+ "/" +:+ rep +:+
          "/releases/latest/download/" +:+ name.
Proof.
  unfold _get_repo_download_url. intros H.
  destruct (get_or m "RepoUrl" (VStr "")) as [| | |repo_url| |] eqn:Hr; try done.
  destruct (negb (truthy (VStr repo_url)) || negb (PyStr.contains repo_url "github.com"))
    eqn:Ht; [done|].
  apply orb_false_elim in Ht as [_ Hc%negb_false_iff].
  destruct (PyStr.split1 _ "/") as [[owner rep]|] eqn:Hs; [|done].
  destruct (latest_release_assets W owner rep) as [assets|] eqn:Ha; [|done].
  destruct (m !! "InternalName") as [pn|] eqn:Hpn; [|done].
  destruct (preferred_asset_name (str_of W pn) assets) as [[v|]|] eqn:Hp; try done.
  injection H as <-.
  apply preferred_asset_name_sound in Hp as (a & name & Hin & Hn & -> & Hz).
  exists repo_url, owner, rep, assets, a, name. by split_and!.
Qed.

Lemma repo_download_url_sound_witness :
  exists repo_url owner rep assets a name,
    get_or repository_manifest "RepoUrl" (VStr "") = VStr repo_url /\
    PyStr.contains repo_url "github.com" = true /\
    _parse_github_url (VStr repo_url) = Some (owner, rep) /\
    latest_release_assets (sample_world (Some assets_exact_and_versioned)) owner rep
    = Some assets /\
    is_Some (repository_manifest !! "InternalName") /\
    a ∈ assets /\ asset_name a = VStr name /\ PyStr.endswith name ".zip" = true /\
    "https://github.com/o/r/releases/latest/download/P-1.0.zip"
    = "https://github.com/" +:+ owner +:+ "/" +:+ rep +:+
      "/releases/latest/download/" +:+ name.
Proof.
  refine (repo_download_url_sound (sample_world (Some assets_exact_and_versioned))
            repository_manifest
            "https://github.com/o/r/releases/latest/download/P-1.0.zip" _).
  evaluated.
Defined.

(** ** SourceAggregator: the repository pass *)




(** ** RepositoryPluginProcessor: manifests from releases *)

Lemma get_manifest_from_repository_inv (R : Releases) (G : GitHub) (plugin_name : string)
    (repo_url token_name : value) (m : manifest) :
  _get_manifest_from_repository R G plugin_name repo_url token_name = Some m ->
  exists owner rep token release_data assets asset_url d,
    _parse_github_url repo_url = Some (owner, rep) /\
    str_dict_get_token R token_name = Ok token /\
    latest_release R owner rep token = Some release_data /\
    release_assets release_data = Ok assets /\
    _find_plugin_asset assets plugin_name = Ok asset_url /\
    truthy asset_url = true /\
    _extract_manifest_from_url R asset_url plugin_name token = Some (VDict d) /\
    d <> [] /\
    m = repository_fields repo_url asset_url token_name
          (release_timestamp R (default VNone
             match release_data with
             | VDict rd => assoc_get "published_at" rd
             | _ => None
             end))
          (_get_testing_release_info G owner rep plugin_name token)
          (list_to_map d).
Proof.
  unfold _get_manifest_from_repository. intros H.
  destruct repo_url as [| | |url| |]; try done. cbn [_parse_github_url].
  destruct (PyStr.split1 _ "/") as [[owner rep]|]; [|done].
  destruct (str_dict_get_token R token_name) as [token|] eqn:Et; [|done].
  destruct (latest_release R owner rep token) as [release_data|] eqn:Er; [|done].
  unfold bind in H.
  destruct (value_get release_data "published_at" VNone) as [release_date|] eqn:Ed;
    [|done].
  destruct (release_assets release_data) as [assets|] eqn:Ea; [|done].
  destruct (_find_plugin_asset assets plugin_name) as [asset_url|] eqn:Ef; [|done].
  destruct (truthy asset_url) eqn:Ht; [|done]. cbn [negb] in H.
  destruct (_extract_manifest_from_url R asset_url plugin_name token)
    as [[| | | | |[|item items]]|] eqn:Ex; try done.
  injection H as <-.
  exists owner, rep, token, release_data, assets, asset_url, (item :: items).
  split_and!; try done.
  destruct release_data; try done. by injection Ed as <-.
Qed.

Lemma repository_fields_lookup repo_url asset_url token_name timestamp testing_info
    (m0 : manifest) :
  let m := repository_fields repo_url asset_url token_name timestamp testing_info m0 in
  m !! "RepoUrl" = Some repo_url /\
  m !! "_repository_source" = Some (VBool true) /\
  m !! "_repository_asset_url" = Some asset_url /\
  m !! "_repository_token_name" = Some token_name /\
  (forall version download_url, testing_info = Some (version, download_url) ->
     m !! "TestingAssemblyVersion" = Some (VStr version) /\
     m !! "_testing_download_url" = Some (VStr download_url)) /\
  (testing_info = None ->
     m !! "TestingAssemblyVersion" = m0 !! "TestingAssemblyVersion" /\
     m !! "_testing_download_url" = m0 !! "_testing_download_url") /\
  (forall t, timestamp = Some t -> t <> "" -> m !! "LastUpdate" = Some (VStr t)) /\
  (timestamp = None -> m !! "LastUpdate" = m0 !! "LastUpdate") /\
  (forall k, k ∉ ["RepoUrl"; "_repository_source"; "_repository_asset_url";
                  "_repository_token_name"; "LastUpdate"; "TestingAssemblyVersion";
                  "_testing_download_url"] -> m !! k = m0 !! k).
Proof.
  intros m. subst m. unfold repository_fields.
  assert (forall k, k <> "LastUpdate" ->
            (match timestamp with
             | Some t =>
                 if truthy (VStr t)
                 then <["LastUpdate" := VStr t]>
                        (<["_repository_token_name" := token_name]>
                           (<["_repository_asset_url" := asset_url]>
                              (<["_repository_source" := VBool true]>
                                 (<["RepoUrl" := repo_url]> m0))))
                 else <["_repository_token_name" := token_name]>
                        (<["_repository_asset_url" := asset_url]>
                           (<["_repository_source" := VBool true]>
                              (<["RepoUrl" := repo_url]> m0)))
             | None => <["_repository_token_name" := token_name]>
                         (<["_repository_asset_url" := asset_url]>
                            (<["_repository_source" := VBool true]>
                               (<["RepoUrl" := repo_url]> m0)))
             end : manifest) !! k
            = (<["_repository_token_name" := token_name]>
                 (<["_repository_asset_url" := asset_url]>
                    (<["_repository_source" := VBool true]>
                       (<["RepoUrl" := repo_url]> m0))) : manifest) !! k) as Hts.
  { intros k Hk. destruct timestamp as [t|]; [|done].
    destruct (truthy (VStr t)); [|done]. by rewrite lookup_insert_ne. }
  assert (forall (x : manifest) k, k <> "TestingAssemblyVersion" ->
            k <> "_testing_download_url" ->
            (match testing_info with
             | Some (version, download_url) =>
                 <["_testing_download_url" := VStr download_url]>
                   (<["TestingAssemblyVersion" := VStr version]> x)
             | None => x
             end : manifest) !! k = x !! k) as Hti.
  { intros x k H1 H2. destruct testing_info as [[v u]|]; [|done].
    by rewrite !lookup_insert_ne. }
  split_and!.
  - rewrite Hti, Hts by done. rewrite !lookup_insert_ne by done.
    by rewrite lookup_insert_eq.
  - rewrite Hti, Hts by done. rewrite !lookup_insert_ne by done.
    by rewrite lookup_insert_eq.
  - rewrite Hti, Hts by done. rewrite !lookup_insert_ne by done.
    by rewrite lookup_insert_eq.
  - rewrite Hti, Hts by done. by rewrite lookup_insert_eq.
  - intros v u ->. rewrite lookup_insert_ne by done. by rewrite !lookup_insert_eq.
  - intros ->. rewrite !Hts by done. by rewrite !lookup_insert_ne.
  - intros t -> Ht. rewrite Hti by done. cbn [truthy].
    rewrite (proj2 (String.eqb_neq t "")) by done. cbn [negb].
    by rewrite lookup_insert_eq.
  - intros ->. rewrite Hti by done. by rewrite !lookup_insert_ne.
  - intros k Hk.
    assert (k <> "RepoUrl" /\ k <> "_repository_source" /\ k <> "_repository_asset_url" /\
            k <> "_repository_token_name" /\ k <> "LastUpdate" /\
            k <> "TestingAssemblyVersion" /\ k <> "_testing_download_url")
      as (?&?&?&?&?&?&?).
    { split_and!; intros ->; apply Hk; listed. }
    rewrite Hti, Hts by done. by rewrite !lookup_insert_ne.
Qed.

(** X27.  What [_get_manifest_from_repository] returns.  A manifest comes
    from a repository URL with owner and repository, a latest release whose
    assets are objects, the asset that [_find_plugin_asset] chose, whose URL
    is truthy, and a non-empty manifest object in its archive.  The manifest
    records the URL of the repository, the URL of the asset and the token
    name, and is marked as repository source; a testing pre-release sets
    [TestingAssemblyVersion] and [_testing_download_url] together; the
    publication time of the release, when there is one, is its [LastUpdate];
    every other field is the one of the archive's manifest. *)
Theorem repository_manifest_provenance (R : Releases) (G : GitHub) (plugin_name : string)
    (repo_url token_name : value) (m : manifest) :
  _get_manifest_from_repository R G plugin_name repo_url token_name = Some m ->
  exists owner rep token release_data assets asset_url d,
    _parse_github_url repo_url = Some (owner, rep) /\
    latest_release R owner rep token = Some release_data /\
    release_assets release_data = Ok assets /\
    _find_plugin_asset assets plugin_name = Ok asset_url /\
    truthy asset_url = true /\
    _extract_manifest_from_url R asset_url plugin_name token = Some (VDict d) /\
    d <> [] /\
    m !! "RepoUrl" = Some repo_url /\
    m !! "_repository_source" = Some (VBool true) /\
    m !! "_repository_asset_url" = Some asset_url /\
    m !! "_repository_token_name" = Some token_name /\
    (forall version download_url,
       _get_testing_release_info G owner rep plugin_name token
       = Some (version, download_url) ->
       m !! "TestingAssemblyVersion" = Some (VStr version) /\
       m !! "_testing_download_url" = Some (VStr download_url)) /\
    (_get_testing_release_info G owner rep plugin_name token = None ->
       m !! "TestingAssemblyVersion"
       = (list_to_map d : manifest) !! "TestingAssemblyVersion" /\
       m !! "_testing_download_url"
       = (list_to_map d : manifest) !! "_testing_download_url") /\
    (forall rd s t, release_data = VDict rd ->
       assoc_get "published_at" rd = Some (VStr s) -> s <> "" ->
       published_timestamp R s = Some t -> t <> "" ->
       m !! "LastUpdate" = Some (VStr t)) /\
    (forall k, k ∉ ["RepoUrl"; "_repository_source"; "_repository_asset_url";
                    "_repository_token_name"; "LastUpdate"; "TestingAssemblyVersion";
                    "_testing_download_url"] ->
       m !! k = (list_to_map d : manifest) !! k).
Proof.
  intros (owner & rep & token & release_data & assets & asset_url & d &
          Hp & Ht & Hr & Ha & Hf & Hu & Hx & Hd & ->)%get_manifest_from_repository_inv.
  exists owner, rep, token, release_data, assets, asset_url, d.
  destruct (repository_fields_lookup repo_url asset_url token_name
              (release_timestamp R (default VNone
                 match release_data with
                 | VDict rd => assoc_get "published_at" rd
                 | _ => None
                 end))
              (_get_testing_release_info G owner rep plugin_name token)
              (list_to_map d)) as (F1 & F2 & F3 & F4 & F5 & F6 & F7 & F8 & F9).
  split_and!; try done.
  intros rd s t -> Hs Hne Hts Hnt. apply F7; [|done].
  rewrite Hs. cbn [default from_option id]. unfold release_timestamp. cbn [truthy].
  by rewrite (proj2 (String.eqb_neq s "")).
Qed.

Lemma repository_manifest_provenance_witness :
  released_with_testing !! "_repository_asset_url"
  = Some (VStr "https://api.github.com/repos/o/r/releases/assets/1") /\
  released_with_testing !! "_repository_source" = Some (VBool true).
Proof.
  destruct (repository_manifest_provenance plugin_release with_prerelease "P"
              (VStr "https://github.com/o/r") (VStr "GITHUB_TOKEN")
              released_with_testing)
    as (owner & rep & token & release_data & assets & asset_url & d &
        _ & _ & _ & _ & _ & _ & _ & _ & Hsource & _).
  - evaluated.
  - split; [reflexivity|exact Hsource].
Defined.

(** X28.  The manifests of [get_repository_plugins].  The function returns,
    in the order of the configuration, one manifest for every configured
    repository for which [_get_manifest_from_repository] finds one, tagged
    with the destination that [plugin_outputs] gives for the key of the
    configuration, or with ["default"]; the third loop of
    [_collect_manifests_with_priority] leaves these manifests as they are,
    whatever their [Name] and [InternalName] would be routed to. *)
Theorem repository_plugins_keep_their_destination (cfg : Config) (R : Releases)
    (G : GitHub) (repository_list : list (string * (value * value))) :
  let ms := get_repository_plugins cfg R G repository_list in
  tag_outputs cfg ms = Ok ms /\
  exists found,
    found `sublist_of` repository_list /\
    Forall2 (fun entry m =>
       exists m0,
         _get_manifest_from_repository R G (fst entry) (fst (snd entry)) (snd (snd entry))
         = Some m0 /\
         m = <["_output_name" :=
                 VStr (default "default" (plugin_outputs cfg !! fst entry))]> m0)
      found ms /\
    (forall entry, entry ∈ repository_list ->
       is_Some (_get_manifest_from_repository R G (fst entry) (fst (snd entry))
                  (snd (snd entry))) ->
       entry ∈ found).
Proof.
  cbn zeta. induction repository_list as [|[n [u t]] l (IHt & found & Hsub & Hall & Hin)];
    cbn [get_repository_plugins].
  { split; [done|]. exists []. split_and!; [done|constructor|by intros ? ?%elem_of_nil]. }
  destruct (_get_manifest_from_repository R G n u t) as [m0|] eqn:E.
  - split.
    + cbn [tag_outputs]. unfold tag_output, has_key.
      rewrite bool_decide_eq_true_2 by (rewrite lookup_insert_eq; by eexists).
      cbn [bind]. by rewrite IHt.
    + exists ((n, (u, t)) :: found). split_and!.
      * by apply sublist_skip.
      * constructor; [|done]. by exists m0.
      * intros entry [->|He]%elem_of_cons Hs; [left|right; by apply Hin].
  - split; [done|]. exists found. split_and!; [by apply sublist_cons|done|].
    intros entry [->|He]%elem_of_cons Hs; [|by apply Hin].
    cbn [fst snd] in Hs. rewrite E in Hs. by destruct Hs.
Qed.

(** X29.  The links of a repository manifest.  For a manifest that
    [_get_manifest_from_repository] returned and that [add_download_links]
    accepts, when no duplication rule fills the links: the install link is
    the one of the archive's manifest, or the latest-release download URL of
    the owner and repository of the configured URL, never a link to the local
    archives; and when the repository has a testing pre-release and the
    manifest is no global build, the testing link is the download URL of
    that pre-release, and [_testing_download_url] is gone. *)
Theorem repository_manifest_links (cfg : Config) (W : World) (R : Releases) (G : GitHub)
    (plugin_name : string) (repo_url token_name : value) (m m' : manifest) :
  _get_manifest_from_repository R G plugin_name repo_url token_name = Some m ->
  add_download_links cfg W m = Ok m' ->
  (forall s ts, (s, ts) ∈ field_duplicates cfg ->
     ("DownloadLinkInstall" ∉ ts) /\ ("DownloadLinkTesting" ∉ ts) /\
     ("_testing_download_url" ∉ ts)) ->
  exists owner rep token,
    _parse_github_url repo_url = Some (owner, rep) /\
    str_dict_get_token R token_name = Ok token /\
    (m' !! "DownloadLinkInstall" = m !! "DownloadLinkInstall" \/
     exists name,
       m' !! "DownloadLinkInstall" =
         Some (VStr ("https://github.com/" +:+ owner +:+ "/" +:+ rep +:+
                     "/releases/latest/download/" +:+ str_of W name))) /\
    (forall version download_url,
       _get_testing_release_info G owner rep plugin_name token
       = Some (version, download_url) ->
       is_global_build cfg m = Ok false ->
       m' !! "DownloadLinkTesting" = Some (VStr download_url) /\
       m' !! "_testing_download_url" = None).
Proof.
  intros (owner & rep & token & release_data & assets & asset_url & d &
          Hp & Ht & _ & _ & _ & _ & _ & _ & Hm)%get_manifest_from_repository_inv
         (g & pn & m1 & m2 & Hg & Hpn & H1 & H2 & ->)%add_download_links_inv Hrules.
  exists owner, rep, token. split; [done|]. split; [done|].
  destruct (repository_fields_lookup repo_url asset_url token_name
              (release_timestamp R (default VNone
                 match release_data with
                 | VDict rd => assoc_get "published_at" rd
                 | _ => None
                 end))
              (_get_testing_release_info G owner rep plugin_name token)
              (list_to_map d)) as (F1 & _ & F3 & _ & F5 & _).
  rewrite <- Hm in F1, F3, F5. clear Hm.
  assert (forall k, k = "DownloadLinkInstall" \/ k = "DownloadLinkTesting" \/
                    k = "_testing_download_url" ->
            (<["DownloadCount" := VInt 0]>
               (icon_fallback cfg W pn (duplicate_fields (field_duplicates cfg) m2))
             : manifest) !! k = m2 !! k) as Hout.
  { intros k Hk. rewrite lookup_insert_ne, icon_fallback_lookup
      by (by destruct Hk as [-> |[-> | ->]]).
    apply duplicate_fields_fresh. intros s ts Hin.
    destruct (Hrules s ts Hin) as (? & ? & ?). by destruct Hk as [-> |[-> | ->]]. }
  rewrite !Hout by eauto.
  destruct repo_url as [| | |url| |]; try done. cbn [_parse_github_url] in Hp.
  apply split1_join in Hp as [Hpath _].
  unfold install_link in H1.
  rewrite (bool_decide_eq_true_2 _ (ex_intro _ asset_url F3) : has_key m _ = true) in H1.
  unfold get_or in H1. rewrite F1 in H1. cbn [default from_option id str_method bind] in H1.
  injection H1 as <-. rewrite Hpath in H2.
  split.
  - rewrite (testing_link_lookup _ _ _ _ _ _ _ H2) by done.
    unfold resolve_asset_link.
    destruct (truthy (get m "_repository_token_name")); [|by left].
    destruct (get m "_repository_token_name") as [| | |tn| |]; try by left.
    destruct (asset_info_name W (get m "_repository_asset_url") tn) as [name|]; [|by left].
    destruct (truthy name); [|by left].
    right. exists name. rewrite lookup_insert_eq. do 2 f_equal.
    change (String "/" rep) with ("/" +:+ rep). by rewrite !app_assoc_string.
  - intros version download_url Hinfo Hglobal.
    destruct (F5 version download_url Hinfo) as [Hv Hu].
    rewrite Hg in Hglobal. injection Hglobal as ->.
    assert (forall k, k <> "DownloadLinkInstall" ->
              resolve_asset_link W (owner +:+ String "/" rep) m !! k = m !! k) as Hres.
    { intros k Hk. unfold resolve_asset_link. repeat case_match; try done.
      by rewrite lookup_insert_ne. }
    unfold testing_link, has_key in H2. rewrite !Hres in H2 by done.
    rewrite Hv, Hu in H2.
    rewrite bool_decide_eq_true_2 in H2 by (by eexists). cbn [andb negb] in H2.
    injection H2 as <-.
    by rewrite lookup_insert_eq, lookup_insert_ne, lookup_delete_eq.
Qed.

Lemma repository_manifest_links_witness :
  enriched_release !! "DownloadLinkTesting"
  = Some (VStr "https://github.com/o/r/releases/download/testing-v1.1.0/latest.zip") /\
  enriched_release !! "_testing_download_url" = None.
Proof.
  destruct (repository_manifest_links main_cfg
              (sample_world (Some assets_exact_and_versioned)) plugin_release
              with_prerelease "P" (VStr "https://github.com/o/r") (VStr "GITHUB_TOKEN")
              released_with_testing enriched_release)
    as (owner & rep & token & Hp & Ht & _ & Htesting).
  - evaluated.
  - evaluated.
  - intros s ts Hin. entries Hin. split_and!; intros H; absent H.
  - injection Hp as <- <-. injection Ht as <-.
    apply (Htesting "1.1.0"); reflexivity.
Defined.

(** ** SourceAggregator: the local directories *)

(** X30.  The outcome of [_collect_local_manifests].  One directory with a
    usable primary archive and a global archive whose manifest has no [Name]
    makes the whole collection raise [KeyError], whatever the other
    directories hold.  Without such a directory the function returns the
    manifests of the directories, in the order of the directories. *)
Theorem collect_local_manifests_outcome (cfg : Config) (W : World)
    (plugins : list plugin_dir) :
  ((exists d b g, d ∈ plugins /\ usable_manifest (main_zip d) = Some b /\
      usable_manifest (global_zip d) = Some g /\ g !! "Name" = None) ->
   _collect_local_manifests cfg W plugins = Raise KeyError) /\
  ((forall d b g, d ∈ plugins -> usable_manifest (main_zip d) = Some b ->
      usable_manifest (global_zip d) = Some g -> is_Some (g !! "Name")) ->
   exists per_directory,
     Forall2 (fun d l => process_plugin_directory cfg W d = Ok l) plugins per_directory /\
     _collect_local_manifests cfg W plugins = Ok (concat per_directory)).
Proof.
  assert (forall d, (exists l, process_plugin_directory cfg W d = Ok l) \/
                    (process_plugin_directory cfg W d = Raise KeyError /\
                     exists b g, usable_manifest (main_zip d) = Some b /\
                       usable_manifest (global_zip d) = Some g /\ g !! "Name" = None))
    as Hdir.
  { intros d. unfold process_plugin_directory, item, bind.
    destruct (usable_manifest (main_zip d)) as [b|]; [|left; by eexists].
    destruct (usable_manifest (global_zip d)) as [g|]; [|left; by eexists].
    destruct (g !! "Name") eqn:Hn; [left; by eexists|right].
    split; [done|]. by exists b, g. }
  split.
  - intros (d & b & g & Hin & Hb & Hg & Hn).
    induction plugins as [|d0 plugins IH]; [by apply elem_of_nil in Hin|].
    cbn [_collect_local_manifests].
    apply elem_of_cons in Hin as [<-|Hin].
    + assert (process_plugin_directory cfg W d = Raise KeyError) as ->; [|done].
      unfold process_plugin_directory, item, bind. by rewrite Hb, Hg, Hn.
    + destruct (Hdir d0) as [[l ->]|[-> _]]; [|done]. cbn [bind]. by rewrite IH.
  - induction plugins as [|d0 plugins IH]; intros Hgood.
    { exists []. by split; [constructor|]. }
    destruct IH as (per & Hall & Hrest).
    { intros d b g Hin. apply Hgood. by right. }
    cbn [_collect_local_manifests].
    destruct (Hdir d0) as [[l Hl]|[_ (b & g & Hb & Hg & Hn)]].
    + exists (l :: per). split; [by constructor|]. by rewrite Hl, Hrest.
    + destruct (Hgood d0 b g (list_elem_of_here _ _) Hb Hg) as [? ?]. congruence.
Qed.

Lemma collect_local_manifests_outcome_witness :
  _collect_local_manifests main_cfg (sample_world None) [foo_dir; nameless_global_dir]
  = Raise KeyError.
Proof.
  refine (proj1 (collect_local_manifests_outcome main_cfg (sample_world None)
                   [foo_dir; nameless_global_dir]) _).
  exists nameless_global_dir, foo_primary, {[ "InternalName" := VStr "Bar" ]}.
  split_and!; [listed|reflexivity..].
Defined.
